(** * Verification of the Mumble protocol engine of Ultros
    (src/system/protocols/mumble/protocol.py).

    Shallow embedding of [Protocol]: the message registry, the frame decoder
    [dataReceived], the dispatcher [recvProtobuf] with the presence-graph
    handlers, the command interceptor, the outbound facade and the keepalive
    tick.  Bytes are [list byte]; integers are [Z]; Python dicts are [gmap]s
    (or an association list where the order of entries matters); the
    Protocol instance is an explicit state record threaded through an
    exception-state monad. *)

From Stdlib Require Import ZArith Lia Bool List Ascii String.
From Stdlib Require Import Strings.Byte.
From stdpp Require Import base gmap sets list.

Import ListNotations.
Open Scope Z_scope.

(* ------------------------------------------------------------------ *)
(** ** Message registry: [Protocol.ID_MESSAGE] and [Protocol.MESSAGE_ID] *)

Module Mumble_pb2.

(** The generated protobuf message classes used as message kinds. *)
Inductive Kind :=
| Version | UDPTunnel | Authenticate | Ping | Reject | ServerSync
| ChannelRemove | ChannelState | UserRemove | UserState | BanList
| TextMessage | PermissionDenied | ACL | QueryUsers | CryptSetup
| ContextActionModify | ContextAction | UserList | VoiceTarget
| PermissionQuery | CodecVersion | UserStats | RequestBlob | ServerConfig.

Scheme Equality for Kind.

End Mumble_pb2.

Import Mumble_pb2 (Kind, Kind_beq).

(** A Python dict as an association list in insertion order: assigning an
    existing key keeps its position and replaces the value. *)
Definition dict (K V : Type) := list (K * V).

Fixpoint dict_set {K V} (eqb : K -> K -> bool) (d : dict K V) (k : K) (v : V)
  : dict K V :=
  match d with
  | [] => [(k, v)]
  | (k', v') :: d' =>
      if eqb k k' then (k, v) :: d' else (k', v') :: dict_set eqb d' k v
  end.

(** [dict(pairs)]. *)
Definition dict_of_pairs {K V} (eqb : K -> K -> bool) (l : list (K * V))
  : dict K V :=
  fold_left (fun d kv => dict_set eqb d (fst kv) (snd kv)) l [].

Fixpoint dict_get {K V} (eqb : K -> K -> bool) (d : dict K V) (k : K)
  : option V :=
  match d with
  | [] => None
  | (k', v) :: d' => if eqb k k' then Some v else dict_get eqb d' k
  end.

Definition dict_values {K V} (d : dict K V) : list V := map snd d.

(** [enumerate(l)]. *)
Fixpoint enumerate_from {A} (n : nat) (l : list A) : list (nat * A) :=
  match l with
  | [] => []
  | x :: l' => (n, x) :: enumerate_from (S n) l'
  end.

Definition enumerate {A} (l : list A) := enumerate_from 0 l.

(** [Protocol.ID_MESSAGE]. *)
Definition ID_MESSAGE : list Kind :=
  [ Mumble_pb2.Version; Mumble_pb2.UDPTunnel; Mumble_pb2.Authenticate;
    Mumble_pb2.Ping; Mumble_pb2.Reject; Mumble_pb2.ServerSync;
    Mumble_pb2.ChannelRemove; Mumble_pb2.ChannelState;
    Mumble_pb2.UserRemove; Mumble_pb2.UserState; Mumble_pb2.BanList;
    Mumble_pb2.TextMessage; Mumble_pb2.PermissionDenied; Mumble_pb2.ACL;
    Mumble_pb2.QueryUsers; Mumble_pb2.CryptSetup;
    Mumble_pb2.ContextActionModify; Mumble_pb2.ContextAction;
    Mumble_pb2.UserList; Mumble_pb2.VoiceTarget;
    Mumble_pb2.PermissionQuery; Mumble_pb2.CodecVersion;
    Mumble_pb2.UserStats; Mumble_pb2.RequestBlob; Mumble_pb2.ServerConfig ].

(** [Protocol.MESSAGE_ID = dict([(v, k) for k, v in enumerate(ID_MESSAGE)])]. *)
Definition MESSAGE_ID : dict Kind nat :=
  dict_of_pairs Kind_beq (map (fun kv => (snd kv, fst kv)) (enumerate ID_MESSAGE)).

(* ------------------------------------------------------------------ *)
(** ** Frame header: [PREFIX_FORMAT = ">HI"], [PREFIX_LENGTH = 6] *)

Definition PREFIX_LENGTH : Z := 6.

Definition bz (b : byte) : Z := Z.of_N (Byte.to_N b).

(** The low 8 bits of an integer, as [struct.pack] writes them. *)
Definition byte_of (z : Z) : byte :=
  match Byte.of_N (Z.to_N (z mod 256)) with Some b => b | None => x00 end.

(** [struct.unpack(">HI", h)]: [None] is [struct.error] (not six bytes). *)
Definition unpack_prefix (h : list byte) : option (Z * Z) :=
  match h with
  | [b0; b1; b2; b3; b4; b5] =>
      Some (bz b0 * 256 + bz b1,
            ((bz b2 * 256 + bz b3) * 256 + bz b4) * 256 + bz b5)
  | _ => None
  end.

(** [struct.pack(">HI", msg_type, length)]. *)
Definition pack_prefix (msg_type len : Z) : list byte :=
  [byte_of (msg_type / 256); byte_of msg_type;
   byte_of (len / 16777216); byte_of (len / 65536); byte_of (len / 256);
   byte_of len].

(** [msg_type in Protocol.MESSAGE_ID.values()]. *)
Definition valid_msg_id (msg_type : Z) : bool :=
  existsb (fun v => Z.eqb msg_type (Z.of_nat v)) (dict_values MESSAGE_ID).

(* ------------------------------------------------------------------ *)
(** ** The decoder [Protocol.dataReceived]

    Generic in the rest of the protocol state [St] and in the collaborators
    it calls: [parse k payload] is [ID_MESSAGE[k]().ParseFromString(payload)]
    ([None] when it raises), [recvProtobuf] returns the new state and whether
    the handler raised (the state keeps the effects done before the raise),
    [loseConnection] is [self.transport.loseConnection()] and [log_error] is
    [self.log.error]. *)

(** How a call of [dataReceived] ends: normally, or with an exception that
    escapes it. *)
Inductive outcome := Returned | Raised.

Section Decoder.

Context {St Msg : Type}.
Variable parse : Kind -> list byte -> option Msg.
Variable recvProtobuf : St -> Z -> Msg -> St * bool.
Variable loseConnection : St -> St.
Variable log_error : string -> St -> St.

(** One run of the [while] loop body after a complete frame was parsed:
    the handler call inside [try]/[except Exception]. *)
Definition handle_frame (s : St) (msg_type : Z) (msg : Msg) : St :=
  let '(s', raised) := recvProtobuf s msg_type msg in
  if raised then log_error "Exception while handling data." s' else s'.

(** The [while len(self.received) >= PREFIX_LENGTH] loop; [fuel] bounds the
    iterations (each consumes at least [PREFIX_LENGTH] bytes). *)
Fixpoint decode_loop (fuel : nat) (received : list byte) (s : St)
  : (list byte * St) * outcome :=
  match fuel with
  | O => ((received, s), Returned)
  | S fuel' =>
      if Z.of_nat (length received) <? PREFIX_LENGTH
      then ((received, s), Returned)
      else
        match unpack_prefix (take 6 received) with
        | None => ((received, s), Raised)
        | Some (msg_type, len) =>
            let full_length := PREFIX_LENGTH + len in
            if negb (valid_msg_id msg_type)
            then ((received, loseConnection
                               (log_error "Message ID not available." s)),
                  Returned)
            else if Z.of_nat (length received) <? full_length
            then ((received, s), Returned)
            else
              match nth_error ID_MESSAGE (Z.to_nat msg_type) with
              | None => ((received, s), Raised)
              | Some k =>
                  match parse k (take (Z.to_nat len) (drop 6 received)) with
                  | None => ((received, s), Raised)
                  | Some msg =>
                      decode_loop fuel'
                        (drop (Z.to_nat full_length) received)
                        (handle_frame s msg_type msg)
                  end
              end
        end
  end.

(** [dataReceived(recv)] on a protocol whose [self.received] is [received]. *)
Definition dataReceived (p : list byte * St) (recv : list byte)
  : (list byte * St) * outcome :=
  let buf := fst p ++ recv in
  decode_loop (length buf) buf (snd p).

(** Successive deliveries, one [dataReceived] call per chunk. *)
Definition deliver_chunks (p : list byte * St) (chunks : list (list byte))
  : list byte * St :=
  fold_left (fun p c => fst (dataReceived p c)) chunks p.

(** A frame as the peer writes it (cf. [sendProtobuf]): header and payload. *)
Record frame := mk_frame { f_type : Z; f_payload : list byte; f_msg : Msg }.

Definition encode_frame (f : frame) : list byte :=
  pack_prefix (f_type f) (Z.of_nat (length (f_payload f))) ++ f_payload f.

Definition encode_frames (fs : list frame) : list byte :=
  concat (map encode_frame fs).

(** A well-formed frame: a registered tag, a length that fits the header,
    a payload that deserializes to [f_msg]. *)
Definition frame_ok (f : frame) : Prop :=
  0 <= f_type f < 25 /\ Z.of_nat (length (f_payload f)) < 4294967296 /\
  exists k, nth_error ID_MESSAGE (Z.to_nat (f_type f)) = Some k /\
            parse k (f_payload f) = Some (f_msg f).

(** Dispatching a sequence of frames in order. *)
Definition handle_frames (s : St) (fs : list frame) : St :=
  fold_left (fun s f => handle_frame s (f_type f) (f_msg f)) fs s.

End Decoder.

(* ------------------------------------------------------------------ *)
(** ** Messages (the fields of Mumble.proto the handlers read)

    An optional protobuf field is an [option]: [None] is "not set"
    ([HasField] is false) and reading it gives the proto default. *)

Record VersionMsg := mkVersionMsg {
  ver_version : option Z; ver_release : option string;
  ver_os : option string; ver_os_version : option string }.

Record AuthenticateMsg := mkAuthenticateMsg {
  au_username : option string; au_password : option string;
  au_tokens : list string }.

Record RejectMsg := mkRejectMsg { rj_type : option Z; rj_reason : option string }.

Record ChannelStateMsg := mkChannelStateMsg {
  cs_channel_id : option Z; cs_parent : option Z; cs_name : option string;
  cs_position : option Z; cs_links : list Z; cs_links_add : list Z;
  cs_links_remove : list Z }.

Record UserRemoveMsg := mkUserRemoveMsg {
  ur_session : Z; ur_actor : option Z; ur_reason : option string;
  ur_ban : option bool }.

Record UserStateMsg := mkUserStateMsg {
  us_session : option Z; us_actor : option Z; us_name : option string;
  us_channel_id : option Z; us_mute : option bool; us_deaf : option bool;
  us_suppress : option bool; us_self_mute : option bool;
  us_self_deaf : option bool; us_priority_speaker : option bool;
  us_recording : option bool }.

Record TextMessageMsg := mkTextMessageMsg {
  tm_actor : option Z; tm_session : list Z; tm_channel_id : list Z;
  tm_tree_id : list Z; tm_message : string }.

Record PermissionQueryMsg := mkPermissionQueryMsg {
  pq_channel_id : option Z; pq_permissions : option Z; pq_flush : option bool }.

Record ServerConfigMsg := mkServerConfigMsg { sc_allow_html : option bool }.

(** Of a kind whose fields no handler reads, the model keeps only, when
    its schema has required fields, whether they are all set
    ([IsInitialized()]): [ParseFromString] does not check it,
    [SerializeToString] raises [EncodeError] when it is false. The required
    fields of the kinds with content ([UserRemove.session],
    [TextMessage.message]) are always present in this representation. *)
Inductive Msg :=
| MVersion (m : VersionMsg) | MUDPTunnel (initialized : bool)
| MAuthenticate (m : AuthenticateMsg)
| MPing | MReject (m : RejectMsg) | MServerSync (welcome_text : option string)
| MChannelRemove (initialized : bool) | MChannelState (m : ChannelStateMsg)
| MUserRemove (m : UserRemoveMsg) | MUserState (m : UserStateMsg)
| MBanList (initialized : bool)
| MTextMessage (m : TextMessageMsg) | MPermissionDenied | MACL (initialized : bool)
| MQueryUsers | MCryptSetup | MContextActionModify (initialized : bool)
| MContextAction (initialized : bool) | MUserList (initialized : bool)
| MVoiceTarget | MPermissionQuery (m : PermissionQueryMsg)
| MCodecVersion (initialized : bool)
| MUserStats | MRequestBlob | MServerConfig (m : ServerConfigMsg).

(** [message.__class__]. *)
Definition msg_kind (m : Msg) : Kind :=
  match m with
  | MVersion _ => Mumble_pb2.Version | MUDPTunnel _ => Mumble_pb2.UDPTunnel
  | MAuthenticate _ => Mumble_pb2.Authenticate | MPing => Mumble_pb2.Ping
  | MReject _ => Mumble_pb2.Reject | MServerSync _ => Mumble_pb2.ServerSync
  | MChannelRemove _ => Mumble_pb2.ChannelRemove
  | MChannelState _ => Mumble_pb2.ChannelState
  | MUserRemove _ => Mumble_pb2.UserRemove | MUserState _ => Mumble_pb2.UserState
  | MBanList _ => Mumble_pb2.BanList | MTextMessage _ => Mumble_pb2.TextMessage
  | MPermissionDenied => Mumble_pb2.PermissionDenied | MACL _ => Mumble_pb2.ACL
  | MQueryUsers => Mumble_pb2.QueryUsers | MCryptSetup => Mumble_pb2.CryptSetup
  | MContextActionModify _ => Mumble_pb2.ContextActionModify
  | MContextAction _ => Mumble_pb2.ContextAction | MUserList _ => Mumble_pb2.UserList
  | MVoiceTarget => Mumble_pb2.VoiceTarget
  | MPermissionQuery _ => Mumble_pb2.PermissionQuery
  | MCodecVersion _ => Mumble_pb2.CodecVersion | MUserStats => Mumble_pb2.UserStats
  | MRequestBlob => Mumble_pb2.RequestBlob | MServerConfig _ => Mumble_pb2.ServerConfig
  end.

(** [message.IsInitialized()]: every required field is set. *)
Definition msg_initialized (m : Msg) : bool :=
  match m with
  | MUDPTunnel b | MChannelRemove b | MBanList b | MACL b
  | MContextActionModify b | MContextAction b | MUserList b
  | MCodecVersion b => b
  | _ => true
  end.

(** The range the protobuf [uint32] setters accept; outside it they raise
    [ValueError]. *)
Definition uint32_ok (z : Z) : bool := (0 <=? z) && (z <? 4294967296).

Definition empty_userstate : UserStateMsg :=
  mkUserStateMsg None None None None None None None None None None None.

(* ------------------------------------------------------------------ *)
(** ** Presence graph: [Channel] and [User] objects *)

(** Modelled from the spec: the [Channel] class
    (system/protocols/mumble/channel.py, not among the sources): an id, a
    name, an optional parent id, a position, a set of linked channel ids and
    the set of member users.  Members are the identities of the [User]
    objects (their heap locations), as [add_user(user)] stores the object. *)
Record Channel := mkChannel {
  ch_channel_id : Z; ch_name : string; ch_parent : option Z;
  ch_position : Z; ch_links : gset Z; ch_users : gset nat }.

(** Modelled from the spec: [Channel.add_user], [Channel.remove_user],
    [Channel.add_link], [Channel.remove_link] as set insertion and removal. *)
Definition add_user (c : Channel) (u : nat) : Channel :=
  mkChannel (ch_channel_id c) (ch_name c) (ch_parent c) (ch_position c)
            (ch_links c) ({[u]} ∪ ch_users c).
Definition remove_user (c : Channel) (u : nat) : Channel :=
  mkChannel (ch_channel_id c) (ch_name c) (ch_parent c) (ch_position c)
            (ch_links c) (ch_users c ∖ {[u]}).
Definition add_link (c : Channel) (l : Z) : Channel :=
  mkChannel (ch_channel_id c) (ch_name c) (ch_parent c) (ch_position c)
            ({[l]} ∪ ch_links c) (ch_users c).
Definition remove_link (c : Channel) (l : Z) : Channel :=
  mkChannel (ch_channel_id c) (ch_name c) (ch_parent c) (ch_position c)
            (ch_links c ∖ {[l]}) (ch_users c).

(** Modelled from the spec: the [User] class
    (system/protocols/mumble/user.py, not among the sources).  [u_channel]
    is the id of the [Channel] object the user refers to: channel objects
    are only ever created for a fresh id and never replaced or removed, so
    the object is [self.channels[u_channel]]. *)
Record User := mkUser {
  u_session : Z; u_nickname : string; u_channel : Z;
  u_mute : bool; u_deaf : bool; u_suppress : bool; u_self_mute : bool;
  u_self_deaf : bool; u_priority_speaker : bool; u_recording : bool;
  u_is_tracked : bool }.

(** A reference handed to the outbound facade or stored in an event:
    a [User] object (heap location), a [Channel] object (its id), an int,
    a str, or [None]. *)
Inductive Ref := RUser (l : nat) | RChannel (cid : Z) | RInt (z : Z)
               | RStr (s : string) | RNone.

(** The [general_events.PreCommand] event object. *)
Record PreCommand := mkPreCommand {
  pc_command : string; pc_args : string; pc_source : Ref; pc_target : Ref;
  pc_printable : bool; pc_message : string }.

(** Events handed to [EventManager.run_callback]. *)
Inductive Event :=
| PostSetupEv | PreSetupEv | CodecVersionEv | CryptoSetupEv
| PermissionsQueryEv (cid : Z) | ServerSyncEv (welcome : string)
| ServerConfigEv (allow_html : bool) | PingEv
| UserRemoveEv (session actor : Z) (user : option nat) (actor_obj : nat)
| UserDisconnectedEv (user : option nat)
| ChannelLinkedEv (link cid : Z) | ChannelUnlinkedEv (link cid : Z)
| UserJoinedEv (u : nat) | UserMovedEv (u : nat) (new old : Z)
| UserMuteToggleEv (u : nat) (state : bool) (actor : nat)
| UserDeafToggleEv (u : nat) (state : bool) (actor : nat)
| UserSuppressionToggleEv (u : nat) (state : bool)
| UserSelfMuteToggleEv (u : nat) (state : bool)
| UserSelfDeafToggleEv (u : nat) (state : bool)
| UserPrioritySpeakerToggleEv (u : nat) (state : bool) (actor : nat)
| UnknownEv (k : Kind)
| PreCommandEv (e : PreCommand)
| PreMessageReceivedEv (source : nat) (target : Ref) (msg : string)
| MessageReceivedEv (source : nat) (target : Ref) (msg : string)
| MessageSentEv (target : Ref) (msg : string).

(** The state of one [Protocol] instance apart from [self.received]:
    transport closed, warning/error log, [self.pinging], [self.channels],
    [self.users] (session to [User] object), the [User] objects, the
    next free object identity, [self.ourselves], [self.allow_html], the
    events published, the frames written ([msg_type] and message) and the
    number of pending [reactor.callLater(PING_REPEAT_TIME, ping_handler)]. *)
Record PState := mkPState {
  closed : bool; logs : list string; pinging : bool;
  channels : gmap Z Channel; users : gmap Z nat; heap : gmap nat User;
  next_loc : nat; ourselves : option nat; allow_html : bool;
  events : list (string * Event); written : list (Z * Msg);
  pending_pings : nat }.

(** The configured [config["channel"]] section. *)
Inductive ChannelConf :=
| ConfMissing
| Conf (id : option Z) (name : option string).

(** The result detail of [CommandManager.run_command]: [True], [None], or
    an exception. *)
Inductive CmdDetail := DUnauthorized | DNotFound | DError (e : string).

(** Configuration and collaborators: the identity, [control_chars], the
    channel section, [platform.system()], protobuf deserialization,
    [html_to_text], the command manager, and what event subscribers leave
    in the mutable event fields the protocol reads back. *)
Record Env := mkEnv {
  username : string;
  password : string;
  tokens : list string;
  control_chars : string;
  channel_conf : ChannelConf;
  platform_system : string;
  parse : Kind -> list byte -> option Msg;
  html_to_text : string -> string;
  run_command : string -> Ref -> Ref -> string -> bool * CmdDetail;
  pre_command_hook : PreCommand -> PreCommand;
  pre_message_hook : string -> string;
  message_sent_hook : string -> string }.

(* ------------------------------------------------------------------ *)
(** ** Exceptions and state: the monad the handlers run in

    [M A] threads the [PState]; [None] is a raised exception, the state
    keeping every mutation done before the raise, as in Python. *)

Definition M (A : Type) := PState -> PState * option A.

Definition ret {A} (a : A) : M A := fun s => (s, Some a).
Definition bind {A B} (m : M A) (f : A -> M B) : M B :=
  fun s => match m s with
           | (s', Some a) => f a s'
           | (s', None) => (s', None)
           end.
Definition raise {A} : M A := fun s => (s, None).
Definition gets {A} (f : PState -> A) : M A := fun s => (s, Some (f s)).
Definition modify (f : PState -> PState) : M unit := fun s => (f s, Some tt).

(** [try: m except Exception: h]. *)
Definition try_except (m : M unit) (h : M unit) : M unit :=
  fun s => match m s with
           | (s', None) => h s'
           | r => r
           end.

Notation "'do' x <- m ; k" := (bind m (fun x => k))
  (at level 60, x name, m at next level, right associativity).

(** [for x in l: f(x)]. *)
Fixpoint for_each {A} (l : list A) (f : A -> M unit) : M unit :=
  match l with
  | [] => ret tt
  | x :: l' => do _ <- f x; for_each l' f
  end.

(** Field updates of the state record. *)
Definition set_closed (b : bool) (s : PState) : PState :=
  mkPState b (logs s) (pinging s) (channels s) (users s) (heap s) (next_loc s)
    (ourselves s) (allow_html s) (events s) (written s) (pending_pings s).
Definition set_logs (l : list string) (s : PState) : PState :=
  mkPState (closed s) l (pinging s) (channels s) (users s) (heap s) (next_loc s)
    (ourselves s) (allow_html s) (events s) (written s) (pending_pings s).
Definition set_pinging (b : bool) (s : PState) : PState :=
  mkPState (closed s) (logs s) b (channels s) (users s) (heap s) (next_loc s)
    (ourselves s) (allow_html s) (events s) (written s) (pending_pings s).
Definition set_channels (c : gmap Z Channel) (s : PState) : PState :=
  mkPState (closed s) (logs s) (pinging s) c (users s) (heap s) (next_loc s)
    (ourselves s) (allow_html s) (events s) (written s) (pending_pings s).
Definition set_users (u : gmap Z nat) (s : PState) : PState :=
  mkPState (closed s) (logs s) (pinging s) (channels s) u (heap s) (next_loc s)
    (ourselves s) (allow_html s) (events s) (written s) (pending_pings s).
Definition set_heap (h : gmap nat User) (n : nat) (s : PState) : PState :=
  mkPState (closed s) (logs s) (pinging s) (channels s) (users s) h n
    (ourselves s) (allow_html s) (events s) (written s) (pending_pings s).
Definition set_ourselves (o : option nat) (s : PState) : PState :=
  mkPState (closed s) (logs s) (pinging s) (channels s) (users s) (heap s)
    (next_loc s) o (allow_html s) (events s) (written s) (pending_pings s).
Definition set_allow_html (b : bool) (s : PState) : PState :=
  mkPState (closed s) (logs s) (pinging s) (channels s) (users s) (heap s)
    (next_loc s) (ourselves s) b (events s) (written s) (pending_pings s).
Definition set_events (e : list (string * Event)) (s : PState) : PState :=
  mkPState (closed s) (logs s) (pinging s) (channels s) (users s) (heap s)
    (next_loc s) (ourselves s) (allow_html s) e (written s) (pending_pings s).
Definition set_written (w : list (Z * Msg)) (s : PState) : PState :=
  mkPState (closed s) (logs s) (pinging s) (channels s) (users s) (heap s)
    (next_loc s) (ourselves s) (allow_html s) (events s) w (pending_pings s).
Definition set_pending_pings (n : nat) (s : PState) : PState :=
  mkPState (closed s) (logs s) (pinging s) (channels s) (users s) (heap s)
    (next_loc s) (ourselves s) (allow_html s) (events s) (written s) n.

(** [self.log.warn] / [self.log.error] (info and debug lines are not kept). *)
Definition log_line (line : string) (s : PState) : PState :=
  set_logs (logs s ++ [line]) s.
Definition log_warn (line : string) : M unit := modify (log_line line).

(** [self.transport.loseConnection()]. *)
Definition loseConnection (s : PState) : PState := set_closed true s.

(** [self.event_manager.run_callback(name, event)]. *)
Definition run_callback (name : string) (ev : Event) : M unit :=
  modify (fun s => set_events (events s ++ [(name, ev)]) s).

(** [self.channels[cid]]: [KeyError] when absent. *)
Definition get_channel_obj (cid : Z) : M Channel :=
  fun s => match channels s !! cid with
           | Some c => (s, Some c)
           | None => (s, None)
           end.

(** [self.users[session]]: [KeyError] when absent. *)
Definition get_user_obj (session : Z) : M nat :=
  fun s => match users s !! session with
           | Some l => (s, Some l)
           | None => (s, None)
           end.

(** Reading the attributes of a [User] object. *)
Definition deref (l : nat) : M User :=
  fun s => match heap s !! l with
           | Some u => (s, Some u)
           | None => (s, None)
           end.

(** Assigning an attribute of a [User] object. *)
Definition update_user (l : nat) (f : User -> User) : M unit :=
  do u <- deref l; modify (fun s => set_heap (<[l := f u]> (heap s)) (next_loc s) s).

(** [channel_obj.method(...)] on [self.channels[cid]]. *)
Definition update_channel (cid : Z) (f : Channel -> Channel) : M unit :=
  do c <- get_channel_obj cid;
  modify (fun s => set_channels (<[cid := f c]> (channels s)) s).

(** Allocating a new [User] object. *)
Definition alloc_user (u : User) : M nat :=
  fun s => let l := next_loc s in
           (set_heap (<[l := u]> (heap s)) (S l) s, Some l).

Definition set_u_channel (c : Z) (u : User) : User :=
  mkUser (u_session u) (u_nickname u) c (u_mute u) (u_deaf u) (u_suppress u)
    (u_self_mute u) (u_self_deaf u) (u_priority_speaker u) (u_recording u)
    (u_is_tracked u).
Definition set_u_mute (b : bool) (u : User) : User :=
  mkUser (u_session u) (u_nickname u) (u_channel u) b (u_deaf u) (u_suppress u)
    (u_self_mute u) (u_self_deaf u) (u_priority_speaker u) (u_recording u)
    (u_is_tracked u).
Definition set_u_deaf (b : bool) (u : User) : User :=
  mkUser (u_session u) (u_nickname u) (u_channel u) (u_mute u) b (u_suppress u)
    (u_self_mute u) (u_self_deaf u) (u_priority_speaker u) (u_recording u)
    (u_is_tracked u).
Definition set_u_suppress (b : bool) (u : User) : User :=
  mkUser (u_session u) (u_nickname u) (u_channel u) (u_mute u) (u_deaf u) b
    (u_self_mute u) (u_self_deaf u) (u_priority_speaker u) (u_recording u)
    (u_is_tracked u).
Definition set_u_self_mute (b : bool) (u : User) : User :=
  mkUser (u_session u) (u_nickname u) (u_channel u) (u_mute u) (u_deaf u)
    (u_suppress u) b (u_self_deaf u) (u_priority_speaker u) (u_recording u)
    (u_is_tracked u).
Definition set_u_self_deaf (b : bool) (u : User) : User :=
  mkUser (u_session u) (u_nickname u) (u_channel u) (u_mute u) (u_deaf u)
    (u_suppress u) (u_self_mute u) b (u_priority_speaker u) (u_recording u)
    (u_is_tracked u).
Definition set_u_priority_speaker (b : bool) (u : User) : User :=
  mkUser (u_session u) (u_nickname u) (u_channel u) (u_mute u) (u_deaf u)
    (u_suppress u) (u_self_mute u) (u_self_deaf u) b (u_recording u)
    (u_is_tracked u).
Definition set_u_recording (b : bool) (u : User) : User :=
  mkUser (u_session u) (u_nickname u) (u_channel u) (u_mute u) (u_deaf u)
    (u_suppress u) (u_self_mute u) (u_self_deaf u) (u_priority_speaker u) b
    (u_is_tracked u).
Definition set_u_is_tracked (b : bool) (u : User) : User :=
  mkUser (u_session u) (u_nickname u) (u_channel u) (u_mute u) (u_deaf u)
    (u_suppress u) (u_self_mute u) (u_self_deaf u) (u_priority_speaker u)
    (u_recording u) b.

(* ------------------------------------------------------------------ *)
(** ** Python 2 [str] operations used by the protocol *)

Definition has_key {V} (m : gmap Z V) (k : Z) : bool :=
  match m !! k with Some _ => true | None => false end.

(** [str.lower()] on a byte string: ASCII letters only. *)
Definition ascii_lower (c : ascii) : ascii :=
  let n := nat_of_ascii c in
  if ((65 <=? n)%nat && (n <=? 90)%nat)%bool then ascii_of_nat (n + 32) else c.

Fixpoint lower (s : string) : string :=
  match s with
  | EmptyString => EmptyString
  | String c s' => String (ascii_lower c) (lower s')
  end.

(** [s[n:]]. *)
Fixpoint str_drop (n : nat) (s : string) : string :=
  match n, s with
  | O, _ => s
  | S n', EmptyString => EmptyString
  | S n', String _ s' => str_drop n' s'
  end.

(** [s.replace(old, new)] for a non-empty [old]: every non-overlapping
    occurrence, left to right; [fuel] is the length of [s]. *)
Fixpoint replace_fuel (fuel : nat) (old new s : string) : string :=
  match fuel with
  | O => s
  | S f =>
      match s with
      | EmptyString => EmptyString
      | String c s' =>
          if String.prefix old s
          then String.append new (replace_fuel f old new (str_drop (String.length old) s))
          else String c (replace_fuel f old new s')
      end
  end.

Definition py_replace (s old new : string) : string :=
  replace_fuel (String.length s) old new s.

(** [str.isspace()] on one byte: space, \t, \n, \v, \f, \r. *)
Definition is_space (c : ascii) : bool :=
  let n := nat_of_ascii c in
  ((n =? 32)%nat || ((9 <=? n)%nat && (n <=? 13)%nat))%bool.

Fixpoint lstrip (s : string) : string :=
  match s with
  | EmptyString => EmptyString
  | String c s' => if is_space c then lstrip s' else s
  end.

(** The first whitespace-free token and what follows it. *)
Fixpoint span_token (s : string) : string * string :=
  match s with
  | EmptyString => (EmptyString, EmptyString)
  | String c s' =>
      if is_space c then (EmptyString, s)
      else let '(t, r) := span_token s' in (String c t, r)
  end.

(** [s.split(None, 1)]. *)
Definition py_split1 (s : string) : list string :=
  match lstrip s with
  | EmptyString => []
  | s1 =>
      let '(tok, rest) := span_token s1 in
      match lstrip rest with
      | EmptyString => [tok]
      | r => [tok; r]
      end
  end.

(** [cgi.escape(s)]: [&], [<] and [>] become entities. *)
Fixpoint cgi_escape (s : string) : string :=
  match s with
  | EmptyString => EmptyString
  | String c s' =>
      let rest := cgi_escape s' in
      if Ascii.eqb c "&"%char then String.append "&amp;" rest
      else if Ascii.eqb c "<"%char then String.append "&lt;" rest
      else if Ascii.eqb c ">"%char then String.append "&gt;" rest
      else String c rest
  end.

(* ------------------------------------------------------------------ *)
(** ** Outbound frames and lookups *)

Section Protocol.

Variable env : Env.

(** [sendProtobuf(message)]: the tag is [MESSAGE_ID[message.__class__]];
    [SerializeToString()] raises when a required field is unset; the frame
    written is the tag with the message (serialized behind the six-byte
    header). *)
Definition sendProtobuf (m : Msg) : M unit :=
  match dict_get Kind_beq MESSAGE_ID (msg_kind m) with
  | Some t =>
      if msg_initialized m
      then modify (fun s => set_written (written s ++ [(Z.of_nat t, m)]) s)
      else raise (* EncodeError *)
  | None => raise
  end.

(** [init_ping()]: [reactor.callLater(PING_REPEAT_TIME, self.ping_handler)]. *)
Definition init_ping : M unit :=
  modify (fun s => set_pending_pings (S (pending_pings s)) s).

(** [ping_handler()]. *)
Definition ping_handler : M unit :=
  do p <- gets pinging;
  if p then do _ <- sendProtobuf MPing; init_ping else ret tt.

(** [get_channel(name_or_id)]: a name is looked up case-insensitively over
    [self.channels.iteritems()] (here in the map's enumeration order), an
    int by key; any other key misses ([KeyError] caught). *)
Definition get_channel (r : Ref) : M (option Channel) :=
  match r with
  | RStr name =>
      gets (fun s => List.find (fun c => String.eqb (lower (ch_name c)) (lower name))
                               (map snd (map_to_list (channels s))))
  | RInt z => gets (fun s => channels s !! z)
  | _ => ret None
  end.

(** [get_user(name_or_session)]. *)
Definition get_user (r : Ref) : M (option nat) :=
  match r with
  | RStr name =>
      gets (fun s => List.find
              (fun l => match heap s !! l with
                        | Some u => String.eqb (lower (u_nickname u)) (lower name)
                        | None => false
                        end)
              (map snd (map_to_list (users s))))
  | RInt z => gets (fun s => users s !! z)
  | _ => ret None
  end.

Definition channel_ref (c : option Channel) : Ref :=
  match c with Some c => RChannel (ch_channel_id c) | None => RNone end.

(** [join_channel(channel)]. *)
Definition join_channel (channel : Ref) : M bool :=
  do r <- (match channel with
           | RStr _ => do c <- get_channel channel; ret (channel_ref c)
           | _ => ret channel
           end);
  match r with
  | RNone => ret false
  | RChannel cid | RInt cid =>
      if negb (uint32_ok cid) then raise (* msg.channel_id = ...: ValueError *)
      else
        do _ <- sendProtobuf (MUserState (mkUserStateMsg None None None (Some cid)
                                   None None None None None None None));
        ret true
  | _ => raise
  end.

(** The [try] block run when our own user first appears: join the channel
    configured by id, else by name. *)
Definition join_configured_channel : M unit :=
  try_except
    (match channel_conf env with
     | ConfMissing => raise
     | Conf oid oname =>
         match oid with
         | Some i =>
             if negb (i =? 0) then
               do present <- gets (fun s => has_key (channels s) i);
               if present then
                 do c <- get_channel_obj i;
                 do _ <- join_channel (RChannel (ch_channel_id c)); ret tt
               else log_warn "No channel with id"
             else
               match oname with
               | Some n =>
                   if negb (String.eqb n EmptyString) then
                     do chan <- get_channel (RStr n);
                     match chan with
                     | Some c => do _ <- join_channel (RChannel (ch_channel_id c)); ret tt
                     | None => log_warn "No channel with name"
                     end
                   else log_warn "No channel found in config"
               | None => log_warn "No channel found in config"
               end
         | None =>
             match oname with
             | Some n =>
                 if negb (String.eqb n EmptyString) then
                   do chan <- get_channel (RStr n);
                   match chan with
                   | Some c => do _ <- join_channel (RChannel (ch_channel_id c)); ret tt
                   | None => log_warn "No channel with name"
                   end
                 else log_warn "No channel found in config"
             | None => log_warn "No channel found in config"
             end
         end
     end)
    (log_warn "Config is missing 'channel' section").

(* ------------------------------------------------------------------ *)
(** ** Presence-graph handlers *)

(** [handle_msg_channelstate(message)]. *)
Definition handle_msg_channelstate (m : ChannelStateMsg) : M unit :=
  let cid := default 0 (cs_channel_id m) in
  do known <- gets (fun s => has_key (channels s) cid);
  do _ <- (if known then ret tt else
            (* the debug line reads [self.channels[link]] and
               [self.channels[message.channel_id]] for each initial link *)
            do _ <- for_each (cs_links m) (fun link =>
                      do _ <- get_channel_obj link;
                      do _ <- get_channel_obj cid; ret tt);
            modify (fun s => set_channels
              (<[cid := mkChannel cid (default EmptyString (cs_name m)) (cs_parent m)
                          (default 0 (cs_position m)) (list_to_set (cs_links m)) ∅]>
                 (channels s)) s));
  do _ <- for_each (cs_links_add m) (fun link =>
            do _ <- update_channel cid (fun c => add_link c link);
            do _ <- get_channel_obj link; do _ <- get_channel_obj cid;
            do _ <- get_channel_obj link; do _ <- get_channel_obj cid;
            run_callback "Mumble/ChannelLinked" (ChannelLinkedEv link cid));
  for_each (cs_links_remove m) (fun link =>
            do _ <- update_channel cid (fun c => remove_link c link);
            do _ <- get_channel_obj link; do _ <- get_channel_obj cid;
            do _ <- get_channel_obj link; do _ <- get_channel_obj cid;
            run_callback "Mumble/ChannelUnlinked" (ChannelUnlinkedEv link cid)).

(** The [if message.HasField('channel_id')] block for a known user [l]. *)
Definition userstate_move (m : UserStateMsg) (l : nat) : M unit :=
  match us_channel_id m with
  | None => ret tt
  | Some newc =>
      do _ <- get_user_obj (default 0 (us_actor m));
      do u <- deref l;
      do _ <- get_channel_obj newc;
      do old <- get_channel_obj (u_channel u);
      do _ <- update_channel (u_channel u) (fun c => remove_user c l);
      do _ <- update_channel newc (fun c => add_user c l);
      do _ <- get_channel_obj newc;
      do _ <- update_user l (set_u_channel newc);
      run_callback "Mumble/UserMoved" (UserMovedEv l newc (ch_channel_id old))
  end.

(** A flag toggle whose event names the actor ([mute], [deaf],
    [priority_speaker]). *)
Definition userstate_toggle_actor (field : option bool) (actor : Z) (l : nat)
    (set : bool -> User -> User) (name : string)
    (ev : nat -> bool -> nat -> Event) : M unit :=
  match field with
  | None => ret tt
  | Some b =>
      do a <- get_user_obj actor;
      do _ <- update_user l (set b);
      run_callback name (ev l b a)
  end.

(** A flag toggle without actor ([suppress], [self_mute], [self_deaf]). *)
Definition userstate_toggle (field : option bool) (l : nat)
    (set : bool -> User -> User) (name : string)
    (ev : nat -> bool -> Event) : M unit :=
  match field with
  | None => ret tt
  | Some b =>
      do _ <- update_user l (set b);
      run_callback name (ev l b)
  end.

(** The [recording] block: the attribute is assigned and a
    [UserRecordingToggle] event object is built, but no [run_callback]
    follows it. *)
Definition userstate_recording (field : option bool) (l : nat) : M unit :=
  match field with
  | None => ret tt
  | Some b => update_user l (set_u_recording b)
  end.

(** [handle_msg_userstate(message)]. *)
Definition handle_msg_userstate (m : UserStateMsg) : M unit :=
  let session := default 0 (us_session m) in
  let name := default EmptyString (us_name m) in
  do known <- gets (fun s => has_key (users s) session);
  if negb (String.eqb name EmptyString) && negb known then
    let cid := default 0 (us_channel_id m) in
    do _ <- get_channel_obj cid;
    do l <- alloc_user (mkUser session name cid
                          (default false (us_mute m)) (default false (us_deaf m))
                          (default false (us_suppress m))
                          (default false (us_self_mute m))
                          (default false (us_self_deaf m))
                          (default false (us_priority_speaker m))
                          (default false (us_recording m)) true);
    do _ <- modify (fun s => set_users (<[session := l]> (users s)) s);
    do l' <- get_user_obj session;
    do _ <- update_channel cid (fun c => add_user c l');
    if String.eqb name (username env) then
      do l'' <- get_user_obj session;
      do _ <- modify (set_ourselves (Some l''));
      join_configured_channel
    else
      do l'' <- get_user_obj session;
      run_callback "Mumble/UserJoined" (UserJoinedEv l'')
  else
    let actor := default 0 (us_actor m) in
    do l <- get_user_obj session;
    do _ <- userstate_move m l;
    do _ <- userstate_toggle_actor (us_mute m) actor l set_u_mute
              "Mumble/UserMuteToggle" UserMuteToggleEv;
    do _ <- userstate_toggle_actor (us_deaf m) actor l set_u_deaf
              "Mumble/UserDeafToggle" UserDeafToggleEv;
    do _ <- userstate_toggle (us_suppress m) l set_u_suppress
              "Mumble/UserSuppressionToggle" UserSuppressionToggleEv;
    do _ <- userstate_toggle (us_self_mute m) l set_u_self_mute
              "Mumble/UserSelfMuteToggle" UserSelfMuteToggleEv;
    do _ <- userstate_toggle (us_self_deaf m) l set_u_self_deaf
              "Mumble/UserSelfDeafToggle" UserSelfDeafToggleEv;
    do _ <- userstate_toggle_actor (us_priority_speaker m) actor l
              set_u_priority_speaker "Mumble/UserPrioritySpeakerToggle"
              UserPrioritySpeakerToggleEv;
    userstate_recording (us_recording m) l.

(** The [UserRemove] branch of [recvProtobuf]. *)
Definition handle_msg_userremove (m : UserRemoveMsg) : M unit :=
  let session := ur_session m in
  let actor := default 0 (ur_actor m) in
  do known <- gets (fun s => has_key (users s) session);
  do user <- (if known then
               do l <- get_user_obj session;
               do _ <- update_user l (set_u_is_tracked false);
               do u <- deref l;
               do _ <- update_channel (u_channel u) (fun c => remove_user c l);
               do _ <- modify (fun s => set_users (delete session (users s)) s);
               ret (Some l)
             else ret None);
  do ka <- gets (fun s => has_key (users s) actor);
  do _ <- (if ka then
            do a <- get_user_obj actor;
            run_callback "Mumble/UserRemove" (UserRemoveEv session actor user a)
          else ret tt);
  run_callback "UserDisconnected" (UserDisconnectedEv user).

(* ------------------------------------------------------------------ *)
(** ** Command interceptor and text messages *)

(** [handle_command(source, target, message)]. *)
Definition handle_command (source target : Ref) (message : string) : M bool :=
  let cc := lower (py_replace (control_chars env) "{NICK}" (username env)) in
  if String.prefix cc (lower message) then
    let replaced := str_drop (String.length cc) message in
    match py_split1 replaced with
    | [] => raise (* [split[0]]: IndexError *)
    | command :: rest =>
        let args := match rest with a :: _ => a | [] => EmptyString end in
        let ev := mkPreCommand command args source target true message in
        do _ <- run_callback "PreCommand" (PreCommandEv ev);
        let ev' := pre_command_hook env ev in
        let '(a, b) := run_command env (pc_command ev') (pc_source ev')
                                   (pc_target ev') (pc_args ev') in
        if a then ret true
        else match b with
             | DUnauthorized => do _ <- log_warn "not authorized"; ret true
             | DNotFound => ret false
             | DError _ => do _ <- log_warn "An error occured"; ret true
             end
    end
  else ret false.

(** [handle_msg_textmessage(message)]. *)
Definition handle_msg_textmessage (m : TextMessageMsg) : M unit :=
  let actor := default 0 (tm_actor m) in
  do known <- gets (fun s => has_key (users s) actor);
  if known then
    do l <- get_user_obj actor;
    let msg := html_to_text env (tm_message m) in
    do target <- (match tm_channel_id m with
                  | cid :: _ => do c <- get_channel_obj cid; ret (RChannel cid)
                  | [] => ret (RUser l)
                  end);
    do iscmd <- handle_command (RUser l) target msg;
    if iscmd then ret tt
    else
      do _ <- run_callback "PreMessageReceived" (PreMessageReceivedEv l target msg);
      run_callback "MessageReceived"
        (MessageReceivedEv l target (pre_message_hook env msg))
  else ret tt.

(* ------------------------------------------------------------------ *)
(** ** The dispatcher [recvProtobuf] *)

Definition recvProtobuf_M (m : Msg) : M unit :=
  match m with
  | MVersion _ => run_callback "PostSetup" PostSetupEv
  | MReject _ =>
      do _ <- modify loseConnection;
      modify (set_pinging false)
  | MCodecVersion _ => run_callback "Mumble/CodecVersion" CodecVersionEv
  | MCryptSetup => run_callback "Mumble/CryptoSetup" CryptoSetupEv
  | MChannelState c => handle_msg_channelstate c
  | MPermissionQuery q =>
      do c <- get_channel_obj (default 0 (pq_channel_id q));
      run_callback "Mumble/PermissionsQuery" (PermissionsQueryEv (ch_channel_id c))
  | MUserState u => handle_msg_userstate u
  | MServerSync w =>
      run_callback "Mumble/ServerSync"
        (ServerSyncEv (html_to_text env (default EmptyString w)))
  | MServerConfig c =>
      do _ <- modify (set_allow_html (default false (sc_allow_html c)));
      do h <- gets allow_html;
      run_callback "Mumble/ServerConfig" (ServerConfigEv h)
  | MPing => run_callback "Mumble/Ping" PingEv
  | MUserRemove r => handle_msg_userremove r
  | MTextMessage t => handle_msg_textmessage t
  | _ => run_callback "Mumble/Unknown" (UnknownEv (msg_kind m))
  end.

(** [recvProtobuf(msg_type, message)]: the new state and whether it raised. *)
Definition recvProtobuf (s : PState) (msg_type : Z) (m : Msg) : PState * bool :=
  let '(s', r) := recvProtobuf_M m s in
  (s', match r with Some _ => false | None => true end).

(** [Protocol.dataReceived] on the protocol's own dispatcher. *)
Definition protocol_dataReceived (p : list byte * PState) (recv : list byte)
  : (list byte * PState) * outcome :=
  dataReceived (parse env) recvProtobuf loseConnection log_line p recv.

(* ------------------------------------------------------------------ *)
(** ** Outbound facade *)

(** [msg(message, target="channel", target_id=None)]. *)
Definition msg (message target : string) (target_id : option Z) : M unit :=
  do tid <- (match target_id with
             | Some t => ret (Some t)
             | None =>
                 if String.eqb target "channel" then
                   do o <- gets ourselves;
                   match o with
                   | Some l => do u <- deref l; ret (Some (u_channel u))
                   | None => raise (* None.channel: AttributeError *)
                   end
                 else ret None
             end);
  let message := cgi_escape message in
  match tid with
  | None => raise (* appending None to a repeated uint32 field *)
  | Some t =>
      if negb (uint32_ok t) then raise (* append: ValueError, out of range *)
      else if String.eqb target "channel"
      then sendProtobuf (MTextMessage (mkTextMessageMsg None [] [t] [] message))
      else sendProtobuf (MTextMessage (mkTextMessageMsg None [t] [] [] message))
  end.

(** [msg_channel(message, channel, use_event)]. *)
Definition msg_channel (message : string) (channel : Ref) (use_event : bool)
  : M unit :=
  match channel with
  | RChannel cid | RInt cid =>
      do message <- (if use_event then
                       do _ <- get_channel_obj cid;
                       do _ <- run_callback "MessageSent" (MessageSentEv (RChannel cid) message);
                       ret (message_sent_hook env message)
                     else ret message);
      do _ <- get_channel_obj cid;
      msg message "channel" (Some cid)
  | _ => raise (* self.channels[channel]: KeyError *)
  end.

(** [msg_user(message, user, use_event)]. *)
Definition msg_user (message : string) (user : Ref) (use_event : bool) : M unit :=
  do sess <- (match user with
              | RUser l => do u <- deref l; ret (u_session u)
              | RInt z => ret z
              | _ => raise (* self.users[user]: KeyError *)
              end);
  do message <- (if use_event then
                   do l <- get_user_obj sess;
                   do _ <- run_callback "MessageSent" (MessageSentEv (RUser l) message);
                   ret (message_sent_hook env message)
                 else ret message);
  do _ <- get_user_obj sess;
  msg message "user" (Some sess).

(** Target resolution shared by [send_msg] and [send_action]: an int or a
    str is looked up (as a user when [target_type == "user"], else as a
    channel); [None] is [return False]. *)
Definition resolve_target (target : Ref) (target_type : option string)
  : M (option Ref) :=
  match target with
  | RInt _ | RStr _ =>
      match target_type with
      | Some t =>
          if String.eqb t "user" then
            do u <- get_user target; ret (option_map RUser u)
          else do c <- get_channel target; ret (option_map (fun c => RChannel (ch_channel_id c)) c)
      | None => do c <- get_channel target; ret (option_map (fun c => RChannel (ch_channel_id c)) c)
      end
  | _ => ret (Some target)
  end.

(** [send_msg(target, message, target_type, use_event)]. *)
Definition send_msg (target : Ref) (message : string)
    (target_type : option string) (use_event : bool) : M bool :=
  do t <- resolve_target target target_type;
  match t with
  | None => ret false
  | Some (RUser l) => do _ <- msg_user message (RUser l) use_event; ret true
  | Some (RChannel c) => do _ <- msg_channel message (RChannel c) use_event; ret true
  | Some _ => ret false
  end.

(** [send_action(target, message, target_type, use_event)]. *)
Definition send_action (target : Ref) (message : string)
    (target_type : option string) (use_event : bool) : M bool :=
  do t <- resolve_target target target_type;
  match t with
  | None => ret false
  | Some t =>
      let message := String.append "*" (String.append message "*") in
      match t with
      | RUser l => do _ <- msg_user message (RUser l) use_event; ret true
      | RChannel c => do _ <- msg_channel message (RChannel c) use_event; ret true
      | _ => ret false
      end
  end.

(** [shutdown()]. *)
Definition shutdown : M unit :=
  do _ <- msg "Disconnecting: Protocol shutdown" "channel" None;
  modify loseConnection.

(** [VERSION_DATA = (1 << 16) | (2 << 8) | 4]. *)
Definition VERSION_DATA : Z := Z.lor (Z.lor (Z.shiftl 1 16) (Z.shiftl 2 8)) 4.

(** [connectionMade()]. *)
Definition connectionMade : M unit :=
  do _ <- sendProtobuf (MVersion (mkVersionMsg (Some VERSION_DATA) (Some "1.2.4"%string)
                          (Some (platform_system env))
                          (Some "Mumble 1.2.4 Twisted Protocol"%string)));
  do _ <- sendProtobuf (MAuthenticate (mkAuthenticateMsg (Some (username env))
                          (if String.eqb (password env) EmptyString then None
                           else Some (password env))
                          (tokens env)));
  do _ <- run_callback "PreSetup" PreSetupEv;
  do _ <- init_ping;
  sendProtobuf (MUserState (mkUserStateMsg None None None None None None None
                              (Some true) (Some true) None None)).

(** A pending [reactor.callLater] for [ping_handler] fires. *)
Definition ping_timer : M unit :=
  do n <- gets pending_pings;
  match n with
  | O => ret tt
  | S n' => do _ <- modify (set_pending_pings n'); ping_handler
  end.

End Protocol.

(* ------------------------------------------------------------------ *)
(** ** A connection driven by the reactor *)

(** What the event loop can do to a connection: deliver bytes, fire a
    pending ping timer, or call one of the public methods. *)
Inductive Input :=
| IConnectionMade
| IDataReceived (recv : list byte)
| IPingTimer
| IMsg (message target : string) (target_id : option Z)
| ISendMsg (target : Ref) (message : string) (target_type : option string)
           (use_event : bool)
| ISendAction (target : Ref) (message : string) (target_type : option string)
              (use_event : bool)
| IJoinChannel (channel : Ref)
| IShutdown.

Definition Conn := (list byte * PState)%type.

(** One reactor step; an exception escaping a call leaves the state it had
    reached. *)
Definition step (env : Env) (c : Conn) (i : Input) : Conn :=
  match i with
  | IConnectionMade => (fst c, fst (connectionMade env (snd c)))
  | IDataReceived recv => fst (protocol_dataReceived env c recv)
  | IPingTimer => (fst c, fst (ping_timer (snd c)))
  | IMsg m t tid => (fst c, fst (msg m t tid (snd c)))
  | ISendMsg t m ty ue => (fst c, fst (send_msg env t m ty ue (snd c)))
  | ISendAction t m ty ue => (fst c, fst (send_action env t m ty ue (snd c)))
  | IJoinChannel ch => (fst c, fst (join_channel ch (snd c)))
  | IShutdown => (fst c, fst (shutdown (snd c)))
  end.

Definition run (env : Env) (c : Conn) (inputs : list Input) : Conn :=
  fold_left (step env) inputs c.

(** Number of ping frames written. *)
Definition count_pings (w : list (Z * Msg)) : nat :=
  length (List.filter (fun tm => match snd tm with MPing => true | _ => false end) w).

(** A fresh protocol object: the class attributes [channels = {}],
    [users = {}], [pinging = True], [ourselves = None], nothing written or
    scheduled yet. *)
Definition initial_state : PState :=
  mkPState false [] true ∅ ∅ ∅ 0 None false [] [] 0.

(* ------------------------------------------------------------------ *)
(** ** Example inputs *)

(** A root channel, a user joining it, and deltas for a session. *)
Definition example_channel_state : ChannelStateMsg :=
  mkChannelStateMsg (Some 0) None (Some "Root"%string) (Some 0) [] [] [].
Definition example_join : UserStateMsg :=
  mkUserStateMsg (Some 5) None (Some "alice"%string) (Some 0)
    None None None None None None None.
Definition example_mute (session : Z) : UserStateMsg :=
  mkUserStateMsg (Some session) None None None (Some true)
    None None None None None None.
Definition example_recording (session : Z) (b : bool) : UserStateMsg :=
  mkUserStateMsg (Some session) None None None None
    None None None None None (Some b).

(** A payload parser for examples: a channel-state payload is the root
    channel, an empty user-state payload the join above and a non-empty
    one a mute delta for session 7. It rejects every text-message payload;
    the examples only give it [[x08]], which [ParseFromString] rejects as
    well: [0x08] is the key of field 1 ([actor], varint) with the value
    missing, a truncated message (DecodeError). *)
Definition example_parse (k : Kind) (p : list byte) : option Msg :=
  match k, p with
  | Mumble_pb2.ChannelState, _ => Some (MChannelState example_channel_state)
  | Mumble_pb2.UserState, [] => Some (MUserState example_join)
  | Mumble_pb2.UserState, _ :: _ => Some (MUserState (example_mute 7))
  | Mumble_pb2.Reject, _ => Some (MReject (mkRejectMsg None None))
  | Mumble_pb2.Ping, _ => Some MPing
  | _, _ => None
  end.

(** A command manager that knows no command. *)
Definition no_commands (command : string) (source target : Ref) (args : string)
  : bool * CmdDetail := (false, DNotFound).

Definition example_env (parse_fn : Kind -> list byte -> option Msg)
    (control : string) : Env :=
  mkEnv "bot" "secret" [] control ConfMissing "Linux" parse_fn (fun t => t)
    no_commands (fun e => e) (fun t => t) (fun t => t).

(** Two frames as a server sends them: a channel state (payload one byte)
    and a user state (empty payload). *)
Definition example_frames : list (@frame Msg) :=
  [mk_frame 7 [x00] (MChannelState example_channel_state);
   mk_frame 9 [] (MUserState example_join)].

(* ------------------------------------------------------------------ *)
(** ** Predicates on states and computations *)

(** [m] keeps [P]: from a state satisfying [P] it ends in one, whether it
    returns or raises. *)
Definition preserves (P : PState -> Prop) {A} (m : M A) : Prop :=
  forall s, P s -> P (fst (m s)).

(** Pinging off, transport closed, and [n] ping frames written so far. *)
Definition no_ping_state (n : nat) (s : PState) : Prop :=
  pinging s = false /\ closed s = true /\ count_pings (written s) = n.

(** Code that reads the state and may raise, but never writes. *)
Definition readonly {A} (m : M A) : Prop := forall s, fst (m s) = s.

(** Both directions of membership agree, [self.users] maps distinct
    sessions to distinct objects, and every object lies below the next
    allocation address. *)
Definition ginv (chs : gmap Z Channel) (us : gmap Z nat) (h : gmap nat User)
    (nl : nat) : Prop :=
  (forall sess l, us !! sess = Some l ->
     exists u c, h !! l = Some u /\ chs !! u_channel u = Some c /\ l ∈ ch_users c) /\
  (forall cid c l, chs !! cid = Some c -> l ∈ ch_users c ->
     exists sess u, us !! sess = Some l /\ h !! l = Some u /\ u_channel u = cid) /\
  (forall s1 s2 l, us !! s1 = Some l -> us !! s2 = Some l -> s1 = s2) /\
  (forall l u, h !! l = Some u -> (l < nl)%nat).

Definition graph_inv (s : PState) : Prop :=
  ginv (channels s) (users s) (heap s) (next_loc s).

(** The UserState frame [join_channel] writes to move us to a channel. *)
Definition join_frame (cid : Z) : Z * Msg :=
  (9, MUserState (mkUserStateMsg None None None (Some cid)
                    None None None None None None None)).

(* ================================================================== *)
(** * Proofs *)

(* ------------------------------------------------------------------ *)
(** ** The registry *)

(** C3: the registry is the fixed 25-entry table in the Mumble order, tag
    0 is the version message, and the forward list and the reverse dict
    are mutual inverses on every tag 0..24 and on every kind. *)
Theorem registry_table_inverse :
  ID_MESSAGE =
    [ Mumble_pb2.Version; Mumble_pb2.UDPTunnel; Mumble_pb2.Authenticate;
      Mumble_pb2.Ping; Mumble_pb2.Reject; Mumble_pb2.ServerSync;
      Mumble_pb2.ChannelRemove; Mumble_pb2.ChannelState;
      Mumble_pb2.UserRemove; Mumble_pb2.UserState; Mumble_pb2.BanList;
      Mumble_pb2.TextMessage; Mumble_pb2.PermissionDenied; Mumble_pb2.ACL;
      Mumble_pb2.QueryUsers; Mumble_pb2.CryptSetup;
      Mumble_pb2.ContextActionModify; Mumble_pb2.ContextAction;
      Mumble_pb2.UserList; Mumble_pb2.VoiceTarget;
      Mumble_pb2.PermissionQuery; Mumble_pb2.CodecVersion;
      Mumble_pb2.UserStats; Mumble_pb2.RequestBlob; Mumble_pb2.ServerConfig ] /\
  length ID_MESSAGE = 25%nat /\
  nth_error ID_MESSAGE 0 = Some Mumble_pb2.Version /\
  (forall t : nat, (t < 25)%nat ->
     exists k, nth_error ID_MESSAGE t = Some k /\
               dict_get Kind_beq MESSAGE_ID k = Some t) /\
  (forall k : Kind,
     exists t, dict_get Kind_beq MESSAGE_ID k = Some t /\
               nth_error ID_MESSAGE t = Some k).
Proof.
  split; [reflexivity|]. split; [reflexivity|]. split; [reflexivity|].
  split.
  - intros t Ht.
    do 25 (destruct t as [|t]; [eexists; split; reflexivity|]). lia.
  - intros k. destruct k; eexists; split; reflexivity.
Qed.

(* ------------------------------------------------------------------ *)
(** ** Header arithmetic *)

Lemma bz_byte_of (z : Z) : bz (byte_of z) = z mod 256.
Proof.
  unfold bz, byte_of.
  assert (Hr : 0 <= z mod 256 < 256) by (apply Z.mod_pos_bound; lia).
  destruct (Byte.of_N (Z.to_N (z mod 256))) as [b|] eqn:E.
  - apply Byte.to_of_N in E. rewrite E. apply Z2N.id. lia.
  - apply Byte.of_N_None_iff in E. lia.
Qed.

Lemma bz_range (b : byte) : 0 <= bz b < 256.
Proof.
  unfold bz. pose proof (Byte.to_N_bounded b). lia.
Qed.

Lemma unpack_pack (t l : Z) :
  0 <= t < 65536 -> 0 <= l < 4294967296 ->
  unpack_prefix (pack_prefix t l) = Some (t, l).
Proof.
  intros Ht Hl. unfold unpack_prefix, pack_prefix.
  rewrite !bz_byte_of. f_equal. f_equal.
  - Z.to_euclidean_division_equations; lia.
  - Z.to_euclidean_division_equations; lia.
Qed.

Lemma unpack_nonneg (h : list byte) (t l : Z) :
  unpack_prefix h = Some (t, l) -> 0 <= t /\ 0 <= l.
Proof.
  unfold unpack_prefix.
  destruct h as [|b0 [|b1 [|b2 [|b3 [|b4 [|b5 [|]]]]]]]; try discriminate.
  intros E; injection E as <- <-.
  pose proof (bz_range b0); pose proof (bz_range b1); pose proof (bz_range b2);
  pose proof (bz_range b3); pose proof (bz_range b4); pose proof (bz_range b5).
  lia.
Qed.

Lemma dict_values_MESSAGE_ID : dict_values MESSAGE_ID = seq 0 25.
Proof. reflexivity. Qed.

Lemma valid_msg_id_iff (t : Z) : valid_msg_id t = true <-> 0 <= t < 25.
Proof.
  unfold valid_msg_id. rewrite dict_values_MESSAGE_ID, existsb_exists.
  split.
  - intros [v [Hin Heq]]. apply in_seq in Hin. apply Z.eqb_eq in Heq. lia.
  - intros Ht. exists (Z.to_nat t). split.
    + apply in_seq. lia.
    + apply Z.eqb_eq. lia.
Qed.

Lemma ID_MESSAGE_nth (t : Z) :
  0 <= t < 25 -> exists k, nth_error ID_MESSAGE (Z.to_nat t) = Some k.
Proof.
  intros Ht. destruct (nth_error ID_MESSAGE (Z.to_nat t)) as [k|] eqn:E.
  - eauto.
  - apply nth_error_None in E. change (length ID_MESSAGE) with 25%nat in E. lia.
Qed.

(* ------------------------------------------------------------------ *)
(** ** The decode loop *)

Section DecoderProofs.

Context {St Msg : Type}.
Variable parse_fn : Kind -> list byte -> option Msg.
Variable handler : St -> Z -> Msg -> St * bool.
Variable lose : St -> St.
Variable logerr : string -> St -> St.

Local Abbreviation loop := (decode_loop parse_fn handler lose logerr).
Local Abbreviation deliver := (dataReceived parse_fn handler lose logerr).
Local Abbreviation hframe := (handle_frame handler logerr).

(** Extra iterations beyond the length of the buffer change nothing. *)
Lemma decode_loop_fuel (n m : nat) (buf : list byte) (s : St) :
  (length buf <= n)%nat -> (length buf <= m)%nat -> loop n buf s = loop m buf s.
Proof.
  revert m buf s. induction n as [|n IH]; intros m buf s Hn Hm.
  - destruct buf; [|simpl in Hn; lia]. destruct m; reflexivity.
  - destruct m as [|m].
    + destruct buf; [reflexivity|simpl in Hm; lia].
    + simpl.
      destruct (Z.of_nat (length buf) <? PREFIX_LENGTH) eqn:Hlt; [reflexivity|].
      destruct (unpack_prefix (take 6 buf)) as [[t len]|] eqn:Hu; [|reflexivity].
      apply unpack_nonneg in Hu.
      destruct (negb (valid_msg_id t)); [reflexivity|].
      destruct (Z.of_nat (length buf) <? PREFIX_LENGTH + len) eqn:Hfull;
        [reflexivity|].
      destruct (nth_error ID_MESSAGE (Z.to_nat t)); [|reflexivity].
      destruct (parse_fn _ _); [|reflexivity].
      apply Z.ltb_ge in Hfull. unfold PREFIX_LENGTH in *.
      apply IH; rewrite length_drop; lia.
Qed.

(** The branches of one iteration of the loop. *)
Lemma loop_step_short (n : nat) (buf : list byte) (s : St) :
  (length buf < 6)%nat -> loop n buf s = ((buf, s), Returned).
Proof.
  intros Hl. destruct n; [reflexivity|]. cbn [decode_loop].
  replace (Z.of_nat (length buf) <? PREFIX_LENGTH) with true
    by (symmetry; apply Z.ltb_lt; unfold PREFIX_LENGTH; lia).
  reflexivity.
Qed.

Lemma loop_step_badtag (n : nat) (buf : list byte) (s : St) (t len : Z) :
  (6 <= length buf)%nat -> unpack_prefix (take 6 buf) = Some (t, len) ->
  valid_msg_id t = false ->
  loop (S n) buf s = ((buf, lose (logerr "Message ID not available." s)), Returned).
Proof.
  intros Hl Hu Hv. cbn [decode_loop].
  replace (Z.of_nat (length buf) <? PREFIX_LENGTH) with false
    by (symmetry; apply Z.ltb_ge; unfold PREFIX_LENGTH; lia).
  rewrite Hu, Hv. reflexivity.
Qed.

Lemma loop_step_partial (n : nat) (buf : list byte) (s : St) (t len : Z) :
  (6 <= length buf)%nat -> unpack_prefix (take 6 buf) = Some (t, len) ->
  valid_msg_id t = true -> Z.of_nat (length buf) < 6 + len ->
  loop (S n) buf s = ((buf, s), Returned).
Proof.
  intros Hl Hu Hv Hf. cbn [decode_loop].
  replace (Z.of_nat (length buf) <? PREFIX_LENGTH) with false
    by (symmetry; apply Z.ltb_ge; unfold PREFIX_LENGTH; lia).
  rewrite Hu, Hv. cbn [negb].
  replace (Z.of_nat (length buf) <? PREFIX_LENGTH + len) with true
    by (symmetry; apply Z.ltb_lt; unfold PREFIX_LENGTH; lia).
  reflexivity.
Qed.

Lemma loop_step_parse_fail (n : nat) (buf : list byte) (s : St) (t len : Z)
    (k : Kind) :
  (6 <= length buf)%nat -> unpack_prefix (take 6 buf) = Some (t, len) ->
  valid_msg_id t = true -> 6 + len <= Z.of_nat (length buf) ->
  nth_error ID_MESSAGE (Z.to_nat t) = Some k ->
  parse_fn k (take (Z.to_nat len) (drop 6 buf)) = None ->
  loop (S n) buf s = ((buf, s), Raised).
Proof.
  intros Hl Hu Hv Hf Hk Hp. cbn [decode_loop].
  replace (Z.of_nat (length buf) <? PREFIX_LENGTH) with false
    by (symmetry; apply Z.ltb_ge; unfold PREFIX_LENGTH; lia).
  rewrite Hu, Hv. cbn [negb].
  replace (Z.of_nat (length buf) <? PREFIX_LENGTH + len) with false
    by (symmetry; apply Z.ltb_ge; unfold PREFIX_LENGTH; lia).
  rewrite Hk, Hp. reflexivity.
Qed.

Lemma loop_step_frame (n : nat) (buf : list byte) (s : St) (t len : Z)
    (k : Kind) (m : Msg) :
  (6 <= length buf)%nat -> unpack_prefix (take 6 buf) = Some (t, len) ->
  valid_msg_id t = true -> 6 + len <= Z.of_nat (length buf) ->
  nth_error ID_MESSAGE (Z.to_nat t) = Some k ->
  parse_fn k (take (Z.to_nat len) (drop 6 buf)) = Some m ->
  loop (S n) buf s = loop n (drop (Z.to_nat (6 + len)) buf) (hframe s t m).
Proof.
  intros Hl Hu Hv Hf Hk Hp. cbn [decode_loop].
  replace (Z.of_nat (length buf) <? PREFIX_LENGTH) with false
    by (symmetry; apply Z.ltb_ge; unfold PREFIX_LENGTH; lia).
  rewrite Hu, Hv. cbn [negb].
  replace (Z.of_nat (length buf) <? PREFIX_LENGTH + len) with false
    by (symmetry; apply Z.ltb_ge; unfold PREFIX_LENGTH; lia).
  rewrite Hk, Hp. reflexivity.
Qed.

Lemma encode_frame_length (f : @frame Msg) :
  length (encode_frame f) = (6 + length (f_payload f))%nat.
Proof. unfold encode_frame. rewrite length_app. reflexivity. Qed.

Lemma take6_encode (f : @frame Msg) (r : list byte) :
  take 6 (encode_frame f ++ r) =
  pack_prefix (f_type f) (Z.of_nat (length (f_payload f))).
Proof.
  unfold encode_frame. rewrite <- app_assoc. apply take_app_length'. reflexivity.
Qed.

(** A complete well-formed frame at the front of the buffer is dispatched
    and exactly its bytes are removed. *)
Lemma decode_loop_frame (f : @frame Msg) (r : list byte) (s : St) :
  frame_ok parse_fn f ->
  loop (length (encode_frame f ++ r)) (encode_frame f ++ r) s =
  loop (length r) r (hframe s (f_type f) (f_msg f)).
Proof.
  intros (Ht & Hl & k & Hk & Hp).
  rewrite length_app, encode_frame_length. cbn [Nat.add].
  assert (Hdrop : drop (Z.to_nat (6 + Z.of_nat (length (f_payload f))))
                    (encode_frame f ++ r) = r).
  { replace (Z.to_nat (6 + Z.of_nat (length (f_payload f))))
      with (length (encode_frame f)) by (rewrite encode_frame_length; lia).
    apply drop_app_length. }
  rewrite (loop_step_frame _ _ _ (f_type f) (Z.of_nat (length (f_payload f))) k (f_msg f)).
  - rewrite Hdrop. apply decode_loop_fuel; lia.
  - rewrite length_app, encode_frame_length. lia.
  - rewrite take6_encode. apply unpack_pack; lia.
  - apply valid_msg_id_iff; lia.
  - rewrite length_app, encode_frame_length. lia.
  - exact Hk.
  - unfold encode_frame. rewrite Nat2Z.id, <- app_assoc.
    rewrite drop_app_length'; [|reflexivity].
    rewrite take_app_length. exact Hp.
Qed.

(** A strict prefix of a well-formed frame is left in the buffer untouched. *)
Lemma decode_loop_partial (f : @frame Msg) (buf x : list byte) (n : nat) (s : St) :
  frame_ok parse_fn f -> buf ++ x = encode_frame f -> x <> [] ->
  loop n buf s = ((buf, s), Returned).
Proof.
  intros (Ht & Hl & k & Hk & Hp) Hbuf Hx.
  destruct n as [|n]; [reflexivity|]. simpl.
  destruct (Z.of_nat (length buf) <? PREFIX_LENGTH) eqn:Hlt; [reflexivity|].
  apply Z.ltb_ge in Hlt. unfold PREFIX_LENGTH in Hlt.
  assert (Htake : take 6 buf = pack_prefix (f_type f) (Z.of_nat (length (f_payload f)))).
  { assert (E : take 6 (buf ++ x) = take 6 buf) by (apply take_app_le; lia).
    rewrite <- E, Hbuf. unfold encode_frame. apply take_app_length'. reflexivity. }
  rewrite Htake, unpack_pack by lia.
  assert (Hv : valid_msg_id (f_type f) = true) by (apply valid_msg_id_iff; lia).
  rewrite Hv. simpl negb. cbv iota.
  assert (Hshort : (length buf < 6 + length (f_payload f))%nat).
  { rewrite <- encode_frame_length, <- Hbuf, length_app.
    destruct x; [congruence|simpl; lia]. }
  assert (Hf : (Z.of_nat (length buf) <? PREFIX_LENGTH + Z.of_nat (length (f_payload f)))
               = true) by (apply Z.ltb_lt; unfold PREFIX_LENGTH; lia).
  rewrite Hf. reflexivity.
Qed.

(** Frames that are all complete are dispatched in order, leaving nothing. *)
Lemma decode_loop_frames (fs : list (@frame Msg)) (s : St) :
  Forall (frame_ok parse_fn) fs ->
  loop (length (encode_frames fs)) (encode_frames fs) s =
  (([], handle_frames handler logerr s fs), Returned).
Proof.
  revert s. induction fs as [|f fs IH]; intros s Hok.
  - reflexivity.
  - inversion Hok as [|? ? Hf Hfs]; subst.
    unfold encode_frames. cbn [map concat].
    fold (encode_frames fs).
    rewrite decode_loop_frame by exact Hf.
    apply IH. exact Hfs.
Qed.

(** Decoding a prefix of a frame stream and then the next bytes gives the
    same result as decoding both at once. *)
Lemma decode_loop_app (fs : list (@frame Msg)) :
  Forall (frame_ok parse_fn) fs ->
  forall (s : St) (P c R : list byte),
  P ++ c ++ R = encode_frames fs ->
  loop (length (P ++ c)) (P ++ c) s =
  loop (length (fst (fst (loop (length P) P s)) ++ c))
       (fst (fst (loop (length P) P s)) ++ c)
       (snd (fst (loop (length P) P s))).
Proof.
  induction fs as [|f fs IH]; intros Hok s P c R HE.
  - unfold encode_frames in HE. cbn in HE.
    destruct P; [|discriminate]. destruct c; [|discriminate]. reflexivity.
  - inversion Hok as [|? ? Hf Hfs]; subst.
    unfold encode_frames in HE. cbn [map concat] in HE.
    fold (encode_frames fs) in HE.
    apply app_eq_app in HE as [l [[HP HE] | [He HR]]].
    + (* P = encode_frame f ++ l: the first frame is complete in P *)
      subst P. rewrite <- app_assoc, decode_loop_frame by exact Hf.
      rewrite decode_loop_frame by exact Hf.
      apply (IH Hfs _ l c R). symmetry. exact HE.
    + (* P is a prefix of the first frame *)
      destruct l as [|b l].
      * rewrite app_nil_r in He. subst P.
        rewrite decode_loop_frame by exact Hf.
        pose proof (decode_loop_frame f [] s Hf) as E.
        rewrite app_nil_r in E. rewrite E. reflexivity.
      * rewrite (decode_loop_partial f P (b :: l)) by (auto; discriminate).
        reflexivity.
Qed.

Lemma deliver_chunks_app (fs : list (@frame Msg)) (s : St) :
  Forall (frame_ok parse_fn) fs ->
  forall (cs : list (list byte)) (P R : list byte),
  P ++ concat cs ++ R = encode_frames fs ->
  deliver_chunks parse_fn handler lose logerr (fst (deliver ([], s) P)) cs =
  fst (deliver ([], s) (P ++ concat cs)).
Proof.
  intros Hok cs. induction cs as [|c cs IH]; intros P R HE.
  - cbn [concat]. rewrite app_nil_r. reflexivity.
  - cbn [deliver_chunks fold_left]. fold (deliver_chunks parse_fn handler lose logerr).
    cbn [concat] in HE.
    assert (Hstep : dataReceived parse_fn handler lose logerr (fst (deliver ([], s) P)) c
                    = deliver ([], s) (P ++ c)).
    { unfold dataReceived. cbn [fst snd app].
      symmetry. apply (decode_loop_app fs Hok s P c (concat cs ++ R)).
      rewrite <- HE, <- app_assoc. reflexivity. }
    unfold deliver_chunks in *. rewrite Hstep.
    rewrite (IH (P ++ c) R) by (rewrite <- HE, <- !app_assoc; reflexivity).
    cbn [concat]. rewrite app_assoc. reflexivity.
Qed.

End DecoderProofs.

Section DecoderClaims.

Context {St Msg : Type}.
Variable parse_fn : Kind -> list byte -> option Msg.
Variable handler : St -> Z -> Msg -> St * bool.
Variable lose : St -> St.
Variable logerr : string -> St -> St.

Local Abbreviation loop := (decode_loop parse_fn handler lose logerr).
Local Abbreviation deliver := (dataReceived parse_fn handler lose logerr).
Local Abbreviation hframe := (handle_frame handler logerr).

(** C1: for any stream of well-formed frames and any split of its bytes
    into chunks, delivering the chunks one by one to [dataReceived] ends in
    the same buffer and state (so the same handler calls in the same order,
    for every handler) as delivering the whole stream at once, which
    dispatches exactly the frames in order and empties the buffer; and a
    delivery that leaves a partial frame keeps every buffered byte and
    dispatches nothing. *)
Theorem chunked_delivery_equals_whole (fs : list (@frame Msg))
    (chunks : list (list byte)) (s : St) :
  Forall (frame_ok parse_fn) fs ->
  concat chunks = encode_frames fs ->
  deliver_chunks parse_fn handler lose logerr ([], s) chunks =
    fst (deliver ([], s) (encode_frames fs)) /\
  deliver ([], s) (encode_frames fs) =
    (([], handle_frames handler logerr s fs), Returned) /\
  (forall (f : @frame Msg) (buf recv x : list byte) (s' : St),
     frame_ok parse_fn f -> (buf ++ recv) ++ x = encode_frame f -> x <> [] ->
     deliver (buf, s') recv = ((buf ++ recv, s'), Returned)).
Proof.
  intros Hok Hc. split; [|split].
  - pose proof (deliver_chunks_app parse_fn handler lose logerr fs s Hok chunks [] [])
      as H.
    rewrite app_nil_r in H. specialize (H Hc).
    cbn [app] in H. rewrite <- Hc. exact H.
  - unfold dataReceived. cbn [fst snd app].
    apply decode_loop_frames. exact Hok.
  - intros f buf recv x s' Hf Hb Hx. unfold dataReceived. cbn [fst snd].
    apply (decode_loop_partial parse_fn handler lose logerr f _ x); assumption.
Qed.

(** C5: a buffered header whose tag is 25 or more makes [dataReceived] log,
    close the transport and return at once, with nothing dispatched and the
    buffer kept; every tag 0..24 passes the check and names a registered
    kind, and a complete frame with such a tag is dispatched to the handler
    before decoding goes on with the bytes after it. *)
Theorem tag_bounds_checked (p : list byte * St) (recv : list byte) :
  (forall (b0 b1 b2 b3 b4 b5 : byte) (rest : list byte),
     fst p ++ recv = [b0; b1; b2; b3; b4; b5] ++ rest ->
     25 <= bz b0 * 256 + bz b1 ->
     deliver p recv =
       ((fst p ++ recv, lose (logerr "Message ID not available." (snd p))), Returned)) /\
  (forall t : Z, 0 <= t < 25 ->
     valid_msg_id t = true /\ exists k, nth_error ID_MESSAGE (Z.to_nat t) = Some k) /\
  (forall (f : @frame Msg) (rest : list byte),
     frame_ok parse_fn f -> fst p ++ recv = encode_frame f ++ rest ->
     deliver p recv = deliver ([], hframe (snd p) (f_type f) (f_msg f)) rest).
Proof.
  split; [|split].
  - intros b0 b1 b2 b3 b4 b5 rest Hb Ht. unfold dataReceived.
    rewrite Hb. cbn [length app].
    rewrite (loop_step_badtag parse_fn handler lose logerr _ _ _ (bz b0 * 256 + bz b1)
               (((bz b2 * 256 + bz b3) * 256 + bz b4) * 256 + bz b5)).
    + reflexivity.
    + simpl. lia.
    + reflexivity.
    + destruct (valid_msg_id (bz b0 * 256 + bz b1)) eqn:E; [|reflexivity].
      apply valid_msg_id_iff in E. lia.
  - intros t Ht. split; [apply valid_msg_id_iff; exact Ht|].
    apply ID_MESSAGE_nth. exact Ht.
  - intros f rest Hf Hb. unfold dataReceived. rewrite Hb.
    rewrite decode_loop_frame by exact Hf. reflexivity.
Qed.

(** C6 (as the code does it): when the header is valid and the whole frame
    is buffered but deserializing the payload raises, [ParseFromString] is
    outside the [try], so the exception escapes [dataReceived] to its
    caller: [dataReceived] logs nothing, dispatches nothing, does not call
    [loseConnection] itself, and the frame's bytes and everything after
    them stay in the buffer. (What the caller does with the exception is
    outside this module; Twisted's reactor logs it and drops the
    connection.) *)
Theorem parse_failure_escapes (p : list byte * St) (recv : list byte)
    (t : Z) (payload rest : list byte) (k : Kind) :
  0 <= t < 25 -> Z.of_nat (length payload) < 4294967296 ->
  nth_error ID_MESSAGE (Z.to_nat t) = Some k ->
  parse_fn k payload = None ->
  fst p ++ recv = pack_prefix t (Z.of_nat (length payload)) ++ payload ++ rest ->
  deliver p recv = ((fst p ++ recv, snd p), Raised).
Proof.
  intros Ht Hl Hk Hp Hb. unfold dataReceived. rewrite Hb.
  rewrite !length_app. cbn [length pack_prefix Nat.add].
  rewrite (loop_step_parse_fail parse_fn handler lose logerr _ _ _ t
             (Z.of_nat (length payload)) k).
  - reflexivity.
  - rewrite !length_app. simpl. lia.
  - change (take 6 (pack_prefix t (Z.of_nat (length payload)) ++ payload ++ rest))
      with (pack_prefix t (Z.of_nat (length payload))).
    apply unpack_pack; lia.
  - apply valid_msg_id_iff; lia.
  - rewrite !length_app. simpl. lia.
  - exact Hk.
  - rewrite Nat2Z.id.
    change (drop 6 (pack_prefix t (Z.of_nat (length payload)) ++ payload ++ rest))
      with (payload ++ rest).
    rewrite take_app_length. exact Hp.
Qed.

End DecoderClaims.

Ltac frame_ok_tac :=
  unfold frame_ok; cbn [f_type f_payload f_msg]; split; [lia | split; [simpl; lia | eexists; split; reflexivity]].

(** Delivering the two example frames in three chunks (cut inside the
    first header and inside the second) ends as one whole delivery. *)
Lemma chunked_delivery_equals_whole_witness :
  let E := example_env example_parse "!" in
  let bs := encode_frames example_frames in
  deliver_chunks example_parse (recvProtobuf E) loseConnection log_line
    ([], initial_state) [take 3 bs; take 5 (drop 3 bs); drop 8 bs] =
  fst (dataReceived example_parse (recvProtobuf E) loseConnection log_line
         ([], initial_state) bs).
Proof.
  cbv zeta.
  refine (proj1 (chunked_delivery_equals_whole example_parse
            (recvProtobuf (example_env example_parse "!")) loseConnection log_line
            example_frames _ initial_state _ _)).
  - unfold example_frames.
    repeat (apply List.Forall_cons; [frame_ok_tac|]). apply List.Forall_nil.
  - vm_compute. reflexivity.
Defined.

(** A text-message frame (tag 11) whose one-byte payload [[x08]] is a
    truncated varint field, so deserializing it raises: the exception
    escapes with the buffer kept. *)
Lemma parse_failure_escapes_witness :
  dataReceived example_parse (recvProtobuf (example_env example_parse "!"))
    loseConnection log_line ([], initial_state) (pack_prefix 11 1 ++ [x08]) =
  ((pack_prefix 11 1 ++ [x08], initial_state), Raised).
Proof.
  refine (parse_failure_escapes example_parse
            (recvProtobuf (example_env example_parse "!")) loseConnection log_line
            ([], initial_state) (pack_prefix 11 1 ++ [x08]) 11 [x08] []
            Mumble_pb2.TextMessage _ _ _ _ _).
  - lia.
  - simpl. lia.
  - reflexivity.
  - reflexivity.
  - reflexivity.
Defined.

(** C6 fails as stated: a text-message frame whose payload [[x08]] is a
    truncated varint field (deserializing it raises), followed by a
    well-formed ping frame, is not logged and dropped; the call raises,
    nothing is logged, and both frames stay in the buffer, so the ping is
    not decoded either. *)
Lemma parse_failure_not_discarded :
  let E := example_env example_parse "!" in
  let bs := pack_prefix 11 1 ++ [x08] ++ encode_frame (mk_frame 3 [] MPing) in
  dataReceived example_parse (recvProtobuf E) loseConnection log_line
    ([], initial_state) bs = ((bs, initial_state), Raised) /\
  logs initial_state = [].
Proof.
  cbv zeta. split; [vm_compute; reflexivity | reflexivity].
Qed.

(* ------------------------------------------------------------------ *)
(** ** State predicates kept by monadic code *)


Section Preserves.

Variable P : PState -> Prop.

Lemma pres_ret {A} (a : A) : preserves P (ret a).
Proof. intros s H. exact H. Qed.

Lemma pres_raise {A} : preserves P (@raise A).
Proof. intros s H. exact H. Qed.

Lemma pres_gets {A} (f : PState -> A) : preserves P (gets f).
Proof. intros s H. exact H. Qed.

Lemma pres_bind {A B} (m : M A) (f : A -> M B) :
  preserves P m -> (forall a, preserves P (f a)) -> preserves P (bind m f).
Proof.
  intros Hm Hf s H. unfold bind.
  specialize (Hm s H). destruct (m s) as [s' [a|]]; simpl in *; auto.
  apply Hf. exact Hm.
Qed.

Lemma pres_modify (f : PState -> PState) :
  (forall s, P s -> P (f s)) -> preserves P (modify f).
Proof. intros Hf s H. apply Hf. exact H. Qed.

Lemma pres_try (m h : M unit) :
  preserves P m -> preserves P h -> preserves P (try_except m h).
Proof.
  intros Hm Hh s H. unfold try_except.
  specialize (Hm s H). destruct (m s) as [s' [a|]]; simpl in *; auto.
Qed.

Lemma pres_for_each {A} (l : list A) (f : A -> M unit) :
  (forall x, preserves P (f x)) -> preserves P (for_each l f).
Proof.
  intros Hf. induction l as [|x l IH]; simpl.
  - apply pres_ret.
  - apply pres_bind; [apply Hf|intros _; exact IH].
Qed.

Lemma pres_get_channel_obj (cid : Z) : preserves P (get_channel_obj cid).
Proof. intros s H. unfold get_channel_obj. destruct (channels s !! cid); exact H. Qed.

Lemma pres_get_user_obj (k : Z) : preserves P (get_user_obj k).
Proof. intros s H. unfold get_user_obj. destruct (users s !! k); exact H. Qed.

Lemma pres_deref (l : nat) : preserves P (deref l).
Proof. intros s H. unfold deref. destruct (heap s !! l); exact H. Qed.

Lemma pres_alloc_user (u : User) :
  (forall s h n, P s -> P (set_heap h n s)) -> preserves P (alloc_user u).
Proof. intros Hh s H. apply Hh. exact H. Qed.

End Preserves.

Create HintDb pres_hints.
Create HintDb graph_hints.

Ltac head_of t := lazymatch t with ?f _ => head_of f | _ => t end.

(** Walks a monadic program, splitting binds and branches; [leaf] closes
    the side conditions of [modify] and [alloc_user]. *)
Ltac pres_walk leaf :=
  repeat match goal with
  | |- preserves _ (bind _ _) => apply pres_bind; [|intros ?]
  | |- preserves _ (ret _) => apply pres_ret
  | |- preserves _ raise => apply pres_raise
  | |- preserves _ (gets _) => apply pres_gets
  | |- preserves _ (get_channel_obj _) => apply pres_get_channel_obj
  | |- preserves _ (get_user_obj _) => apply pres_get_user_obj
  | |- preserves _ (deref _) => apply pres_deref
  | |- preserves _ (try_except _ _) => apply pres_try
  | |- preserves _ (for_each _ _) => apply pres_for_each; intros ?
  | |- preserves _ (modify _) => apply pres_modify; leaf
  | |- preserves _ (alloc_user _) => apply pres_alloc_user; leaf
  | |- preserves _ (if ?x then _ else _) => destruct x
  | |- preserves _ (match ?x with _ => _ end) => destruct x
  | |- preserves _ _ => solve [eauto with pres_hints graph_hints]
  | |- preserves _ ?m => let h := head_of m in progress unfold h
  end.

(** Ping frames counted over an appended frame. *)
Lemma count_pings_snoc (w : list (Z * Msg)) (t : Z) (m : Msg) :
  count_pings (w ++ [(t, m)]) =
  (count_pings w + match m with MPing => 1 | _ => 0 end)%nat.
Proof.
  unfold count_pings. rewrite List.filter_app, length_app.
  destruct m; reflexivity.
Qed.

(** The decode loop keeps any predicate its handler, logging and closing
    keep. *)
Lemma decode_loop_preserves {St Msg : Type} (Q : St -> Prop)
    (parse_fn : Kind -> list byte -> option Msg)
    (handler : St -> Z -> Msg -> St * bool) (lose : St -> St)
    (logerr : string -> St -> St) :
  (forall s t m, Q s -> Q (fst (handler s t m))) ->
  (forall l s, Q s -> Q (logerr l s)) ->
  (forall s, Q s -> Q (lose s)) ->
  forall n buf s, Q s -> Q (snd (fst (decode_loop parse_fn handler lose logerr n buf s))).
Proof.
  intros Hh Hl Hc n. induction n as [|n IH]; intros buf s Hs; [exact Hs|].
  cbn [decode_loop].
  destruct (_ <? _); [exact Hs|].
  destruct (unpack_prefix _) as [[t len]|]; [|exact Hs].
  destruct (negb _); [simpl; apply Hc, Hl, Hs|].
  destruct (_ <? _); [exact Hs|].
  destruct (nth_error _ _); [|exact Hs].
  destruct (parse_fn _ _); [|exact Hs].
  apply IH. unfold handle_frame.
  specialize (Hh s t m). destruct (handler s t m) as [s' []]; simpl in *; auto.
Qed.

(* ------------------------------------------------------------------ *)
(** ** Keepalive after a Reject *)


Ltac leaf_no_ping :=
  intros; unfold no_ping_state in *; cbn beta in *;
  repeat match goal with H : _ /\ _ |- _ => destruct H end;
  cbn [pinging closed written set_heap set_events set_logs set_written
       set_pending_pings set_closed set_pinging set_ourselves set_allow_html
       set_channels set_users loseConnection log_line] in *;
  rewrite ?count_pings_snoc; repeat split; auto; lia.

Lemma ping_handler_no_ping (n : nat) : preserves (no_ping_state n) ping_handler.
Proof.
  intros s H. pose proof H as [Hp _].
  unfold ping_handler, bind, gets. cbn [fst snd]. rewrite Hp. exact H.
Qed.

(** Closes [P (fst (m s))] from [P s] by walking [m]. *)
Ltac pres_at H leaf :=
  match goal with
  | |- ?P (fst (?m ?s)) =>
      let Hm := fresh "Hm" in
      assert (Hm : preserves P m) by (pres_walk leaf);
      exact (Hm s H)
  end.

Lemma log_line_no_ping (n : nat) (l : string) (s : PState) :
  no_ping_state n s -> no_ping_state n (log_line l s).
Proof. unfold log_line. leaf_no_ping. Qed.

Section NoPing.

Variable env : Env.
Variable n : nat.

#[local] Hint Resolve ping_handler_no_ping : pres_hints.

Lemma recvProtobuf_M_no_ping (m : Msg) :
  preserves (no_ping_state n) (recvProtobuf_M env m).
Proof. destruct m; pres_walk leaf_no_ping. Qed.

End NoPing.

Section NoPingRun.

Variable env : Env.
Variable n : nat.

#[local] Hint Resolve ping_handler_no_ping : pres_hints.

Lemma recvProtobuf_no_ping (s : PState) (t : Z) (m : Msg) :
  no_ping_state n s -> no_ping_state n (fst (recvProtobuf env s t m)).
Proof.
  intros H. unfold recvProtobuf.
  pose proof (recvProtobuf_M_no_ping env n m s H) as H'.
  destruct (recvProtobuf_M env m s) as [s' r]. exact H'.
Qed.

Lemma protocol_dataReceived_no_ping (c : Conn) (recv : list byte) :
  no_ping_state n (snd c) ->
  no_ping_state n (snd (fst (protocol_dataReceived env c recv))).
Proof.
  intros H. unfold protocol_dataReceived, dataReceived.
  apply (decode_loop_preserves (no_ping_state n)).
  - intros s t m. apply recvProtobuf_no_ping.
  - apply log_line_no_ping.
  - intros s Hs. unfold loseConnection. leaf_no_ping.
  - exact H.
Qed.

Lemma step_no_ping (c : Conn) (i : Input) :
  no_ping_state n (snd c) -> no_ping_state n (snd (step env c i)).
Proof.
  intros H. destruct i; cbn [step snd].
  - pres_at H leaf_no_ping.
  - apply protocol_dataReceived_no_ping. exact H.
  - pres_at H leaf_no_ping.
  - pres_at H leaf_no_ping.
  - pres_at H leaf_no_ping.
  - pres_at H leaf_no_ping.
  - pres_at H leaf_no_ping.
  - pres_at H leaf_no_ping.
Qed.

Lemma run_no_ping (inputs : list Input) (c : Conn) :
  no_ping_state n (snd c) -> no_ping_state n (snd (run env c inputs)).
Proof.
  unfold run. revert c. induction inputs as [|i inputs IH]; intros c H; simpl.
  - exact H.
  - apply IH. apply step_no_ping. exact H.
Qed.

End NoPingRun.

Lemma reject_handler_state (env : Env) (s : PState) (t : Z) (r : RejectMsg) :
  recvProtobuf env s t (MReject r) = (set_pinging false (set_closed true s), false).
Proof. reflexivity. Qed.

Lemma ping_timer_when_off (env : Env) (c : Conn) :
  pinging (snd c) = false ->
  step env c IPingTimer =
    (fst c, set_pending_pings (Nat.pred (pending_pings (snd c))) (snd c)).
Proof.
  destruct c as [buf s]. cbn [step fst snd]. intros Hp.
  unfold ping_timer, bind, gets. cbn [fst snd].
  destruct (pending_pings s) as [|k] eqn:Hk.
  - cbn. f_equal. destruct s; cbn in *; subst; reflexivity.
  - unfold modify, ping_handler, bind, gets. cbn. rewrite Hp. reflexivity.
Qed.

(** C8: processing a Reject clears the pinging flag and closes the
    transport, also when it arrives as a frame inside [dataReceived], where
    decoding then goes on from that state with the rest of the buffer;
    from that state on, whatever the reactor does next (more data, ping
    timers, outbound calls), the flag stays false, the transport stays
    closed, no ping frame is ever written again, and every ping timer only
    consumes itself: it sends nothing and schedules nothing. *)
Theorem reject_stops_pinging (env : Env) (c : Conn) (t : Z) (r : RejectMsg) :
  let s1 := fst (recvProtobuf env (snd c) t (MReject r)) in
  snd (recvProtobuf env (snd c) t (MReject r)) = false /\
  pinging s1 = false /\ closed s1 = true /\
  (forall (f : @frame Msg) (recv rest : list byte),
     f_type f = t -> f_msg f = MReject r -> frame_ok (parse env) f ->
     fst c ++ recv = encode_frame f ++ rest ->
     protocol_dataReceived env c recv = protocol_dataReceived env ([], s1) rest) /\
  (forall (buf : list byte) (inputs : list Input),
     let c' := run env (buf, s1) inputs in
     pinging (snd c') = false /\ closed (snd c') = true /\
     count_pings (written (snd c')) = count_pings (written s1) /\
     step env c' IPingTimer =
       (fst c', set_pending_pings (Nat.pred (pending_pings (snd c'))) (snd c'))).
Proof.
  intros s1. subst s1. rewrite !reject_handler_state.
  split; [reflexivity|]. split; [reflexivity|]. split; [reflexivity|]. split.
  - intros f recv rest Ht Hm Hf Hb.
    unfold protocol_dataReceived, dataReceived. rewrite Hb.
    rewrite decode_loop_frame by exact Hf.
    unfold handle_frame. rewrite Ht, Hm, reject_handler_state. reflexivity.
  - intros buf inputs c'.
    assert (H : no_ping_state (count_pings (written (set_pinging false (set_closed true (snd c)))))
                  (snd c')).
    { apply run_no_ping. repeat split. }
    destruct H as (Hp & Hc & Hw).
    split; [exact Hp|]. split; [exact Hc|]. split; [exact Hw|].
    apply ping_timer_when_off. exact Hp.
Qed.

(* ------------------------------------------------------------------ *)
(** ** Exceptions raised by a handler *)

Ltac leaf_closed :=
  intros; cbn beta in *;
  cbn [closed set_heap set_events set_logs set_written set_pending_pings
       set_pinging set_ourselves set_allow_html set_channels set_users
       log_line] in *;
  assumption.

Lemma ping_handler_closed (b : bool) :
  preserves (fun s => closed s = b) ping_handler.
Proof. unfold ping_handler. pres_walk leaf_closed. Qed.

(** Only the Reject handler touches [closed], and it never raises. *)
Lemma recvProtobuf_M_closed (env : Env) (b : bool) (m : Msg) :
  (forall r, m <> MReject r) ->
  preserves (fun x => closed x = b) (recvProtobuf_M env m).
Proof.
  intros Hm. destruct m; try solve [pres_walk leaf_closed].
  exfalso. eapply Hm. reflexivity.
Qed.

Lemma recvProtobuf_raise_keeps_closed (env : Env) (s s' : PState) (t : Z) (m : Msg) :
  recvProtobuf env s t m = (s', true) -> closed s' = closed s.
Proof.
  intros E. destruct (match m with MReject r => Some r | _ => None end) as [r|] eqn:Em.
  - destruct m; try discriminate Em.
    rewrite reject_handler_state in E. discriminate.
  - assert (Hm' : forall r, m <> MReject r) by (intros r ->; discriminate Em).
    pose proof (recvProtobuf_M_closed env (closed s) m Hm' s eq_refl) as H.
    unfold recvProtobuf in E.
    destruct (recvProtobuf_M env m s) as [s0 r0]. injection E as -> _. exact H.
Qed.

(* ------------------------------------------------------------------ *)
(** ** The presence graph *)


Lemma ginv_users_below chs us h nl sess l :
  ginv chs us h nl -> us !! sess = Some l -> (l < nl)%nat.
Proof.
  intros (I1 & _ & _ & I4) Hs. destruct (I1 _ _ Hs) as (u & c & Hu & _). eauto.
Qed.

(** A channel object replaced by one with the same members. *)
Lemma ginv_same_members chs us h nl cid c c' :
  ginv chs us h nl -> chs !! cid = Some c -> ch_users c' = ch_users c ->
  ginv (<[cid := c']> chs) us h nl.
Proof.
  intros (I1 & I2 & I3 & I4) Hc Hm. split; [|split; [|split]]; auto.
  - intros sess l Hs. destruct (I1 _ _ Hs) as (u & c0 & Hu & Hc0 & Hl).
    exists u. destruct (decide (u_channel u = cid)) as [E|Hne].
    + exists c'. rewrite E in Hc0 |- *. rewrite lookup_insert_eq.
      rewrite Hc in Hc0. injection Hc0 as <-. rewrite Hm. auto.
    + exists c0. rewrite lookup_insert_ne by congruence. auto.
  - intros cid' c0 l Hc0 Hl. destruct (decide (cid' = cid)) as [->|Hne].
    + rewrite lookup_insert_eq in Hc0. injection Hc0 as <-. rewrite Hm in Hl.
      eapply I2; eauto.
    + rewrite lookup_insert_ne in Hc0 by congruence. eapply I2; eauto.
Qed.

(** A fresh channel id with no members. *)
Lemma ginv_new_channel chs us h nl cid c :
  ginv chs us h nl -> chs !! cid = None -> ch_users c = ∅ ->
  ginv (<[cid := c]> chs) us h nl.
Proof.
  intros (I1 & I2 & I3 & I4) Hc Hm. split; [|split; [|split]]; auto.
  - intros sess l Hs. destruct (I1 _ _ Hs) as (u & c0 & Hu & Hc0 & Hl).
    exists u, c0. rewrite lookup_insert_ne by congruence. auto.
  - intros cid' c0 l Hc0 Hl. destruct (decide (cid' = cid)) as [->|Hne].
    + rewrite lookup_insert_eq in Hc0. injection Hc0 as <-. rewrite Hm in Hl.
      set_solver.
    + rewrite lookup_insert_ne in Hc0 by congruence. eapply I2; eauto.
Qed.

(** A user object replaced by one referring to the same channel. *)
Lemma ginv_same_channel chs us h nl l u u' :
  ginv chs us h nl -> h !! l = Some u -> u_channel u' = u_channel u ->
  ginv chs us (<[l := u']> h) nl.
Proof.
  intros (I1 & I2 & I3 & I4) Hu Hc. split; [|split; [|split]]; auto.
  - intros sess l0 Hs. destruct (I1 _ _ Hs) as (u0 & c0 & Hu0 & Hc0 & Hl).
    destruct (decide (l0 = l)) as [->|Hne].
    + exists u', c0. rewrite lookup_insert_eq. rewrite Hu in Hu0.
      injection Hu0 as <-. rewrite Hc. auto.
    + exists u0, c0. rewrite lookup_insert_ne by congruence. auto.
  - intros cid c0 l0 Hc0 Hl. destruct (I2 _ _ _ Hc0 Hl) as (sess & u0 & Hs & Hu0 & Hch).
    exists sess. destruct (decide (l0 = l)) as [->|Hne].
    + exists u'. rewrite lookup_insert_eq. rewrite Hu in Hu0.
      injection Hu0 as <-. rewrite Hc. auto.
    + exists u0. rewrite lookup_insert_ne by congruence. auto.
  - intros l0 u0 Hu0. destruct (decide (l0 = l)) as [->|Hne].
    + eapply I4. exact Hu.
    + rewrite lookup_insert_ne in Hu0 by congruence. eauto.
Qed.

(** A new user object at the next address, registered under a fresh
    session and added to an existing channel it refers to. *)
Lemma ginv_new_user chs us h nl sess cid c u :
  ginv chs us h nl -> us !! sess = None -> chs !! cid = Some c ->
  u_channel u = cid ->
  ginv (<[cid := add_user c nl]> chs) (<[sess := nl]> us) (<[nl := u]> h) (S nl).
Proof.
  intros G Hs Hc Hu. pose proof G as (I1 & I2 & I3 & I4).
  split; [|split; [|split]].
  - intros sess' l Hs'. destruct (decide (sess' = sess)) as [->|Hne].
    + rewrite lookup_insert_eq in Hs'. injection Hs' as <-.
      exists u, (add_user c nl). rewrite lookup_insert_eq, Hu, lookup_insert_eq.
      split; [reflexivity|split; [reflexivity|]]. cbn [ch_users add_user]. set_solver.
    + rewrite lookup_insert_ne in Hs' by congruence.
      pose proof (ginv_users_below _ _ _ _ _ _ G Hs') as Hlt.
      destruct (I1 _ _ Hs') as (u0 & c0 & Hu0 & Hc0 & Hl).
      exists u0. rewrite lookup_insert_ne by lia.
      destruct (decide (u_channel u0 = cid)) as [E|Hne'].
      * exists (add_user c nl). rewrite E in Hc0 |- *. rewrite lookup_insert_eq.
        rewrite Hc in Hc0. injection Hc0 as <-.
        split; [exact Hu0|split; [reflexivity|]]. cbn [ch_users add_user]. set_solver.
      * exists c0. rewrite lookup_insert_ne by congruence. auto.
  - intros cid' c0 l Hc0 Hl. destruct (decide (cid' = cid)) as [->|Hne].
    + rewrite lookup_insert_eq in Hc0. injection Hc0 as <-.
      cbn [ch_users add_user] in Hl. apply elem_of_union in Hl as [Hl|Hl].
      * apply elem_of_singleton in Hl as ->. exists sess, u.
        rewrite !lookup_insert_eq. auto.
      * destruct (I2 _ _ _ Hc Hl) as (sess0 & u0 & Hs0 & Hu0 & Hch).
        pose proof (I4 _ _ Hu0) as Hlt.
        exists sess0, u0. rewrite lookup_insert_ne by congruence.
        rewrite lookup_insert_ne by lia. auto.
    + rewrite lookup_insert_ne in Hc0 by congruence.
      destruct (I2 _ _ _ Hc0 Hl) as (sess0 & u0 & Hs0 & Hu0 & Hch).
      pose proof (I4 _ _ Hu0) as Hlt.
      exists sess0, u0. rewrite lookup_insert_ne by congruence.
      rewrite lookup_insert_ne by lia. auto.
  - intros s1 s2 l H1 H2.
    destruct (decide (s1 = sess)) as [->|N1]; destruct (decide (s2 = sess)) as [->|N2];
      auto.
    + rewrite lookup_insert_eq in H1. rewrite lookup_insert_ne in H2 by congruence.
      injection H1 as <-. pose proof (ginv_users_below _ _ _ _ _ _ G H2). lia.
    + rewrite lookup_insert_eq in H2. rewrite lookup_insert_ne in H1 by congruence.
      injection H2 as <-. pose proof (ginv_users_below _ _ _ _ _ _ G H1). lia.
    + rewrite lookup_insert_ne in H1, H2 by congruence. eauto.
  - intros l u0 Hu0. destruct (decide (l = nl)) as [->|Hne]; [lia|].
    rewrite lookup_insert_ne in Hu0 by congruence. pose proof (I4 _ _ Hu0). lia.
Qed.

(** A registered user is a member of its own channel only. *)
Lemma ginv_member_only chs us h nl l u cid c :
  ginv chs us h nl -> h !! l = Some u -> chs !! cid = Some c -> l ∈ ch_users c ->
  cid = u_channel u.
Proof.
  intros (_ & I2 & _ & _) Hu Hc Hl.
  destruct (I2 _ _ _ Hc Hl) as (sess0 & u0 & _ & Hu0 & Hch).
  rewrite Hu in Hu0. injection Hu0 as <-. congruence.
Qed.

(** A registered user removed from its channel and from [self.users]. *)
Lemma ginv_remove_user chs us h nl sess l u co :
  ginv chs us h nl -> us !! sess = Some l -> h !! l = Some u ->
  chs !! u_channel u = Some co ->
  ginv (<[u_channel u := remove_user co l]> chs) (delete sess us) h nl.
Proof.
  intros G Hs Hu Hco. pose proof G as (I1 & I2 & I3 & I4).
  split; [|split; [|split]].
  - intros sess' l0 Hs'. apply lookup_delete_Some in Hs' as [Hne Hs'].
    assert (Hl0 : l0 <> l) by (intros ->; apply Hne; eapply I3; eauto).
    destruct (I1 _ _ Hs') as (u0 & c0 & Hu0 & Hc0 & Hm).
    exists u0. destruct (decide (u_channel u0 = u_channel u)) as [E|Hne'].
    + exists (remove_user co l). rewrite E in Hc0 |- *. rewrite lookup_insert_eq.
      rewrite Hco in Hc0. injection Hc0 as <-.
      split; [exact Hu0|split; [reflexivity|]]. cbn [ch_users remove_user]. set_solver.
    + exists c0. rewrite lookup_insert_ne by congruence. auto.
  - intros cid c l0 Hc Hm. destruct (decide (cid = u_channel u)) as [->|Hne].
    + rewrite lookup_insert_eq in Hc. injection Hc as <-.
      cbn [ch_users remove_user] in Hm.
      apply elem_of_difference in Hm as [Hm Hnl]. rewrite elem_of_singleton in Hnl.
      destruct (I2 _ _ _ Hco Hm) as (sess0 & u0 & Hs0 & Hu0 & Hch).
      exists sess0, u0. rewrite lookup_delete_ne; [auto|congruence].
    + rewrite lookup_insert_ne in Hc by congruence.
      destruct (I2 _ _ _ Hc Hm) as (sess0 & u0 & Hs0 & Hu0 & Hch).
      exists sess0, u0. rewrite lookup_delete_ne; [auto|].
      intros ->. rewrite Hs in Hs0. injection Hs0 as <-.
      rewrite Hu in Hu0. injection Hu0 as <-. congruence.
  - intros s1 s2 l0 H1 H2. apply lookup_delete_Some in H1 as [_ H1].
    apply lookup_delete_Some in H2 as [_ H2]. eauto.
  - exact I4.
Qed.

(** A registered user moved: removed from the channel it refers to, added
    to channel [newc] (read after the removal), and made to refer to it. *)
Lemma ginv_move_user chs us h nl sess l u co newc cn :
  ginv chs us h nl -> us !! sess = Some l -> h !! l = Some u ->
  chs !! u_channel u = Some co ->
  <[u_channel u := remove_user co l]> chs !! newc = Some cn ->
  ginv (<[newc := add_user cn l]> (<[u_channel u := remove_user co l]> chs)) us
       (<[l := set_u_channel newc u]> h) nl.
Proof.
  intros G Hs Hu Hco Hcn. pose proof G as (I1 & I2 & I3 & I4).
  assert (Hfw : forall l0, l0 ∈ ch_users cn ->
            l0 <> l /\ exists c1, chs !! newc = Some c1 /\ l0 ∈ ch_users c1).
  { intros l0 Hm. destruct (decide (newc = u_channel u)) as [E|N].
    - rewrite E, lookup_insert_eq in Hcn. injection Hcn as <-.
      cbn [ch_users remove_user] in Hm. rewrite E.
      split; [set_solver|]. exists co. split; [exact Hco|set_solver].
    - rewrite lookup_insert_ne in Hcn by congruence.
      split; [|eauto]. intros ->. apply N.
      eapply ginv_member_only; eauto. }
  assert (Hbw : forall c1 l0, chs !! newc = Some c1 -> l0 ∈ ch_users c1 ->
            l0 <> l -> l0 ∈ ch_users cn).
  { intros c1 l0 Hc1 Hm Hne. destruct (decide (newc = u_channel u)) as [E|N].
    - rewrite E, lookup_insert_eq in Hcn. injection Hcn as <-.
      rewrite E, Hco in Hc1. injection Hc1 as <-.
      cbn [ch_users remove_user]. set_solver.
    - rewrite lookup_insert_ne in Hcn by congruence. congruence. }
  split; [|split; [|split]].
  - intros sess' l0 Hs'. destruct (decide (l0 = l)) as [->|Hne].
    + exists (set_u_channel newc u), (add_user cn l).
      rewrite lookup_insert_eq. cbn [u_channel set_u_channel].
      rewrite lookup_insert_eq. split; [reflexivity|split; [reflexivity|]].
      cbn [ch_users add_user]. set_solver.
    + destruct (I1 _ _ Hs') as (u0 & c0 & Hu0 & Hc0 & Hm).
      exists u0. rewrite lookup_insert_ne by congruence.
      destruct (decide (u_channel u0 = newc)) as [E|N].
      * exists (add_user cn l). rewrite E in Hc0 |- *. rewrite lookup_insert_eq.
        split; [exact Hu0|split; [reflexivity|]].
        cbn [ch_users add_user]. apply elem_of_union. right. eauto.
      * rewrite lookup_insert_ne by congruence.
        destruct (decide (u_channel u0 = u_channel u)) as [E'|N'].
        -- exists (remove_user co l). rewrite E' in Hc0 |- *. rewrite lookup_insert_eq.
           rewrite Hco in Hc0. injection Hc0 as <-.
           split; [exact Hu0|split; [reflexivity|]].
           cbn [ch_users remove_user]. set_solver.
        -- exists c0. rewrite lookup_insert_ne by congruence. auto.
  - intros cid c l0 Hc Hm. destruct (decide (cid = newc)) as [->|N].
    + rewrite lookup_insert_eq in Hc. injection Hc as <-.
      cbn [ch_users add_user] in Hm. apply elem_of_union in Hm as [Hm|Hm].
      * apply elem_of_singleton in Hm as ->. exists sess, (set_u_channel newc u).
        rewrite lookup_insert_eq. auto.
      * destruct (Hfw _ Hm) as (Hne & c1 & Hc1 & Hm1).
        destruct (I2 _ _ _ Hc1 Hm1) as (sess0 & u0 & Hs0 & Hu0 & Hch).
        exists sess0, u0. rewrite lookup_insert_ne by congruence. auto.
    + rewrite lookup_insert_ne in Hc by congruence.
      destruct (decide (cid = u_channel u)) as [->|N'].
      * rewrite lookup_insert_eq in Hc. injection Hc as <-.
        cbn [ch_users remove_user] in Hm.
        apply elem_of_difference in Hm as [Hm Hnl]. rewrite elem_of_singleton in Hnl.
        destruct (I2 _ _ _ Hco Hm) as (sess0 & u0 & Hs0 & Hu0 & Hch).
        exists sess0, u0. rewrite lookup_insert_ne by congruence. auto.
      * rewrite lookup_insert_ne in Hc by congruence.
        assert (Hne : l0 <> l).
        { intros ->. apply N'. eapply ginv_member_only; eauto. }
        destruct (I2 _ _ _ Hc Hm) as (sess0 & u0 & Hs0 & Hu0 & Hch).
        exists sess0, u0. rewrite lookup_insert_ne by congruence. auto.
  - exact I3.
  - intros l0 u0 Hu0. destruct (decide (l0 = l)) as [->|Hne].
    + eapply I4. exact Hu.
    + rewrite lookup_insert_ne in Hu0 by congruence. eauto.
Qed.

(** Running binds and lookups at a known state. *)
Lemma bind_some {A B} (m : M A) (f : A -> M B) (s s' : PState) (a : A) :
  m s = (s', Some a) -> bind m f s = f a s'.
Proof. intros E. unfold bind. rewrite E. reflexivity. Qed.

Lemma bind_none {A B} (m : M A) (f : A -> M B) (s s' : PState) :
  m s = (s', None) -> bind m f s = (s', None).
Proof. intros E. unfold bind. rewrite E. reflexivity. Qed.

Lemma get_channel_obj_at (cid : Z) (s : PState) :
  get_channel_obj cid s = (s, channels s !! cid).
Proof. unfold get_channel_obj. destruct (channels s !! cid); reflexivity. Qed.

Lemma get_user_obj_at (k : Z) (s : PState) :
  get_user_obj k s = (s, users s !! k).
Proof. unfold get_user_obj. destruct (users s !! k); reflexivity. Qed.

Lemma deref_at (l : nat) (s : PState) : deref l s = (s, heap s !! l).
Proof. unfold deref. destruct (heap s !! l); reflexivity. Qed.

Lemma update_channel_at (cid : Z) (f : Channel -> Channel) (c : Channel) (s : PState) :
  channels s !! cid = Some c ->
  update_channel cid f s = (set_channels (<[cid := f c]> (channels s)) s, Some tt).
Proof. intros E. unfold update_channel. rewrite (bind_some _ _ _ s c); [reflexivity|].
  rewrite get_channel_obj_at, E. reflexivity. Qed.

Lemma update_user_at (l : nat) (f : User -> User) (u : User) (s : PState) :
  heap s !! l = Some u ->
  update_user l f s = (set_heap (<[l := f u]> (heap s)) (next_loc s) s, Some tt).
Proof. intros E. unfold update_user. rewrite (bind_some _ _ _ s u); [reflexivity|].
  rewrite deref_at, E. reflexivity. Qed.

(** [P] holds after [bind m f] when it holds after [m] and [f] keeps it. *)
Lemma pres_bind_at (P : PState -> Prop) {A B} (m : M A) (f : A -> M B) (s : PState) :
  P (fst (m s)) -> (forall a, preserves P (f a)) -> P (fst (bind m f s)).
Proof.
  intros Hm Hf. unfold bind. destruct (m s) as [s' [a|]]; simpl in *; auto.
  apply Hf. exact Hm.
Qed.


Lemma readonly_ret {A} (a : A) : readonly (ret a).
Proof. intros s. reflexivity. Qed.

Lemma readonly_get_channel_obj (cid : Z) : readonly (get_channel_obj cid).
Proof. intros s. rewrite get_channel_obj_at. reflexivity. Qed.

Lemma readonly_bind {A B} (m : M A) (f : A -> M B) :
  readonly m -> (forall a, readonly (f a)) -> readonly (bind m f).
Proof.
  intros Hm Hf s. unfold bind. specialize (Hm s).
  destruct (m s) as [s' [a|]]; simpl in *; subst; [apply Hf|reflexivity].
Qed.

Lemma readonly_for_each {A} (l : list A) (f : A -> M unit) :
  (forall x, readonly (f x)) -> readonly (for_each l f).
Proof.
  intros Hf. induction l as [|x l IH]; simpl.
  - apply readonly_ret.
  - apply readonly_bind; [apply Hf|intros _; exact IH].
Qed.

Lemma bind_readonly_at (P : PState -> Prop) {A B} (m : M A) (f : A -> M B) (s : PState) :
  readonly m -> P s -> (forall a, m s = (s, Some a) -> P (fst (f a s))) ->
  P (fst (bind m f s)).
Proof.
  intros Hr Hs Hf. unfold bind. specialize (Hr s).
  destruct (m s) as [s' [a|]] eqn:E; simpl in Hr; subst; simpl; auto.
Qed.

Lemma update_channel_graph (cid : Z) (f : Channel -> Channel) :
  (forall c, ch_users (f c) = ch_users c) -> preserves graph_inv (update_channel cid f).
Proof.
  intros Hf s G. destruct (channels s !! cid) as [c|] eqn:E.
  - rewrite (update_channel_at _ _ c s E). apply (ginv_same_members _ _ _ _ _ c); auto.
  - unfold update_channel. rewrite (bind_none _ _ s s); [exact G|].
    rewrite get_channel_obj_at, E. reflexivity.
Qed.

Lemma update_user_graph (l : nat) (f : User -> User) :
  (forall u, u_channel (f u) = u_channel u) -> preserves graph_inv (update_user l f).
Proof.
  intros Hf s G. destruct (heap s !! l) as [u|] eqn:E.
  - rewrite (update_user_at _ _ u s E). apply (ginv_same_channel _ _ _ _ _ u); auto.
  - unfold update_user. rewrite (bind_none _ _ s s); [exact G|].
    rewrite deref_at, E. reflexivity.
Qed.

Lemma ping_handler_graph : preserves graph_inv ping_handler.
Proof. unfold ping_handler. pres_walk ltac:(intros ? H; exact H). Qed.

Ltac leaf_graph := let H := fresh "H" in intros ? H; exact H.

#[export] Hint Extern 1 (preserves _ (update_channel _ _)) =>
  apply update_channel_graph; intros; reflexivity : graph_hints.
#[export] Hint Extern 1 (preserves _ (update_user _ _)) =>
  apply update_user_graph; intros; reflexivity : graph_hints.
#[export] Hint Resolve ping_handler_graph : graph_hints.

Section Graph.

Variable env : Env.

(** The move block keeps the graph: it reads the user's channel and the
    target channel before changing anything. *)
Lemma userstate_move_graph (m : UserStateMsg) (sess : Z) (l : nat) (s : PState) :
  graph_inv s -> users s !! sess = Some l -> graph_inv (fst (userstate_move m l s)).
Proof.
  intros G Hs. pose proof G as (I1 & _ & _ & _).
  destruct (I1 _ _ Hs) as (u & co & Hu & Hco & Hl).
  unfold userstate_move. destruct (us_channel_id m) as [newc|]; [|exact G].
  destruct (users s !! default 0 (us_actor m)) as [a|] eqn:Ea.
  2:{ rewrite (bind_none _ _ s s); [exact G|]. rewrite get_user_obj_at, Ea. reflexivity. }
  rewrite (bind_some _ _ s s a) by (rewrite get_user_obj_at, Ea; reflexivity).
  rewrite (bind_some _ _ s s u) by (rewrite deref_at, Hu; reflexivity).
  destruct (channels s !! newc) as [cn0|] eqn:En.
  2:{ rewrite (bind_none _ _ s s); [exact G|]. rewrite get_channel_obj_at, En. reflexivity. }
  rewrite (bind_some _ _ s s cn0) by (rewrite get_channel_obj_at, En; reflexivity).
  rewrite (bind_some _ _ s s co) by (rewrite get_channel_obj_at, Hco; reflexivity).
  rewrite (bind_some _ _ s _ tt (update_channel_at _ _ co s Hco)).
  destruct (<[u_channel u := remove_user co l]> (channels s) !! newc) as [cn|] eqn:Hcn.
  2:{ exfalso. destruct (decide (newc = u_channel u)) as [E|N].
      - rewrite E, lookup_insert_eq in Hcn. discriminate.
      - rewrite lookup_insert_ne in Hcn by congruence. congruence. }
  rewrite (bind_some _ _ _ _ tt
    (update_channel_at newc _ cn
       (set_channels (<[u_channel u := remove_user co l]> (channels s)) s) Hcn)).
  rewrite (bind_some _ _ _ _ (add_user cn l))
    by (rewrite get_channel_obj_at; cbn [channels set_channels];
        rewrite lookup_insert_eq; reflexivity).
  erewrite bind_some; [|apply update_user_at; exact Hu].
  unfold run_callback, modify, graph_inv. cbn [fst channels users heap next_loc
    set_events set_heap set_channels].
  eapply ginv_move_user; eauto.
Qed.

End Graph.

Section Graph2.

Variable env : Env.

Lemma has_key_false {V} (m : gmap Z V) (k : Z) : has_key m k = false -> m !! k = None.
Proof. unfold has_key. destruct (m !! k); congruence. Qed.

Lemma has_key_true {V} (m : gmap Z V) (k : Z) :
  has_key m k = true -> exists v, m !! k = Some v.
Proof. unfold has_key. destruct (m !! k); [eauto|congruence]. Qed.

Lemma handle_msg_channelstate_graph (m : ChannelStateMsg) :
  preserves graph_inv (handle_msg_channelstate m).
Proof.
  intros s G. unfold handle_msg_channelstate. cbv zeta.
  rewrite (bind_some _ _ s s (has_key (channels s) (default 0 (cs_channel_id m))))
    by reflexivity.
  destruct (has_key (channels s) (default 0 (cs_channel_id m))) eqn:Ek;
    cbn beta iota.
  - pres_at G leaf_graph.
  - apply pres_bind_at; [|intros _; pres_walk leaf_graph].
    apply bind_readonly_at; [|exact G|].
    + apply readonly_for_each. intros link.
      apply readonly_bind; [apply readonly_get_channel_obj|intros _].
      apply readonly_bind; [apply readonly_get_channel_obj|intros _].
      apply readonly_ret.
    + intros _ _. unfold modify, graph_inv. cbn [fst channels users heap next_loc set_channels].
      apply ginv_new_channel; [exact G|apply has_key_false; exact Ek|reflexivity].
Qed.

Lemma handle_msg_userstate_graph (m : UserStateMsg) :
  preserves graph_inv (handle_msg_userstate env m).
Proof.
  intros s G. unfold handle_msg_userstate. cbv zeta.
  rewrite (bind_some _ _ s s (has_key (users s) (default 0 (us_session m))))
    by reflexivity.
  destruct (negb (String.eqb (default EmptyString (us_name m)) EmptyString) &&
            negb (has_key (users s) (default 0 (us_session m)))) eqn:Ec.
  - apply andb_true_iff in Ec as [_ Ek]. apply negb_true_iff, has_key_false in Ek.
    destruct (channels s !! default 0 (us_channel_id m)) as [c|] eqn:Hc.
    2:{ rewrite (bind_none _ _ s s); [exact G|].
        rewrite get_channel_obj_at, Hc. reflexivity. }
    rewrite (bind_some _ _ s s c) by (rewrite get_channel_obj_at, Hc; reflexivity).
    rewrite (bind_some _ _ s _ (next_loc s)) by reflexivity.
    rewrite (bind_some _ _ _ _ tt) by reflexivity.
    erewrite bind_some;
      [|rewrite get_user_obj_at; cbn [users set_users]; rewrite lookup_insert_eq;
        reflexivity].
    erewrite bind_some; [|apply update_channel_at; exact Hc].
    match goal with
    | |- graph_inv (fst (_ ?s')) =>
        assert (G' : graph_inv s')
    end.
    { unfold graph_inv. cbn [channels users heap next_loc set_channels set_users set_heap].
      apply ginv_new_user; [exact G|exact Ek|exact Hc|reflexivity]. }
    destruct (String.eqb _ (username env)); pres_at G' leaf_graph.
  - destruct (users s !! default 0 (us_session m)) as [l|] eqn:Hl.
    2:{ rewrite (bind_none _ _ s s); [exact G|]. rewrite get_user_obj_at, Hl. reflexivity. }
    rewrite (bind_some _ _ s s l) by (rewrite get_user_obj_at, Hl; reflexivity).
    apply pres_bind_at; [eapply userstate_move_graph; eauto|intros _].
    pres_walk leaf_graph.
Qed.

Lemma handle_msg_userremove_graph (m : UserRemoveMsg) :
  preserves graph_inv (handle_msg_userremove m).
Proof.
  intros s G. unfold handle_msg_userremove. cbv zeta.
  rewrite (bind_some _ _ s s (has_key (users s) (ur_session m))) by reflexivity.
  destruct (has_key (users s) (ur_session m)) eqn:Ek; cbn beta iota.
  - apply has_key_true in Ek as [l Hl].
    pose proof G as (I1 & _ & _ & _).
    destruct (I1 _ _ Hl) as (u & co & Hu & Hco & _).
    apply pres_bind_at; [|intros ?; pres_walk leaf_graph].
    rewrite (bind_some _ _ s s l) by (rewrite get_user_obj_at, Hl; reflexivity).
    erewrite bind_some; [|apply update_user_at; exact Hu].
    erewrite bind_some;
      [|rewrite deref_at; cbn [heap set_heap]; rewrite lookup_insert_eq; reflexivity].
    erewrite bind_some; [|apply update_channel_at; exact Hco].
    rewrite (bind_some _ _ _ _ tt) by reflexivity.
    unfold ret, graph_inv.
    cbn [fst channels users heap next_loc set_channels set_users set_heap
         u_channel set_u_is_tracked].
    apply (ginv_remove_user _ _ _ _ _ _ (set_u_is_tracked false u)).
    + eapply ginv_same_channel; [exact G|exact Hu|reflexivity].
    + exact Hl.
    + apply lookup_insert_eq.
    + exact Hco.
  - pres_at G leaf_graph.
Qed.

End Graph2.

Section GraphRun.

Variable env : Env.

#[local] Hint Resolve handle_msg_channelstate_graph handle_msg_userstate_graph
  handle_msg_userremove_graph : graph_hints.

Lemma recvProtobuf_M_graph (m : Msg) : preserves graph_inv (recvProtobuf_M env m).
Proof. destruct m; pres_walk leaf_graph. Qed.

Lemma protocol_dataReceived_graph (c : Conn) (recv : list byte) :
  graph_inv (snd c) -> graph_inv (snd (fst (protocol_dataReceived env c recv))).
Proof.
  intros H. unfold protocol_dataReceived, dataReceived.
  apply (decode_loop_preserves graph_inv).
  - intros s t m Hs. unfold recvProtobuf.
    pose proof (recvProtobuf_M_graph m s Hs) as H'.
    destruct (recvProtobuf_M env m s) as [s' r]. exact H'.
  - intros l s Hs. exact Hs.
  - intros s Hs. exact Hs.
  - exact H.
Qed.

Lemma step_graph (c : Conn) (i : Input) :
  graph_inv (snd c) -> graph_inv (snd (step env c i)).
Proof.
  intros H. destruct i; cbn [step snd].
  - pres_at H leaf_graph.
  - apply protocol_dataReceived_graph. exact H.
  - pres_at H leaf_graph.
  - pres_at H leaf_graph.
  - pres_at H leaf_graph.
  - pres_at H leaf_graph.
  - pres_at H leaf_graph.
  - pres_at H leaf_graph.
Qed.

Lemma run_graph (inputs : list Input) (c : Conn) :
  graph_inv (snd c) -> graph_inv (snd (run env c inputs)).
Proof.
  unfold run. revert c. induction inputs as [|i inputs IH]; intros c H; simpl.
  - exact H.
  - apply IH. apply step_graph. exact H.
Qed.

End GraphRun.

Lemma initial_graph : graph_inv initial_state.
Proof.
  unfold graph_inv, ginv. cbn [channels users heap next_loc initial_state].
  split; [|split; [|split]]; intros *; rewrite ?lookup_empty; discriminate.
Qed.

(** C2: from a fresh protocol object, whatever the reactor delivers and
    calls (any bytes, so any sequence of channel-state, user-state and
    user-remove messages among others, ping timers and outbound calls),
    the presence graph stays consistent in both directions: every session
    in [self.users] refers to a user object whose channel exists and lists
    that object among its members, and every member of every channel is
    the object of some session in [self.users] whose channel is that
    channel. *)
Theorem presence_graph_consistent (env : Env) (inputs : list Input) :
  let s := snd (run env ([], initial_state) inputs) in
  (forall sess l, users s !! sess = Some l ->
     exists u c, heap s !! l = Some u /\ channels s !! u_channel u = Some c /\
                 l ∈ ch_users c) /\
  (forall cid c l, channels s !! cid = Some c -> l ∈ ch_users c ->
     exists sess u, users s !! sess = Some l /\ heap s !! l = Some u /\
                    u_channel u = cid).
Proof.
  intros s. pose proof (run_graph env inputs ([], initial_state) initial_graph) as G.
  destruct G as (I1 & I2 & _ & _). split; [exact I1|exact I2].
Qed.

(** C10: when a complete, well-framed frame reaches a handler that raises
    (for instance a delta for an unknown session), the exception is
    caught in the decode loop: the line is logged, the frame's bytes are
    consumed, decoding goes on with the bytes after it (all of them
    dispatched in order when they are whole frames), and the handler's
    exception leaves [closed] as it was. *)
Theorem handler_exception_skips_frame (env : Env) (p : Conn) (f : @frame Msg)
    (recv rest : list byte) (s' : PState) :
  frame_ok (parse env) f ->
  fst p ++ recv = encode_frame f ++ rest ->
  recvProtobuf env (snd p) (f_type f) (f_msg f) = (s', true) ->
  protocol_dataReceived env p recv =
    protocol_dataReceived env ([], log_line "Exception while handling data." s') rest /\
  closed (log_line "Exception while handling data." s') = closed (snd p) /\
  (forall fs, Forall (frame_ok (parse env)) fs -> rest = encode_frames fs ->
     protocol_dataReceived env p recv =
       (([], handle_frames (recvProtobuf env) log_line
               (log_line "Exception while handling data." s') fs), Returned)).
Proof.
  intros Hf Hb Hr.
  assert (E : protocol_dataReceived env p recv =
    protocol_dataReceived env ([], log_line "Exception while handling data." s') rest).
  { unfold protocol_dataReceived, dataReceived. rewrite Hb.
    rewrite decode_loop_frame by exact Hf.
    unfold handle_frame. rewrite Hr. reflexivity. }
  split; [exact E|split].
  - cbn [closed log_line set_logs]. eapply recvProtobuf_raise_keeps_closed. exact Hr.
  - intros fs Hfs ->. rewrite E. unfold protocol_dataReceived, dataReceived.
    cbn [fst snd app]. apply decode_loop_frames. exact Hfs.
Qed.

(** A mute delta for the unknown session 7 followed by a channel-state
    frame: the handler raises on the first, the line is logged, and the
    second is dispatched. *)
Lemma handler_exception_skips_frame_witness :
  let E := example_env example_parse "!" in
  let F := mk_frame 9 [x00] (MUserState (example_mute 7)) in
  let G := mk_frame 7 [x00] (MChannelState example_channel_state) in
  protocol_dataReceived E ([], initial_state) (encode_frame F ++ encode_frames [G]) =
    (([], handle_frames (recvProtobuf E) log_line
            (log_line "Exception while handling data." initial_state) [G]),
     Returned).
Proof.
  cbv zeta.
  refine (proj2 (proj2 (handler_exception_skips_frame
            (example_env example_parse "!") ([], initial_state)
            (mk_frame 9 [x00] (MUserState (example_mute 7)))
            (encode_frame (mk_frame 9 [x00] (MUserState (example_mute 7)))
               ++ encode_frames [mk_frame 7 [x00] (MChannelState example_channel_state)])
            (encode_frames [mk_frame 7 [x00] (MChannelState example_channel_state)])
            initial_state _ _ _)) _ _ _).
  - frame_ok_tac.
  - reflexivity.
  - vm_compute. reflexivity.
  - apply List.Forall_cons; [frame_ok_tac | apply List.Forall_nil].
  - reflexivity.
Defined.

(* ------------------------------------------------------------------ *)
(** ** Outbound text *)

Lemma cgi_escape_app (a b : string) :
  cgi_escape (String.append a b) = String.append (cgi_escape a) (cgi_escape b).
Proof.
  induction a as [|c a IH]; [reflexivity|]. simpl.
  rewrite IH. destruct (Ascii.eqb c "&"%char); [reflexivity|].
  destruct (Ascii.eqb c "<"%char); [reflexivity|].
  destruct (Ascii.eqb c ">"%char); reflexivity.
Qed.

Lemma uint32_ok_in (z : Z) : 0 <= z < 4294967296 -> uint32_ok z = true.
Proof.
  intros H. unfold uint32_ok.
  replace (0 <=? z) with true by (symmetry; apply Z.leb_le; lia).
  replace (z <? 4294967296) with true by (symmetry; apply Z.ltb_lt; lia).
  reflexivity.
Qed.

Lemma uint32_ok_out (z : Z) : ~ (0 <= z < 4294967296) -> uint32_ok z = false.
Proof.
  intros H. unfold uint32_ok.
  destruct (0 <=? z) eqn:E1; [|reflexivity]. destruct (z <? 4294967296) eqn:E2; [|reflexivity].
  apply Z.leb_le in E1. apply Z.ltb_lt in E2. lia.
Qed.

(** C9: [msg] writes exactly one text-message frame (tag 11) whose text is
    [cgi.escape] of the message, to the channel or session given when that
    id fits the [uint32] field (otherwise the append raises and nothing is
    written); with no target id and target "channel" it uses the channel of
    our own user; [send_action] to a channel writes the escaped text of
    ["*" + message + "*"] (after the message-sent hook when events are on),
    which is the escaped message between two asterisks, since escaping
    leaves "*" as it is and works piecewise. *)
Theorem outbound_text_escaped (env : Env) (s : PState) :
  (forall message target t, 0 <= t < 4294967296 ->
     msg message target (Some t) s =
       (set_written (written s ++ [(11, MTextMessage
          (if String.eqb target "channel"%string
           then mkTextMessageMsg None [] [t] [] (cgi_escape message)
           else mkTextMessageMsg None [t] [] [] (cgi_escape message)))]) s, Some tt)) /\
  (forall message target t, ~ (0 <= t < 4294967296) ->
     msg message target (Some t) s = (s, None)) /\
  (forall message l u, ourselves s = Some l -> heap s !! l = Some u ->
     0 <= u_channel u < 4294967296 ->
     msg message "channel"%string None s =
       (set_written (written s ++ [(11, MTextMessage
          (mkTextMessageMsg None [] [u_channel u] [] (cgi_escape message)))]) s,
        Some tt)) /\
  (forall message c ch ty ue, channels s !! c = Some ch -> 0 <= c < 4294967296 ->
     let w := String.append "*"%string (String.append message "*"%string) in
     written (fst (send_action env (RChannel c) message ty ue s)) =
       written s ++ [(11, MTextMessage (mkTextMessageMsg None [] [c] []
         (cgi_escape (if ue then message_sent_hook env w else w))))] /\
     snd (send_action env (RChannel c) message ty ue s) = Some true) /\
  (forall message,
     cgi_escape (String.append "*"%string (String.append message "*"%string)) =
       String.append "*"%string (String.append (cgi_escape message) "*"%string)).
Proof.
  split; [|split; [|split; [|split]]].
  - intros message target t Ht. unfold msg, bind, ret, sendProtobuf, modify.
    rewrite (uint32_ok_in t Ht). cbn [negb].
    destruct (String.eqb target "channel"%string); reflexivity.
  - intros message target t Ht. unfold msg, bind, ret.
    rewrite (uint32_ok_out t Ht). reflexivity.
  - intros message l u Ho Hu Hc.
    unfold msg, bind, ret, gets, deref, sendProtobuf, modify. cbn.
    rewrite Ho, Hu. cbn. rewrite (uint32_ok_in _ Hc). reflexivity.
  - intros message c ch ty ue Hc Hr w.
    unfold send_action, resolve_target, msg_channel, msg, bind, ret, get_channel_obj,
      run_callback, modify, sendProtobuf, gets.
    destruct ue; cbn; rewrite ?Hc; cbn; rewrite ?Hc; cbn; rewrite (uint32_ok_in _ Hr);
      split; reflexivity.
  - intros message. rewrite !cgi_escape_app. reflexivity.
Qed.

(* ------------------------------------------------------------------ *)
(** ** The recording toggle *)

(** C4: a user-state delta carrying only [recording] about a known session
    sets the user's recording flag and publishes nothing: the
    [UserRecordingToggle] event is built but never passed to
    [run_callback], so the event list is unchanged, although the field is
    present and changes the user. *)
Theorem recording_toggle_unpublished (env : Env) (s : PState) (sess : Z)
    (l : nat) (u : User) (b : bool) (t : Z) :
  users s !! sess = Some l -> heap s !! l = Some u ->
  recvProtobuf env s t (MUserState (example_recording sess b)) =
    (set_heap (<[l := set_u_recording b u]> (heap s)) (next_loc s) s, false) /\
  events (fst (recvProtobuf env s t (MUserState (example_recording sess b)))) =
    events s.
Proof.
  intros Hs Hu.
  assert (E : recvProtobuf env s t (MUserState (example_recording sess b)) =
    (set_heap (<[l := set_u_recording b u]> (heap s)) (next_loc s) s, false)).
  { unfold recvProtobuf, recvProtobuf_M, handle_msg_userstate.
    cbv zeta. cbn [example_recording us_name us_session default].
    rewrite (bind_some _ _ s s (has_key (users s) sess)) by reflexivity.
    cbn beta. cbn [String.eqb negb andb].
    unfold id.
    rewrite (bind_some _ _ s s l) by (rewrite get_user_obj_at, Hs; reflexivity).
    cbn [userstate_move us_channel_id example_recording].
    unfold userstate_toggle_actor, userstate_toggle, userstate_recording.
    cbn [us_mute us_deaf us_suppress us_self_mute us_self_deaf
         us_priority_speaker us_recording].
    rewrite !(bind_some _ _ s s tt) by reflexivity.
    cbn [us_recording example_recording]. rewrite (update_user_at _ _ u s Hu).
    reflexivity. }
  split; [exact E|]. rewrite E. reflexivity.
Qed.

(** The recording delta [{session: 5, recording: true}] for user 5 at
    location 0 leaves the event list empty. *)
Lemma recording_toggle_unpublished_witness :
  let u := mkUser 5 "alice" 0 false false false false false false false true in
  let s := set_users {[5 := 0%nat]} (set_heap {[0%nat := u]} 1 initial_state) in
  events (fst (recvProtobuf (example_env example_parse "!") s 9
                 (MUserState (example_recording 5 true)))) = [] /\
  u_recording (set_u_recording true u) = true.
Proof.
  cbv zeta. split; [|reflexivity].
  refine (eq_trans (proj2 (recording_toggle_unpublished
            (example_env example_parse "!")
            (set_users {[5 := 0%nat]}
               (set_heap {[0%nat := mkUser 5 "alice" 0 false false false false
                                      false false false true]} 1 initial_state))
            5 0 (mkUser 5 "alice" 0 false false false false false false false true)
            true 9 _ _)) _); reflexivity.
Defined.

(* ------------------------------------------------------------------ *)
(** ** The command interceptor on an empty command *)

(** C7: when the message starts with the control prefix but nothing but
    whitespace follows it, [split(None, 1)] is empty and [split[0]] raises
    [IndexError]: [handle_command] returns neither a command result nor
    "not a command", the state unchanged; a message that does not start
    with the prefix is "not a command" at once, with no effect. *)
Theorem empty_command_raises (env : Env) (source target : Ref)
    (message : string) (s : PState) :
  let cc := lower (py_replace (control_chars env) "{NICK}"%string (username env)) in
  (String.prefix cc (lower message) = true ->
   py_split1 (str_drop (String.length cc) message) = [] ->
   handle_command env source target message s = (s, None)) /\
  (String.prefix cc (lower message) = false ->
   handle_command env source target message s = (s, Some false)).
Proof.
  intros cc. split.
  - intros Hp Hs. unfold handle_command. fold cc. rewrite Hp.
    cbv zeta. rewrite Hs. reflexivity.
  - intros Hp. unfold handle_command. fold cc. rewrite Hp. reflexivity.
Qed.

(** With control prefix ["!"], the text message ["!"] makes the
    interceptor raise. *)
Lemma empty_command_raises_witness :
  handle_command (example_env example_parse "!") (RInt 5) (RChannel 0) "!"
    initial_state = (initial_state, None).
Proof.
  apply (proj1 (empty_command_raises (example_env example_parse "!") (RInt 5)
                  (RChannel 0) "!" initial_state)); vm_compute; reflexivity.
Defined.

(* ------------------------------------------------------------------ *)
(** ** Further properties of the protocol *)

Lemma bz_inj (a b : byte) : bz a = bz b -> a = b.
Proof.
  unfold bz. intros H. apply N2Z.inj in H.
  pose proof (Byte.of_to_N a) as Ha. pose proof (Byte.of_to_N b) as Hb.
  rewrite H in Ha. congruence.
Qed.

Lemma byte_of_eq (z : Z) (b : byte) : z mod 256 = bz b -> byte_of z = b.
Proof. intros H. apply bz_inj. rewrite bz_byte_of. exact H. Qed.

(** X1: The frame header [struct.pack(">HI", ...)] and [struct.unpack]: packing
    a tag below 2^16 and a length below 2^32 and unpacking the six bytes
    gives them back, and every six-byte header is the packing of what it
    unpacks to. *)
Theorem header_pack_unpack :
  (forall t l, 0 <= t < 65536 -> 0 <= l < 4294967296 ->
     unpack_prefix (pack_prefix t l) = Some (t, l)) /\
  (forall h t l, unpack_prefix h = Some (t, l) -> pack_prefix t l = h).
Proof.
  split; [exact unpack_pack|].
  intros h t l. unfold unpack_prefix.
  destruct h as [|b0 [|b1 [|b2 [|b3 [|b4 [|b5 [|]]]]]]]; try discriminate.
  intros E; injection E as <- <-.
  pose proof (bz_range b0); pose proof (bz_range b1); pose proof (bz_range b2);
  pose proof (bz_range b3); pose proof (bz_range b4); pose proof (bz_range b5).
  unfold pack_prefix. repeat f_equal; apply byte_of_eq;
  Z.to_euclidean_division_equations; nia.
Qed.

(** X3: [ping_handler] while [self.pinging] writes one Ping frame (tag 3) and
    schedules itself once more; once pinging is off it does nothing and
    schedules nothing. A fired timer consumes its pending call: with none
    pending nothing happens, otherwise the count stays the same because the
    handler reschedules. *)
Theorem ping_handler_behaviour (s : PState) :
  (pinging s = true ->
   ping_handler s =
     (set_pending_pings (S (pending_pings s)) (set_written (written s ++ [(3, MPing)]) s),
      Some tt)) /\
  (pinging s = false -> ping_handler s = (s, Some tt)) /\
  (pending_pings s = O -> ping_timer s = (s, Some tt)) /\
  (forall n, pending_pings s = S n -> pinging s = true ->
   ping_timer s =
     (set_pending_pings (S n) (set_written (written s ++ [(3, MPing)]) s), Some tt)).
Proof.
  split; [|split; [|split]].
  - intros Hp. unfold ping_handler, bind, gets. cbn. rewrite Hp. reflexivity.
  - intros Hp. unfold ping_handler, bind, gets. cbn. rewrite Hp. reflexivity.
  - intros Hn. unfold ping_timer, bind, gets. cbn. rewrite Hn. reflexivity.
  - intros n Hn Hp. unfold ping_timer, bind, gets. cbn. rewrite Hn.
    unfold ping_handler, bind, gets, modify. cbn. rewrite Hp. reflexivity.
Qed.

(** X4: [connectionMade] writes, in order, the Version frame with
    [VERSION_DATA = 0x010204], the Authenticate frame (no password field
    when the configured password is empty) and a UserState frame muting and
    deafening ourselves; it publishes PreSetup and schedules one ping. *)
Theorem connectionMade_frames (env : Env) (s : PState) :
  VERSION_DATA = 66052 /\
  connectionMade env s =
    (set_pending_pings (S (pending_pings s))
       (set_events (events s ++ [("PreSetup"%string, PreSetupEv)])
          (set_written (written s ++
             [(0, MVersion (mkVersionMsg (Some 66052) (Some "1.2.4"%string)
                              (Some (platform_system env))
                              (Some "Mumble 1.2.4 Twisted Protocol"%string)));
              (2, MAuthenticate (mkAuthenticateMsg (Some (username env))
                     (if String.eqb (password env) EmptyString then None
                      else Some (password env)) (tokens env)));
              (9, MUserState (mkUserStateMsg None None None None None None None
                                (Some true) (Some true) None None))]) s)),
     Some tt).
Proof.
  split; [reflexivity|].
  unfold connectionMade, bind, sendProtobuf, run_callback, init_ping, modify. cbn.
  rewrite <- !app_assoc. reflexivity.
Qed.

Lemma lstrip_empty_iff (s : string) :
  lstrip s = EmptyString <->
  (forall n c, String.get n s = Some c -> is_space c = true).
Proof.
  induction s as [|c s IH]; cbn [lstrip].
  - split; [intros _ n c H; destruct n; discriminate|reflexivity].
  - destruct (is_space c) eqn:Hc.
    + rewrite IH. split.
      * intros H [|n] d Hd; cbn in Hd; [congruence|eauto].
      * intros H n d Hd. apply (H (S n)). exact Hd.
    + split; [discriminate|]. intros H. specialize (H O c eq_refl). congruence.
Qed.

Lemma lstrip_head (s c r : _) :
  lstrip s = String c r -> is_space c = false.
Proof.
  induction s as [|d s IH]; cbn [lstrip]; [discriminate|].
  destruct (is_space d) eqn:Hd; [exact IH|]. congruence.
Qed.

Lemma span_token_no_space (s : string) :
  forall n c, String.get n (fst (span_token s)) = Some c -> is_space c = false.
Proof.
  induction s as [|d s IH]; cbn [span_token].
  - intros [|n] c H; discriminate.
  - destruct (is_space d) eqn:Hd.
    + intros [|n] c H; discriminate.
    + destruct (span_token s) as [t r] eqn:E. cbn [fst] in *.
      intros [|n] c H; cbn in H; [congruence|]. exact (IH n c H).
Qed.

Lemma span_token_head (c : ascii) (s : string) :
  is_space c = false -> fst (span_token (String c s)) <> EmptyString.
Proof.
  intros Hc. cbn [span_token]. rewrite Hc.
  destruct (span_token s). discriminate.
Qed.

(** X5: [str.split(None, 1)] as used by [handle_command]: the result is empty
    exactly when the string is all whitespace; otherwise its first element
    is a non-empty token with no whitespace and the optional second element
    starts with a non-whitespace character. *)
Theorem py_split1_shape (s : string) :
  (py_split1 s = [] <->
   (forall n c, String.get n s = Some c -> is_space c = true)) /\
  (forall tok rest, py_split1 s = tok :: rest ->
     tok <> EmptyString /\
     (forall n c, String.get n tok = Some c -> is_space c = false) /\
     (rest = [] \/ exists a c r, rest = [a] /\ a = String c r /\ is_space c = false)).
Proof.
  split.
  - rewrite <- lstrip_empty_iff. unfold py_split1.
    destruct (lstrip s) as [|c s1]; [tauto|].
    destruct (span_token (String c s1)) as [tk r].
    destruct (lstrip r); split; discriminate.
  - intros tok rest. unfold py_split1.
    destruct (lstrip s) as [|c s1] eqn:Hl; [discriminate|].
    pose proof (lstrip_head _ _ _ Hl) as Hc.
    pose proof (span_token_head c s1 Hc) as Hne.
    pose proof (span_token_no_space (String c s1)) as Hns.
    destruct (span_token (String c s1)) as [tk r]. cbn [fst] in *.
    destruct (lstrip r) as [|d r'] eqn:Hr; intros E; injection E as <- <-;
      (split; [exact Hne| split; [exact Hns|]]).
    + left. reflexivity.
    + right. exists (String d r'), d, r'. split; [reflexivity|split; [reflexivity|]].
      exact (lstrip_head _ _ _ Hr).
Qed.

Lemma cgi_escape_nil_special (s : string) :
  forall n c, String.get n (cgi_escape s) = Some c -> c <> "<"%char /\ c <> ">"%char.
Proof.
  induction s as [|d s IH]; cbn [cgi_escape].
  - intros [|n] c H; discriminate.
  - assert (Happ : forall p, (forall n c, String.get n p = Some c -> c <> "<"%char /\ c <> ">"%char) ->
                  forall n c, String.get n (String.append p (cgi_escape s)) = Some c ->
                  c <> "<"%char /\ c <> ">"%char).
    { intros p Hp. induction p as [|e p IHp]; intros n c H.
      - exact (IH n c H).
      - destruct n as [|n]; cbn in H.
        + injection H as <-. exact (Hp O e eq_refl).
        + apply (IHp (fun n c H => Hp (S n) c H) n c H). }
    destruct (Ascii.eqb d "&"%char).
    { apply Happ. intros [|[|[|[|[|n]]]]] c H; cbn in H; try discriminate;
        injection H as <-; split; discriminate. }
    destruct (Ascii.eqb d "<"%char) eqn:E1.
    { apply Happ. intros [|[|[|[|n]]]] c H; cbn in H; try discriminate;
        injection H as <-; split; discriminate. }
    destruct (Ascii.eqb d ">"%char) eqn:E2.
    { apply Happ. intros [|[|[|[|n]]]] c H; cbn in H; try discriminate;
        injection H as <-; split; discriminate. }
    intros [|n] c H; cbn in H.
    + injection H as <-. apply Ascii.eqb_neq in E1, E2. auto.
    + exact (IH n c H).
Qed.

(** X6: [cgi.escape] as applied by [msg]: its output never contains [<] or [>],
    a text without [&], [<] and [>] is sent unchanged, and escaping a
    concatenation is the concatenation of the escapes. *)
Theorem cgi_escape_properties (s : string) :
  (forall n c, String.get n (cgi_escape s) = Some c -> c <> "<"%char /\ c <> ">"%char) /\
  ((forall n c, String.get n s = Some c ->
      c <> "&"%char /\ c <> "<"%char /\ c <> ">"%char) -> cgi_escape s = s) /\
  (forall t, cgi_escape (String.append s t) = String.append (cgi_escape s) (cgi_escape t)).
Proof.
  split; [exact (cgi_escape_nil_special s)|split; [|exact (cgi_escape_app s)]].
  induction s as [|d s IH]; intros H; [reflexivity|]. cbn [cgi_escape].
  destruct (H O d eq_refl) as (H1 & H2 & H3).
  apply Ascii.eqb_neq in H1, H2, H3. rewrite H1, H2, H3.
  f_equal. apply IH. intros n c Hn. exact (H (S n) c Hn).
Qed.

Lemma in_map_snd_lookup {V} (m : gmap Z V) (v : V) :
  In v (map snd (map_to_list m)) -> exists k, m !! k = Some v.
Proof.
  intros Hin. apply in_map_iff in Hin as [[k v'] [<- Hin]].
  exists k. apply elem_of_map_to_list. apply list_elem_of_In. exact Hin.
Qed.

Lemma lookup_in_map_snd {V} (m : gmap Z V) (k : Z) (v : V) :
  m !! k = Some v -> In v (map snd (map_to_list m)).
Proof.
  intros H. apply in_map_iff. exists (k, v). split; [reflexivity|].
  apply list_elem_of_In. apply elem_of_map_to_list. exact H.
Qed.

(** X7: [get_channel] and [get_user] only read the state. An int is a plain
    lookup of the id or session; a name search returns an object whose name
    matches case-insensitively, and returns None only when no channel (user)
    has a matching name. *)
Theorem get_channel_get_user_lookup (s : PState) :
  (forall r, fst (get_channel r s) = s /\ fst (get_user r s) = s) /\
  (forall z, snd (get_channel (RInt z) s) = Some (channels s !! z) /\
             snd (get_user (RInt z) s) = Some (users s !! z)) /\
  (forall n c, snd (get_channel (RStr n) s) = Some (Some c) ->
     exists cid, channels s !! cid = Some c /\ lower (ch_name c) = lower n) /\
  (forall n, snd (get_channel (RStr n) s) = Some None ->
     forall cid c, channels s !! cid = Some c -> lower (ch_name c) <> lower n) /\
  (forall n l, snd (get_user (RStr n) s) = Some (Some l) ->
     exists sess u, users s !! sess = Some l /\ heap s !! l = Some u /\
                    lower (u_nickname u) = lower n) /\
  (forall n, snd (get_user (RStr n) s) = Some None ->
     forall sess l u, users s !! sess = Some l -> heap s !! l = Some u ->
                      lower (u_nickname u) <> lower n).
Proof.
  split; [|split; [|split; [|split; [|split]]]].
  - intros []; split; reflexivity.
  - intros z. split; reflexivity.
  - intros n c. cbn. intros H. injection H as H.
    apply find_some in H as [Hin Hf].
    destruct (in_map_snd_lookup _ _ Hin) as [cid Hc]. exists cid. split; [exact Hc|].
    apply String.eqb_eq. exact Hf.
  - intros n. cbn. intros H. injection H as H. intros cid c Hc E.
    pose proof (find_none _ _ H c (lookup_in_map_snd _ _ _ Hc)) as Hf.
    cbn beta in Hf. rewrite E, String.eqb_refl in Hf. discriminate.
  - intros n l. cbn. intros H. injection H as H.
    apply find_some in H as [Hin Hf].
    destruct (in_map_snd_lookup _ _ Hin) as [sess Hs].
    destruct (heap s !! l) as [u|] eqn:Hu; [|discriminate].
    exists sess, u. split; [exact Hs|split; [reflexivity|apply String.eqb_eq; exact Hf]].
  - intros n. cbn. intros H. injection H as H. intros sess l u Hs Hu E.
    pose proof (find_none _ _ H l (lookup_in_map_snd _ _ _ Hs)) as Hf.
    cbn beta in Hf. rewrite Hu, E, String.eqb_refl in Hf. discriminate.
Qed.


(** X8: [join_channel]: a Channel or an int id that fits the [uint32]
    field writes one UserState frame moving us to that id and returns True,
    without checking that the channel exists; an id outside that range
    raises and writes nothing; a name is resolved first (False when
    unknown); None returns False; a User object raises (it is stored into
    the integer [channel_id] field). *)
Theorem join_channel_behaviour (s : PState) :
  (forall cid, 0 <= cid < 4294967296 ->
   join_channel (RChannel cid) s =
     (set_written (written s ++ [join_frame cid]) s, Some true) /\
   join_channel (RInt cid) s =
     (set_written (written s ++ [join_frame cid]) s, Some true)) /\
  (forall cid, ~ (0 <= cid < 4294967296) ->
   join_channel (RChannel cid) s = (s, None) /\ join_channel (RInt cid) s = (s, None)) /\
  (forall n c, snd (get_channel (RStr n) s) = Some (Some c) ->
     0 <= ch_channel_id c < 4294967296 ->
     join_channel (RStr n) s =
       (set_written (written s ++ [join_frame (ch_channel_id c)]) s, Some true)) /\
  (forall n, snd (get_channel (RStr n) s) = Some None ->
     join_channel (RStr n) s = (s, Some false)) /\
  join_channel RNone s = (s, Some false) /\
  (forall l, join_channel (RUser l) s = (s, None)).
Proof.
  split; [|split; [|split; [|split; [|split]]]].
  - intros cid Hc. unfold join_channel, bind, ret. cbn.
    rewrite (uint32_ok_in _ Hc). split; reflexivity.
  - intros cid Hc. unfold join_channel, bind, ret. cbn.
    rewrite (uint32_ok_out _ Hc). split; reflexivity.
  - intros n c H Hc. unfold join_channel, bind. cbn [get_channel] in *.
    unfold gets in *. cbn in H. injection H as H. cbn. rewrite H. cbn.
    rewrite (uint32_ok_in _ Hc). reflexivity.
  - intros n H. unfold join_channel, bind. cbn [get_channel] in *.
    unfold gets in *. cbn in H. injection H as H. cbn. rewrite H. reflexivity.
  - reflexivity.
  - intros l. reflexivity.
Qed.

(** X9: [msg] without a target id raises for a non-channel target, and for the
    channel target when we have not joined yet ([self.ourselves] is None);
    in that state [shutdown] raises before closing the transport. Once
    joined, [shutdown] writes one text frame to our channel and closes;
    when our channel id does not fit the [uint32] field, it raises before
    closing instead. *)
Theorem msg_shutdown_edges (s : PState) :
  (forall message t, String.eqb t "channel" = false ->
     msg message t None s = (s, None)) /\
  (forall message, ourselves s = None ->
     msg message "channel" None s = (s, None)) /\
  (ourselves s = None -> shutdown s = (s, None)) /\
  (forall l u, ourselves s = Some l -> heap s !! l = Some u ->
     0 <= u_channel u < 4294967296 ->
     shutdown s =
       (set_closed true (set_written (written s ++
          [(11, MTextMessage (mkTextMessageMsg None [] [u_channel u] []
                  "Disconnecting: Protocol shutdown"))]) s), Some tt)) /\
  (forall l u, ourselves s = Some l -> heap s !! l = Some u ->
     ~ (0 <= u_channel u < 4294967296) -> shutdown s = (s, None)).
Proof.
  split; [|split; [|split; [|split]]].
  - intros message t Ht. unfold msg, bind, ret, raise. rewrite Ht. reflexivity.
  - intros message Ho. unfold msg, bind, gets, raise. cbn. rewrite Ho. reflexivity.
  - intros Ho. unfold shutdown, msg, bind, gets, raise. cbn. rewrite Ho. reflexivity.
  - intros l u Ho Hu Hc. unfold shutdown, msg, bind, gets, deref, ret. cbn.
    rewrite Ho, Hu. cbn. rewrite (uint32_ok_in _ Hc). reflexivity.
  - intros l u Ho Hu Hc. unfold shutdown, msg, bind, gets, deref, ret. cbn.
    rewrite Ho, Hu. cbn. rewrite (uint32_ok_out _ Hc). reflexivity.
Qed.

(** X10: [send_msg] and [send_action] return False, change nothing and send
    nothing when an int or str target resolves to no channel (or, with
    [target_type == "user"], an int to no session and a str to no user
    whose nickname matches case-insensitively), and when the target is
    None. *)
Theorem send_unresolved_target (env : Env) (s : PState) :
  (forall z message ty ue, ty <> Some "user"%string -> channels s !! z = None ->
     send_msg env (RInt z) message ty ue s = (s, Some false) /\
     send_action env (RInt z) message ty ue s = (s, Some false)) /\
  (forall z message ue, users s !! z = None ->
     send_msg env (RInt z) message (Some "user"%string) ue s = (s, Some false) /\
     send_action env (RInt z) message (Some "user"%string) ue s = (s, Some false)) /\
  (forall n message ty ue, ty <> Some "user"%string ->
     (forall cid c, channels s !! cid = Some c -> lower (ch_name c) <> lower n) ->
     send_msg env (RStr n) message ty ue s = (s, Some false) /\
     send_action env (RStr n) message ty ue s = (s, Some false)) /\
  (forall n message ue,
     (forall sess l u, users s !! sess = Some l -> heap s !! l = Some u ->
                       lower (u_nickname u) <> lower n) ->
     send_msg env (RStr n) message (Some "user"%string) ue s = (s, Some false) /\
     send_action env (RStr n) message (Some "user"%string) ue s = (s, Some false)) /\
  (forall message ty ue,
     send_msg env RNone message ty ue s = (s, Some false) /\
     send_action env RNone message ty ue s = (s, Some false)).
Proof.
  split; [|split; [|split; [|split]]].
  - intros z message ty ue Hty Hz.
    assert (R : resolve_target (RInt z) ty s = (s, Some None)).
    { unfold resolve_target, get_channel, bind, gets, ret. cbn.
      destruct ty as [t|].
      - destruct (String.eqb t "user") eqn:E.
        + apply String.eqb_eq in E. subst. congruence.
        + cbn. rewrite Hz. reflexivity.
      - cbn. rewrite Hz. reflexivity. }
    unfold send_msg, send_action. split; rewrite (bind_some _ _ _ _ _ R); reflexivity.
  - intros z message ue Hz.
    assert (R : resolve_target (RInt z) (Some "user"%string) s = (s, Some None)).
    { unfold resolve_target, get_user, bind, gets, ret. cbn. rewrite Hz. reflexivity. }
    unfold send_msg, send_action. split; rewrite (bind_some _ _ _ _ _ R); reflexivity.
  - intros n message ty ue Hty Hn.
    assert (F : List.find (fun c => String.eqb (lower (ch_name c)) (lower n))
                  (map snd (map_to_list (channels s))) = None).
    { destruct (List.find _ _) as [c|] eqn:E; [|reflexivity].
      apply find_some in E as [Hin Hf]. destruct (in_map_snd_lookup _ _ Hin) as [cid Hc].
      apply String.eqb_eq in Hf. exfalso. exact (Hn cid c Hc Hf). }
    assert (R : resolve_target (RStr n) ty s = (s, Some None)).
    { unfold resolve_target, get_channel, bind, gets, ret. cbn.
      destruct ty as [t|].
      - destruct (String.eqb t "user") eqn:E.
        + apply String.eqb_eq in E. subst. congruence.
        + cbn. rewrite F. reflexivity.
      - cbn. rewrite F. reflexivity. }
    unfold send_msg, send_action. split; rewrite (bind_some _ _ _ _ _ R); reflexivity.
  - intros n message ue Hn.
    assert (F : List.find (fun l => match heap s !! l with
                                    | Some u => String.eqb (lower (u_nickname u)) (lower n)
                                    | None => false
                                    end)
                  (map snd (map_to_list (users s))) = None).
    { destruct (List.find _ _) as [l|] eqn:E; [|reflexivity].
      apply find_some in E as [Hin Hf]. destruct (in_map_snd_lookup _ _ Hin) as [sess Hs].
      destruct (heap s !! l) as [u|] eqn:Hu; [|discriminate].
      apply String.eqb_eq in Hf. exfalso. exact (Hn sess l u Hs Hu Hf). }
    assert (R : resolve_target (RStr n) (Some "user"%string) s = (s, Some None)).
    { unfold resolve_target, get_user, bind, gets, ret. cbn. rewrite F. reflexivity. }
    unfold send_msg, send_action. split; rewrite (bind_some _ _ _ _ _ R); reflexivity.
  - intros message ty ue. split; reflexivity.
Qed.

(** X11: [recvProtobuf] on the messages it handles inline: Version publishes
    PostSetup, ServerSync publishes the welcome text converted from HTML,
    ServerConfig stores [allow_html] and publishes it, PermissionQuery raises
    KeyError for an unknown channel, and every message kind without a branch
    publishes one Mumble/Unknown event and nothing else. *)
Theorem recvProtobuf_simple_dispatch (env : Env) (s : PState) (t : Z) :
  (forall v, recvProtobuf env s t (MVersion v) =
     (set_events (events s ++ [("PostSetup"%string, PostSetupEv)]) s, false)) /\
  (forall w, recvProtobuf env s t (MServerSync w) =
     (set_events (events s ++ [("Mumble/ServerSync"%string,
        ServerSyncEv (html_to_text env (default EmptyString w)))]) s, false)) /\
  (forall c, let b := default false (sc_allow_html c) in
     recvProtobuf env s t (MServerConfig c) =
     (set_events (events s ++ [("Mumble/ServerConfig"%string, ServerConfigEv b)])
        (set_allow_html b s), false)) /\
  (forall q, channels s !! default 0 (pq_channel_id q) = None ->
     recvProtobuf env s t (MPermissionQuery q) = (s, true)) /\
  (forall q c, channels s !! default 0 (pq_channel_id q) = Some c ->
     recvProtobuf env s t (MPermissionQuery q) =
     (set_events (events s ++ [("Mumble/PermissionsQuery"%string,
        PermissionsQueryEv (ch_channel_id c))]) s, false)) /\
  (forall m, match m with
             | MUDPTunnel _ | MAuthenticate _ | MChannelRemove _ | MBanList _
             | MPermissionDenied | MACL _ | MQueryUsers | MContextActionModify _
             | MContextAction _ | MUserList _ | MVoiceTarget | MUserStats
             | MRequestBlob => True
             | _ => False
             end ->
     recvProtobuf env s t m =
     (set_events (events s ++ [("Mumble/Unknown"%string, UnknownEv (msg_kind m))]) s,
      false)).
Proof.
  split; [|split; [|split; [|split; [|split]]]].
  - intros v. reflexivity.
  - intros w. reflexivity.
  - intros c. reflexivity.
  - intros q Hq. unfold recvProtobuf, recvProtobuf_M, bind. rewrite get_channel_obj_at, Hq.
    reflexivity.
  - intros q c Hq. unfold recvProtobuf, recvProtobuf_M, bind. rewrite get_channel_obj_at, Hq.
    reflexivity.
  - intros m Hm. destruct m; try contradiction; reflexivity.
Qed.

(** X12: [handle_msg_channelstate]: a new id without links creates the channel;
    a new id that arrives with links raises (the debug line reads
    [self.channels[cid]] before the channel is stored); for a known id the
    name, parent and position are not updated, and an added link to a known
    channel is stored and published as ChannelLinked; an added link to an
    unknown channel is stored, then the log line reading
    [self.channels[link]] raises KeyError before ChannelLinked is
    published. *)
Theorem channelstate_behaviour (s : PState) (m : ChannelStateMsg) :
  let cid := default 0 (cs_channel_id m) in
  (channels s !! cid = None -> cs_links m = [] ->
   cs_links_add m = [] -> cs_links_remove m = [] ->
   handle_msg_channelstate m s =
     (set_channels (<[cid := mkChannel cid (default EmptyString (cs_name m)) (cs_parent m)
                             (default 0 (cs_position m)) ∅ ∅]> (channels s)) s, Some tt)) /\
  (channels s !! cid = None -> cs_links m <> [] ->
   handle_msg_channelstate m s = (s, None)) /\
  (forall c, channels s !! cid = Some c ->
   cs_links_add m = [] -> cs_links_remove m = [] ->
   handle_msg_channelstate m s = (s, Some tt)) /\
  (forall c link c', channels s !! cid = Some c -> channels s !! link = Some c' ->
   cs_links_add m = [link] -> cs_links_remove m = [] ->
   handle_msg_channelstate m s =
     (set_events (events s ++ [("Mumble/ChannelLinked"%string, ChannelLinkedEv link cid)])
        (set_channels (<[cid := add_link c link]> (channels s)) s), Some tt)) /\
  (forall c link, channels s !! cid = Some c -> channels s !! link = None ->
   cs_links_add m = [link] ->
   handle_msg_channelstate m s =
     (set_channels (<[cid := add_link c link]> (channels s)) s, None)).
Proof.
  destruct m as [oid par nm pos links ladd lrem]. cbn [cs_channel_id cs_parent cs_name
    cs_position cs_links cs_links_add cs_links_remove].
  set (cid := default 0 oid). split; [|split; [|split; [|split]]].
  - intros Hc -> -> ->. unfold handle_msg_channelstate. cbn [cs_channel_id cs_links
      cs_links_add cs_links_remove cs_name cs_parent cs_position]. fold cid.
    unfold bind, gets, has_key. rewrite Hc. reflexivity.
  - intros Hc Hl. destruct links as [|link links]; [congruence|].
    unfold handle_msg_channelstate. cbn [cs_channel_id cs_links]. fold cid.
    unfold bind, gets, has_key. rewrite Hc. cbn [for_each].
    unfold bind, get_channel_obj. destruct (channels s !! link); [|reflexivity].
    rewrite Hc. reflexivity.
  - intros c Hc -> ->. unfold handle_msg_channelstate. cbn [cs_channel_id
      cs_links_add cs_links_remove]. fold cid.
    unfold bind, gets, has_key. rewrite Hc. reflexivity.
  - intros c link c' Hc Hl -> ->. unfold handle_msg_channelstate. cbn [cs_channel_id
      cs_links_add cs_links_remove]. fold cid.
    unfold bind at 1, gets, has_key. rewrite Hc. cbn [ret].
    assert (L1 : exists x, <[cid:=add_link c link]> (channels s) !! link = Some x).
    { destruct (decide (link = cid)) as [->|Hne].
      - rewrite lookup_insert_eq. eauto.
      - rewrite lookup_insert_ne by congruence. rewrite Hl. eauto. }
    destruct L1 as [x L1].
    assert (L2 : <[cid:=add_link c link]> (channels s) !! cid = Some (add_link c link))
      by apply lookup_insert_eq.
    unfold ret, for_each, update_channel, run_callback, modify, bind.
    repeat (first [rewrite get_channel_obj_at | rewrite Hc | rewrite L1 | rewrite L2
                  | progress cbn [channels set_channels fst snd]]).
    reflexivity.
  - intros c link Hc Hl ->. unfold handle_msg_channelstate. cbn [cs_channel_id
      cs_links_add]. fold cid.
    unfold bind at 1, gets, has_key. rewrite Hc. cbn [ret].
    assert (L1 : <[cid:=add_link c link]> (channels s) !! link = None)
      by (rewrite lookup_insert_ne by congruence; exact Hl).
    unfold ret, for_each, update_channel, modify, bind.
    repeat (first [rewrite get_channel_obj_at | rewrite Hc | rewrite L1
                  | progress cbn [channels set_channels fst snd]]).
    reflexivity.
Qed.

Ltac crunch :=
  repeat (first [ rewrite get_channel_obj_at | rewrite get_user_obj_at | rewrite deref_at
                | match goal with H : ?m !! ?k = _ |- context [?m !! ?k] => rewrite H end
                | progress cbn [channels users heap events written logs next_loc ourselves
                                set_channels set_users set_heap set_events set_written
                                set_logs set_ourselves fst snd negb andb orb] ]).

Ltac leaf_oe :=
  let H := fresh "H" in
  intros ? H;
  cbn [ourselves events users heap channels set_logs set_written set_pending_pings set_closed
       set_pinging set_allow_html log_line] in *;
  exact H.

Lemma join_configured_channel_keeps (env : Env) (o : option nat)
    (e : list (string * Event)) (us : gmap Z nat) (h : gmap nat User)
    (cs : gmap Z Channel) :
  preserves (fun x => ourselves x = o /\ events x = e /\ users x = us /\ heap x = h /\
                      channels x = cs)
    (join_configured_channel env).
Proof. pres_walk leaf_oe. Qed.

Lemma join_configured_channel_returns (env : Env) (s : PState) :
  snd (join_configured_channel env s) = Some tt.
Proof.
  unfold join_configured_channel, try_except.
  match goal with |- context [match ?m s with _ => _ end] => destruct (m s) as [s' [[]|]] end;
  reflexivity.
Qed.

(** X13: [handle_msg_userstate] for an unknown session: without a name or for a
    channel that does not exist it raises and changes nothing; otherwise it
    creates the User, adds it to the channel and [self.users] and publishes
    UserJoined, except for our own name: there it also sets
    [self.ourselves], publishes nothing, and ends with the join of the
    configured channel ([join_configured_channel], run on the state with the
    new User in place), which returns normally and changes no user, channel
    or event. *)
Theorem userstate_new_session (env : Env) (s : PState) (m : UserStateMsg) :
  let sess := default 0 (us_session m) in
  let name := default EmptyString (us_name m) in
  let cid := default 0 (us_channel_id m) in
  let l := next_loc s in
  let u := mkUser sess name cid (default false (us_mute m)) (default false (us_deaf m))
             (default false (us_suppress m)) (default false (us_self_mute m))
             (default false (us_self_deaf m)) (default false (us_priority_speaker m))
             (default false (us_recording m)) true in
  users s !! sess = None ->
  (name = EmptyString -> handle_msg_userstate env m s = (s, None)) /\
  (name <> EmptyString -> channels s !! cid = None ->
     handle_msg_userstate env m s = (s, None)) /\
  (forall c, name <> EmptyString -> channels s !! cid = Some c ->
     String.eqb name (username env) = false ->
     handle_msg_userstate env m s =
       (set_events (events s ++ [("Mumble/UserJoined"%string, UserJoinedEv l)])
          (set_channels (<[cid := add_user c l]> (channels s))
             (set_users (<[sess := l]> (users s))
                (set_heap (<[l := u]> (heap s)) (S l) s))), Some tt)) /\
  (forall c, name <> EmptyString -> channels s !! cid = Some c ->
     String.eqb name (username env) = true ->
     let s2 := set_ourselves (Some l)
                 (set_channels (<[cid := add_user c l]> (channels s))
                    (set_users (<[sess := l]> (users s))
                       (set_heap (<[l := u]> (heap s)) (S l) s))) in
     handle_msg_userstate env m s = join_configured_channel env s2 /\
     let r := handle_msg_userstate env m s in
     snd r = Some tt /\ ourselves (fst r) = Some l /\ events (fst r) = events s /\
     users (fst r) !! sess = Some l /\ heap (fst r) !! l = Some u /\
     channels (fst r) !! cid = Some (add_user c l)).
Proof.
  intros sess name cid l u Hs. split; [|split; [|split]].
  - intros Hn. unfold handle_msg_userstate, bind, gets, has_key. fold sess name.
    rewrite Hn, Hs. cbn. rewrite get_user_obj_at, Hs. reflexivity.
  - intros Hn Hc. apply String.eqb_neq in Hn.
    unfold handle_msg_userstate, bind, gets, has_key. fold sess name cid.
    rewrite Hn, Hs. cbn. rewrite get_channel_obj_at, Hc. reflexivity.
  - intros c Hn Hc Hu. apply String.eqb_neq in Hn.
    subst l.
    assert (L1 : <[sess := next_loc s]> (users s) !! sess = Some (next_loc s))
      by apply lookup_insert_eq.
    unfold handle_msg_userstate, update_channel, run_callback, alloc_user, modify, gets,
      has_key, bind. fold sess name cid. fold u.
    rewrite Hn, Hs. cbn [negb andb]. crunch. rewrite Hu. crunch. reflexivity.
  - intros c Hn Hc Hu s2'. apply String.eqb_neq in Hn. subst s2' l.
    assert (L1 : <[sess := next_loc s]> (users s) !! sess = Some (next_loc s))
      by apply lookup_insert_eq.
    set (s2 := set_ourselves (Some (next_loc s))
                 (set_channels (<[cid := add_user c (next_loc s)]> (channels s))
                    (set_users (<[sess := next_loc s]> (users s))
                       (set_heap (<[next_loc s := u]> (heap s)) (S (next_loc s)) s)))).
    assert (EQ : handle_msg_userstate env m s = join_configured_channel env s2).
    { unfold handle_msg_userstate, update_channel, alloc_user, modify, gets,
        has_key, bind. fold sess name cid. fold u.
      rewrite Hn, Hs. cbn [negb andb]. crunch. rewrite Hu. crunch. reflexivity. }
    split; [exact EQ|]. cbv zeta. rewrite EQ.
    pose proof (join_configured_channel_keeps env (Some (next_loc s)) (events s)
                  (users s2) (heap s2) (channels s2) s2) as K.
    pose proof (join_configured_channel_returns env s2) as R.
    destruct (join_configured_channel env s2) as [s3 o] eqn:E. cbn [fst snd] in *.
    destruct K as (K1 & K2 & K3 & K4 & K5); [repeat split|].
    split; [exact R|split; [exact K1|split; [exact K2|]]].
    rewrite K3, K4, K5. subst s2.
    cbn [users heap channels set_ourselves set_channels set_users set_heap].
    split; [|split]; apply lookup_insert_eq.
Qed.
(** X14: [handle_msg_userstate] for a known session: a mute or deaf change by a
    known actor updates the User and publishes one toggle per field, in
    source order; a mute change by an unknown actor raises KeyError before
    anything is changed; suppress and self-mute changes need no actor. *)
Theorem userstate_flag_deltas (env : Env) (s : PState) (sess act : Z) (l : nat)
    (u : User) (b1 b2 : bool) :
  users s !! sess = Some l -> heap s !! l = Some u ->
  (forall la, users s !! act = Some la ->
     handle_msg_userstate env
       (mkUserStateMsg (Some sess) (Some act) None None (Some b1) (Some b2)
          None None None None None) s =
     (set_events (events s ++
        [("Mumble/UserMuteToggle"%string, UserMuteToggleEv l b1 la);
         ("Mumble/UserDeafToggle"%string, UserDeafToggleEv l b2 la)])
        (set_heap (<[l := set_u_deaf b2 (set_u_mute b1 u)]> (heap s)) (next_loc s) s),
      Some tt)) /\
  (users s !! act = None ->
     handle_msg_userstate env
       (mkUserStateMsg (Some sess) (Some act) None None (Some b1) None
          None None None None None) s = (s, None)) /\
  (handle_msg_userstate env
       (mkUserStateMsg (Some sess) None None None None None
          (Some b1) (Some b2) None None None) s =
     (set_events (events s ++
        [("Mumble/UserSuppressionToggle"%string, UserSuppressionToggleEv l b1);
         ("Mumble/UserSelfMuteToggle"%string, UserSelfMuteToggleEv l b2)])
        (set_heap (<[l := set_u_self_mute b2 (set_u_suppress b1 u)]> (heap s))
           (next_loc s) s),
      Some tt)).
Proof.
  intros Hs Hu.
  assert (K : has_key (users s) sess = true) by (unfold has_key; rewrite Hs; reflexivity).
  split; [|split].
  - intros la Ha.
    assert (L : <[l := set_u_mute b1 u]> (heap s) !! l = Some (set_u_mute b1 u))
      by apply lookup_insert_eq.
    unfold handle_msg_userstate, userstate_move, userstate_toggle_actor, userstate_toggle,
      userstate_recording, update_user, run_callback, modify, gets, bind, ret.
    cbn [us_session us_name us_actor us_channel_id us_mute us_deaf us_suppress
         us_self_mute us_self_deaf us_priority_speaker us_recording default].
    unfold id. rewrite K. cbn [String.eqb negb andb]. crunch.
    rewrite insert_insert_eq. rewrite <- app_assoc. reflexivity.
  - intros Ha.
    unfold handle_msg_userstate, userstate_move, userstate_toggle_actor, gets, bind, ret.
    cbn [us_session us_name us_actor us_channel_id us_mute default].
    unfold id. rewrite K. cbn [String.eqb negb andb]. crunch. reflexivity.
  - assert (L : <[l := set_u_suppress b1 u]> (heap s) !! l = Some (set_u_suppress b1 u))
      by apply lookup_insert_eq.
    unfold handle_msg_userstate, userstate_move, userstate_toggle_actor, userstate_toggle,
      userstate_recording, update_user, run_callback, modify, gets, bind, ret.
    cbn [us_session us_name us_actor us_channel_id us_mute us_deaf us_suppress
         us_self_mute us_self_deaf us_priority_speaker us_recording default].
    unfold id. rewrite K. cbn [String.eqb negb andb]. crunch.
    rewrite insert_insert_eq. rewrite <- app_assoc. reflexivity.
Qed.

(** X15: [handle_msg_userstate] with a [channel_id] for a known user: the
    actor lookup comes first, so an actor missing from [self.users] raises
    KeyError and changes nothing; so does a missing target channel. Otherwise
    the user leaves the old channel, joins the new one, its channel is
    updated and UserMoved names the new and old ids; when the target is the
    user's current channel the user is removed and added back in that
    channel and UserMoved is still published. *)
Theorem userstate_move_delta (env : Env) (s : PState) (sess act newc : Z) (l : nat)
    (u : User) :
  users s !! sess = Some l -> heap s !! l = Some u ->
  let m := mkUserStateMsg (Some sess) (Some act) None (Some newc) None None
             None None None None None in
  (users s !! act = None -> handle_msg_userstate env m s = (s, None)) /\
  (forall la, users s !! act = Some la -> channels s !! newc = None ->
     handle_msg_userstate env m s = (s, None)) /\
  (forall la co cn, users s !! act = Some la -> newc <> u_channel u ->
     channels s !! u_channel u = Some co -> channels s !! newc = Some cn ->
     handle_msg_userstate env m s =
       (set_events (events s ++ [("Mumble/UserMoved"%string,
                                  UserMovedEv l newc (ch_channel_id co))])
          (set_heap (<[l := set_u_channel newc u]> (heap s)) (next_loc s)
             (set_channels (<[newc := add_user cn l]>
                              (<[u_channel u := remove_user co l]> (channels s))) s)),
        Some tt)) /\
  (forall la co, users s !! act = Some la -> newc = u_channel u ->
     channels s !! newc = Some co ->
     handle_msg_userstate env m s =
       (set_events (events s ++ [("Mumble/UserMoved"%string,
                                  UserMovedEv l newc (ch_channel_id co))])
          (set_heap (<[l := set_u_channel newc u]> (heap s)) (next_loc s)
             (set_channels (<[newc := add_user (remove_user co l) l]> (channels s)) s)),
        Some tt)).
Proof.
  intros Hs Hu m.
  assert (K : has_key (users s) sess = true) by (unfold has_key; rewrite Hs; reflexivity).
  split; [|split; [|split]].
  - intros Ha. subst m.
    unfold handle_msg_userstate, userstate_move, gets, bind, ret.
    cbn [us_session us_name us_actor us_channel_id default].
    unfold id. rewrite K. cbn [String.eqb negb andb]. crunch. reflexivity.
  - intros la Ha Hn. subst m.
    unfold handle_msg_userstate, userstate_move, gets, bind, ret.
    cbn [us_session us_name us_actor us_channel_id default].
    unfold id. rewrite K. cbn [String.eqb negb andb]. crunch. reflexivity.
  - intros la co cn Ha Hne Ho Hn. subst m.
    assert (L1 : <[u_channel u := remove_user co l]> (channels s) !! newc = Some cn)
      by (rewrite lookup_insert_ne by congruence; exact Hn).
    assert (L2 : <[newc := add_user cn l]> (<[u_channel u := remove_user co l]> (channels s))
                   !! newc = Some (add_user cn l)) by apply lookup_insert_eq.
    unfold handle_msg_userstate, userstate_move, userstate_toggle_actor, userstate_toggle,
      userstate_recording, update_user, update_channel, run_callback, modify, gets, bind, ret.
    cbn [us_session us_name us_actor us_channel_id us_mute us_deaf us_suppress
         us_self_mute us_self_deaf us_priority_speaker us_recording default].
    unfold id. rewrite K. cbn [String.eqb negb andb]. crunch. reflexivity.
  - intros la co Ha Heq Hn. subst m.
    assert (Ho : channels s !! u_channel u = Some co) by (rewrite <- Heq; exact Hn).
    assert (L1 : <[u_channel u := remove_user co l]> (channels s) !! newc =
                 Some (remove_user co l)) by (rewrite Heq; apply lookup_insert_eq).
    assert (L2 : <[newc := add_user (remove_user co l) l]>
                   (<[u_channel u := remove_user co l]> (channels s))
                   !! newc = Some (add_user (remove_user co l) l)) by apply lookup_insert_eq.
    unfold handle_msg_userstate, userstate_move, userstate_toggle_actor, userstate_toggle,
      userstate_recording, update_user, update_channel, run_callback, modify, gets, bind, ret.
    cbn [us_session us_name us_actor us_channel_id us_mute us_deaf us_suppress
         us_self_mute us_self_deaf us_priority_speaker us_recording default].
    unfold id. rewrite K. cbn [String.eqb negb andb]. crunch.
    rewrite <- Heq, insert_insert_eq. reflexivity.
Qed.

(** X16: The UserRemove branch of [recvProtobuf]: an unknown session publishes
    UserDisconnected with no user, preceded by UserRemove (with no user)
    when the actor is in [self.users]; a known one is untracked, removed
    from its channel and from [self.users], and UserRemove is published
    before UserDisconnected only when the actor is still in [self.users]
    after the removal. *)
Theorem userremove_behaviour (s : PState) (m : UserRemoveMsg) :
  let sess := ur_session m in
  let actor := default 0 (ur_actor m) in
  (users s !! sess = None -> users s !! actor = None ->
     handle_msg_userremove m s =
       (set_events (events s ++ [("UserDisconnected"%string, UserDisconnectedEv None)]) s,
        Some tt)) /\
  (forall la, users s !! sess = None -> users s !! actor = Some la ->
     handle_msg_userremove m s =
       (set_events (events s ++
          [("Mumble/UserRemove"%string, UserRemoveEv sess actor None la);
           ("UserDisconnected"%string, UserDisconnectedEv None)]) s,
        Some tt)) /\
  (forall l u c, users s !! sess = Some l -> heap s !! l = Some u ->
     channels s !! u_channel u = Some c ->
     let s' := set_users (delete sess (users s))
                 (set_channels (<[u_channel u := remove_user c l]> (channels s))
                    (set_heap (<[l := set_u_is_tracked false u]> (heap s)) (next_loc s) s)) in
     (delete sess (users s) !! actor = None ->
      handle_msg_userremove m s =
        (set_events (events s ++ [("UserDisconnected"%string, UserDisconnectedEv (Some l))])
           s', Some tt)) /\
     (forall la, delete sess (users s) !! actor = Some la ->
      handle_msg_userremove m s =
        (set_events (events s ++
           [("Mumble/UserRemove"%string, UserRemoveEv sess actor (Some l) la);
            ("UserDisconnected"%string, UserDisconnectedEv (Some l))]) s', Some tt))).
Proof.
  intros sess actor. split; [|split].
  - intros Hs Ha. unfold handle_msg_userremove, run_callback, modify, gets, bind, ret,
      has_key. fold sess actor. crunch. reflexivity.
  - intros la Hs Ha. unfold handle_msg_userremove, run_callback, modify, gets, bind, ret,
      has_key. fold sess actor. crunch. rewrite <- app_assoc. reflexivity.
  - intros l u c Hs Hu Hc s'.
    assert (L : <[l := set_u_is_tracked false u]> (heap s) !! l =
                Some (set_u_is_tracked false u)) by apply lookup_insert_eq.
    assert (Hc' : channels s !! u_channel (set_u_is_tracked false u) = Some c) by exact Hc.
    split.
    + intros Ha. unfold handle_msg_userremove, update_user, update_channel, run_callback,
        modify, gets, bind, ret, has_key. fold sess actor. crunch. reflexivity.
    + intros la Ha. unfold handle_msg_userremove, update_user, update_channel, run_callback,
        modify, gets, bind, ret, has_key. fold sess actor. crunch.
      rewrite <- app_assoc. reflexivity.
Qed.

(** X17: [handle_command] on a message that starts with the command prefix and
    has a command token: it publishes PreCommand with the first token and
    the rest, then returns what [run_command] reports: True when it ran,
    False when the command is unknown, and True after logging when it was
    refused or failed. *)
Theorem handle_command_result (env : Env) (source target : Ref) (message : string)
    (s : PState) (command : string) (rest : list string) :
  let cc := lower (py_replace (control_chars env) "{NICK}"%string (username env)) in
  String.prefix cc (lower message) = true ->
  py_split1 (str_drop (String.length cc) message) = command :: rest ->
  let args := match rest with a :: _ => a | [] => EmptyString end in
  let ev := mkPreCommand command args source target true message in
  let ev' := pre_command_hook env ev in
  let res := run_command env (pc_command ev') (pc_source ev') (pc_target ev') (pc_args ev') in
  let s1 := set_events (events s ++ [("PreCommand"%string, PreCommandEv ev)]) s in
  (forall b, res = (true, b) -> handle_command env source target message s = (s1, Some true)) /\
  (res = (false, DNotFound) -> handle_command env source target message s = (s1, Some false)) /\
  (res = (false, DUnauthorized) ->
     handle_command env source target message s =
       (log_line "not authorized" s1, Some true)) /\
  (forall e, res = (false, DError e) ->
     handle_command env source target message s =
       (log_line "An error occured" s1, Some true)).
Proof.
  intros cc Hp Hsplit args ev ev' res s1.
  assert (E : handle_command env source target message s =
              (let '(a, b) := res in
               if a then ret true
               else match b with
                    | DUnauthorized => do _ <- log_warn "not authorized"; ret true
                    | DNotFound => ret false
                    | DError _ => do _ <- log_warn "An error occured"; ret true
                    end) s1).
  { unfold handle_command. fold cc. rewrite Hp. cbv zeta. rewrite Hsplit.
    unfold bind at 1, run_callback, modify. reflexivity. }
  rewrite E. split; [|split; [|split]].
  - intros b ->. reflexivity.
  - intros ->. reflexivity.
  - intros ->. reflexivity.
  - intros e ->. reflexivity.
Qed.

(** X18: [handle_msg_textmessage]: a message from an unknown actor is ignored; a
    channel message to an unknown channel raises; a non-command private or
    channel message publishes PreMessageReceived and then MessageReceived
    with the text as the hook leaves it, addressed to the sender or the
    channel. *)
Theorem textmessage_behaviour (env : Env) (s : PState) (m : TextMessageMsg) :
  let actor := default 0 (tm_actor m) in
  let text := html_to_text env (tm_message m) in
  let cc := lower (py_replace (control_chars env) "{NICK}"%string (username env)) in
  let received l target :=
    set_events (events s ++
      [("PreMessageReceived"%string, PreMessageReceivedEv l target text);
       ("MessageReceived"%string, MessageReceivedEv l target (pre_message_hook env text))])
      s in
  (users s !! actor = None -> handle_msg_textmessage env m s = (s, Some tt)) /\
  (forall l cid rest, users s !! actor = Some l -> tm_channel_id m = cid :: rest ->
     channels s !! cid = None -> handle_msg_textmessage env m s = (s, None)) /\
  (forall l, users s !! actor = Some l -> tm_channel_id m = [] ->
     String.prefix cc (lower text) = false ->
     handle_msg_textmessage env m s = (received l (RUser l), Some tt)) /\
  (forall l cid rest c, users s !! actor = Some l -> tm_channel_id m = cid :: rest ->
     channels s !! cid = Some c -> String.prefix cc (lower text) = false ->
     handle_msg_textmessage env m s = (received l (RChannel cid), Some tt)).
Proof.
  intros actor text cc received. split; [|split; [|split]].
  - intros Ha. unfold handle_msg_textmessage, gets, bind, has_key.
    fold actor. rewrite Ha. reflexivity.
  - intros l cid rest Ha Hm Hc. unfold handle_msg_textmessage, gets, bind, has_key.
    fold actor. rewrite Hm. crunch. reflexivity.
  - intros l Ha Hm Hp. unfold handle_msg_textmessage, gets, bind, has_key, ret.
    fold actor text. rewrite Hm. crunch.
    unfold handle_command. fold cc. rewrite Hp. unfold ret, run_callback, modify.
    cbn. rewrite <- app_assoc. reflexivity.
  - intros l cid rest c Ha Hm Hc Hp. unfold handle_msg_textmessage, gets, bind, has_key, ret.
    fold actor text. rewrite Hm. crunch.
    unfold handle_command. fold cc. rewrite Hp. unfold ret, run_callback, modify.
    cbn. rewrite <- app_assoc. reflexivity.
Qed.

Lemma unpack_prefix_total (h : list byte) :
  length h = 6%nat -> exists t len, unpack_prefix h = Some (t, len).
Proof.
  intros H. do 7 (destruct h as [|? h]; try discriminate H).
  eexists _, _. reflexivity.
Qed.

Section DecoderShape.

Context {St Msg : Type}.
Variable parse_fn : Kind -> list byte -> option Msg.
Variable handler : St -> Z -> Msg -> St * bool.
Variable lose : St -> St.
Variable logerr : string -> St -> St.

Lemma decode_loop_shape (n : nat) (buf : list byte) (s : St) (rest : list byte)
    (s' : St) (o : outcome) :
  (length buf <= n)%nat ->
  decode_loop parse_fn handler lose logerr n buf s = ((rest, s'), o) ->
  (exists pre, buf = pre ++ rest) /\
  (o = Returned ->
     (length rest < 6)%nat \/
     exists t len, unpack_prefix (take 6 rest) = Some (t, len) /\
       (valid_msg_id t = false \/ Z.of_nat (length rest) < 6 + len)) /\
  (o = Raised ->
     exists t len k, unpack_prefix (take 6 rest) = Some (t, len) /\
       valid_msg_id t = true /\ 6 + len <= Z.of_nat (length rest) /\
       nth_error ID_MESSAGE (Z.to_nat t) = Some k /\
       parse_fn k (take (Z.to_nat len) (drop 6 rest)) = None).
Proof.
  revert buf s. induction n as [|n IH]; intros buf s Hn E.
  - destruct buf; [|simpl in Hn; lia]. cbn in E. injection E as <- <- <-.
    split; [exists []; reflexivity|]. split; [intros _; left; simpl; lia|].
    discriminate.
  - destruct (Nat.lt_ge_cases (length buf) 6) as [Hs|Hs].
    { rewrite loop_step_short in E by exact Hs. injection E as <- <- <-.
      split; [exists []; reflexivity|]. split; [intros _; left; exact Hs|].
      discriminate. }
    destruct (unpack_prefix_total (take 6 buf)) as (t & len & Hu).
    { rewrite length_take. lia. }
    pose proof (unpack_nonneg _ _ _ Hu) as [Ht0 Hl0].
    destruct (valid_msg_id t) eqn:Hv.
    2:{ rewrite (loop_step_badtag _ _ _ _ n buf s t len Hs Hu Hv) in E.
        injection E as <- <- <-.
        split; [exists []; reflexivity|]. split; [|discriminate].
        intros _. right. exists t, len. auto. }
    destruct (Z_lt_ge_dec (Z.of_nat (length buf)) (6 + len)) as [Hf|Hf].
    { rewrite (loop_step_partial _ _ _ _ n buf s t len Hs Hu Hv Hf) in E.
      injection E as <- <- <-.
      split; [exists []; reflexivity|]. split; [|discriminate].
      intros _. right. exists t, len. auto. }
    destruct (ID_MESSAGE_nth t) as [k Hk]; [apply valid_msg_id_iff; exact Hv|].
    destruct (parse_fn k (take (Z.to_nat len) (drop 6 buf))) as [m|] eqn:Hp.
    2:{ rewrite (loop_step_parse_fail _ _ _ _ n buf s t len k Hs Hu Hv ltac:(lia) Hk Hp) in E.
        injection E as <- <- <-.
        split; [exists []; reflexivity|]. split; [discriminate|].
        intros _. exists t, len, k. repeat split; auto; lia. }
    rewrite (loop_step_frame _ _ _ _ n buf s t len k m Hs Hu Hv ltac:(lia) Hk Hp) in E.
    apply IH in E as ([pre Hpre] & HR & HX).
    2:{ rewrite length_drop. lia. }
    split; [|split; assumption].
    exists (take (Z.to_nat (6 + len)) buf ++ pre).
    rewrite <- app_assoc, <- Hpre. symmetry. apply take_drop.
Qed.

(** X19: how a call of [dataReceived] can end. What stays buffered is a suffix
    of the old buffer followed by the received bytes. A normal return leaves
    either fewer than six bytes, or a header with an unregistered tag, or a
    header whose frame is not complete yet. An exception escapes only when
    the head frame is complete and registered but its payload fails to
    deserialize. *)
Theorem dataReceived_exit_shape (p : list byte * St) (recv : list byte) :
  let r := dataReceived parse_fn handler lose logerr p recv in
  let rest := fst (fst r) in
  (exists pre, fst p ++ recv = pre ++ rest) /\
  (snd r = Returned ->
     (length rest < 6)%nat \/
     exists t len, unpack_prefix (take 6 rest) = Some (t, len) /\
       (valid_msg_id t = false \/ Z.of_nat (length rest) < 6 + len)) /\
  (snd r = Raised ->
     exists t len k, unpack_prefix (take 6 rest) = Some (t, len) /\
       valid_msg_id t = true /\ 6 + len <= Z.of_nat (length rest) /\
       nth_error ID_MESSAGE (Z.to_nat t) = Some k /\
       parse_fn k (take (Z.to_nat len) (drop 6 rest)) = None).
Proof.
  unfold dataReceived.
  destruct (decode_loop parse_fn handler lose logerr (length (fst p ++ recv))
              (fst p ++ recv) (snd p)) as [[rest s'] o] eqn:E.
  exact (decode_loop_shape _ _ _ _ _ _ (le_n _) E).
Qed.

End DecoderShape.

(** X20: [recvProtobuf] sets [closed] only for a Reject message; every other
    message leaves the transport as it was, whether its handler returns or
    raises. *)
Theorem recvProtobuf_closed_only_on_reject (env : Env) (s : PState) (t : Z) (m : Msg) :
  closed (fst (recvProtobuf env s t m)) =
  match m with MReject _ => true | _ => closed s end.
Proof.
  destruct (match m with MReject r => Some r | _ => None end) as [r|] eqn:Em.
  - destruct m; try discriminate Em. reflexivity.
  - assert (Hm' : forall r, m <> MReject r) by (intros r ->; discriminate Em).
    pose proof (recvProtobuf_M_closed env (closed s) m Hm' s eq_refl) as H.
    unfold recvProtobuf. destruct (recvProtobuf_M env m s) as [s0 r0].
    cbn [fst] in *. rewrite H. destruct m; try reflexivity. discriminate Em.
Qed.

Lemma msg_user_ref (env : Env) (s : PState) (l : nat) (u : User) (text : string)
    (ue : bool) :
  heap s !! l = Some u ->
  (users s !! u_session u = None -> msg_user env text (RUser l) ue s = (s, None)) /\
  (forall l', users s !! u_session u = Some l' ->
     let s1 := if ue then set_events (events s ++ [("MessageSent"%string,
                                                    MessageSentEv (RUser l') text)]) s
               else s in
     let text' := if ue then message_sent_hook env text else text in
     (0 <= u_session u < 4294967296 ->
      msg_user env text (RUser l) ue s =
      (set_written (written s1 ++ [(11, MTextMessage (mkTextMessageMsg None [u_session u]
                                           [] [] (cgi_escape text')))]) s1, Some tt)) /\
     (~ (0 <= u_session u < 4294967296) ->
      msg_user env text (RUser l) ue s = (s1, None))).
Proof.
  intros Hh. split.
  - intros Hn. unfold msg_user, bind, ret. crunch.
    destruct ue; crunch; unfold run_callback, modify, msg, sendProtobuf; crunch; reflexivity.
  - intros l' Hl'. split; intros Hr.
    + unfold msg_user, bind, ret. crunch.
      destruct ue; crunch; unfold run_callback, modify, msg, sendProtobuf, bind, ret; crunch;
        rewrite (uint32_ok_in _ Hr); reflexivity.
    + unfold msg_user, bind, ret. crunch.
      destruct ue; crunch; unfold run_callback, modify, msg, sendProtobuf, bind, ret; crunch;
        rewrite (uint32_ok_out _ Hr); reflexivity.
Qed.

(** X21: sending to a [User] object. The text goes out as one TextMessage
    frame addressed to the user's session, HTML-escaped, after the
    MessageSent event and its hook when [use_event] is set, and the call
    returns true; [send_action] sends the text wrapped in asterisks. When the
    object's session is no longer in [self.users] (the user has left), the
    lookup raises KeyError and nothing is sent; when the session does not
    fit the [uint32] field, the append raises after the MessageSent event
    and nothing is sent. *)
Theorem send_to_user_object (env : Env) (s : PState) (l : nat) (u : User)
    (text : string) (ty : option string) (ue : bool) :
  heap s !! l = Some u ->
  (users s !! u_session u = None ->
     send_msg env (RUser l) text ty ue s = (s, None) /\
     send_action env (RUser l) text ty ue s = (s, None)) /\
  (forall l', users s !! u_session u = Some l' ->
     let s1 := if ue then set_events (events s ++ [("MessageSent"%string,
                                                    MessageSentEv (RUser l') text)]) s
               else s in
     let text' := if ue then message_sent_hook env text else text in
     let atext := String.append "*" (String.append text "*") in
     let s2 := if ue then set_events (events s ++ [("MessageSent"%string,
                                                    MessageSentEv (RUser l') atext)]) s
               else s in
     let atext' := if ue then message_sent_hook env atext else atext in
     (0 <= u_session u < 4294967296 ->
      send_msg env (RUser l) text ty ue s =
      (set_written (written s1 ++ [(11, MTextMessage (mkTextMessageMsg None [u_session u]
                                           [] [] (cgi_escape text')))]) s1, Some true) /\
      send_action env (RUser l) text ty ue s =
      (set_written (written s2 ++ [(11, MTextMessage (mkTextMessageMsg None [u_session u]
                                           [] [] (cgi_escape atext')))]) s2, Some true)) /\
     (~ (0 <= u_session u < 4294967296) ->
      send_msg env (RUser l) text ty ue s = (s1, None) /\
      send_action env (RUser l) text ty ue s = (s2, None))).
Proof.
  intros Hh.
  assert (R : forall ty, resolve_target (RUser l) ty s = (s, Some (Some (RUser l))))
    by (intros []; reflexivity).
  unfold send_msg, send_action. rewrite !(bind_some _ _ _ _ _ (R ty)).
  split.
  - intros Hn. destruct (msg_user_ref env s l u text ue Hh) as [A _].
    destruct (msg_user_ref env s l u (String.append "*" (String.append text "*")) ue Hh)
      as [B _].
    rewrite (bind_none _ _ _ _ (A Hn)), (bind_none _ _ _ _ (B Hn)). split; reflexivity.
  - intros l' Hl'. cbv zeta.
    destruct (msg_user_ref env s l u text ue Hh) as [_ A].
    destruct (msg_user_ref env s l u (String.append "*" (String.append text "*")) ue Hh)
      as [_ B].
    destruct (A l' Hl') as [A1 A2]. destruct (B l' Hl') as [B1 B2].
    split; intros Hr.
    + rewrite (bind_some _ _ _ _ _ (A1 Hr)), (bind_some _ _ _ _ _ (B1 Hr)).
      split; reflexivity.
    + rewrite (bind_none _ _ _ _ (A2 Hr)), (bind_none _ _ _ _ (B2 Hr)).
      split; reflexivity.
Qed.

Lemma userstate_new_session_witness :
  let E := example_env example_parse "!" in
  let c := mkChannel 0 "Root" None 0 ∅ ∅ in
  let s := set_channels {[0 := c]} initial_state in
  events (fst (handle_msg_userstate E example_join s)) =
    [("Mumble/UserJoined"%string, UserJoinedEv 0)].
Proof.
  cbv zeta.
  rewrite (proj1 (proj2 (proj2 (userstate_new_session (example_env example_parse "!")
             (set_channels {[0 := mkChannel 0 "Root" None 0 ∅ ∅]} initial_state)
             example_join eq_refl)))
             (mkChannel 0 "Root" None 0 ∅ ∅)); [reflexivity|discriminate|reflexivity|reflexivity].
Defined.

Lemma userstate_flag_deltas_witness :
  let u := mkUser 5 "alice" 0 false false false false false false false true in
  let a := mkUser 6 "bob" 0 false false false false false false false true in
  let s := set_users {[5 := 0%nat; 6 := 1%nat]}
             (set_heap {[0%nat := u; 1%nat := a]} 2 initial_state) in
  events (fst (handle_msg_userstate (example_env example_parse "!")
                 (mkUserStateMsg (Some 5) (Some 6) None None (Some true) (Some true)
                    None None None None None) s)) =
    [("Mumble/UserMuteToggle"%string, UserMuteToggleEv 0 true 1);
     ("Mumble/UserDeafToggle"%string, UserDeafToggleEv 0 true 1)].
Proof.
  cbv zeta.
  erewrite (proj1 (userstate_flag_deltas (example_env example_parse "!")
             (set_users {[5 := 0%nat; 6 := 1%nat]}
                (set_heap {[0%nat := mkUser 5 "alice" 0 false false false false false false false true;
                            1%nat := mkUser 6 "bob" 0 false false false false false false false true]}
                   2 initial_state))
             5 6 0 (mkUser 5 "alice" 0 false false false false false false false true)
             true true _ _) 1%nat _).
  all: try (first [discriminate | vm_compute; reflexivity]).
  Unshelve. all: first [discriminate | vm_compute; reflexivity].
Defined.

Lemma userstate_move_delta_witness :
  let u := mkUser 5 "alice" 0 false false false false false false false true in
  let a := mkUser 6 "bob" 0 false false false false false false false true in
  let s := set_channels {[0 := mkChannel 0 "Root" None 0 ∅ {[0%nat; 1%nat]};
                          1 := mkChannel 1 "Lobby" (Some 0) 0 ∅ ∅]}
             (set_users {[5 := 0%nat; 6 := 1%nat]}
                (set_heap {[0%nat := u; 1%nat := a]} 2 initial_state)) in
  events (fst (handle_msg_userstate (example_env example_parse "!")
                 (mkUserStateMsg (Some 5) (Some 6) None (Some 1) None None
                    None None None None None) s)) =
    [("Mumble/UserMoved"%string, UserMovedEv 0 1 0)].
Proof.
  cbv zeta.
  erewrite (proj1 (proj2 (proj2 (userstate_move_delta (example_env example_parse "!")
             (set_channels {[0 := mkChannel 0 "Root" None 0 ∅ {[0%nat; 1%nat]};
                             1 := mkChannel 1 "Lobby" (Some 0) 0 ∅ ∅]}
                (set_users {[5 := 0%nat; 6 := 1%nat]}
                   (set_heap {[0%nat := mkUser 5 "alice" 0 false false false false false false false true;
                               1%nat := mkUser 6 "bob" 0 false false false false false false false true]}
                      2 initial_state)))
             5 6 1 0 (mkUser 5 "alice" 0 false false false false false false false true)
             _ _))) 1%nat
             (mkChannel 0 "Root" None 0 ∅ {[0%nat; 1%nat]})
             (mkChannel 1 "Lobby" (Some 0) 0 ∅ ∅)).
  all: try (first [discriminate | vm_compute; reflexivity]).
  Unshelve. all: first [discriminate | vm_compute; reflexivity].
Defined.

Lemma handle_command_result_witness :
  handle_command (example_env example_parse "!") (RInt 5) (RChannel 0)
    "!hello world" initial_state =
  (set_events [("PreCommand"%string,
                PreCommandEv (mkPreCommand "hello" "world" (RInt 5) (RChannel 0) true
                                "!hello world"))] initial_state, Some false).
Proof.
  eapply (proj1 (proj2 (handle_command_result (example_env example_parse "!") (RInt 5)
            (RChannel 0) "!hello world" initial_state "hello" ["world"%string]
            _ _))).
  all: try (first [discriminate | vm_compute; reflexivity]).
  Unshelve. all: first [discriminate | vm_compute; reflexivity].
Defined.

Lemma send_to_user_object_witness :
  let u := mkUser 5 "alice" 0 false false false false false false false true in
  let s := set_users {[5 := 0%nat]} (set_heap {[0%nat := u]} 1 initial_state) in
  written (fst (send_msg (example_env example_parse "!") (RUser 0) "a<b" None false s)) =
    [(11, MTextMessage (mkTextMessageMsg None [5] [] [] "a&lt;b"))].
Proof.
  cbv zeta.
  erewrite (proj1 (proj1 (proj2 (send_to_user_object (example_env example_parse "!")
             (set_users {[5 := 0%nat]}
                (set_heap {[0%nat := mkUser 5 "alice" 0 false false false false false false false true]}
                   1 initial_state))
             0 (mkUser 5 "alice" 0 false false false false false false false true)
             "a<b" None false _) 0%nat _) _)).
  all: try (first [discriminate | lia | vm_compute; reflexivity]).
  Unshelve. all: first [discriminate | cbn; lia | vm_compute; reflexivity].
Defined.
